(** * Script generator: timeline, subtitles and template catalog

    A shallow embedding of [script_generator.py], [script_templates.py] and
    the parts of [script_config.py] they read, with the properties of the
    generated script, of the subtitle splitter and of the SRT exporter.

    Conventions of the embedding:
    - Python [str] is [string]; a character is its code point below 256.
    - Python numbers that carry times (int and float alike) are exact
      rationals ([Q]); scores and counts are [Z] or [nat].
    - A [dict] with a known key set is a record; a key that may be absent is
      an [option] field.
    - An exception is a value of [exception]; fallible code returns
      [result]; code that draws random numbers or reads the clock runs in
      the monad [M] over a [World]. *)

From Stdlib Require Import String Ascii List ZArith QArith Qround Qminmax.
From Stdlib Require Import Lia Bool DecimalString Lqa.
Import ListNotations.
Open Scope string_scope.

(** ** Python string primitives *)

Module PyStr.

(** [str.isspace] on one character, for code points below 256. *)
Definition is_space (c : ascii) : bool :=
  let n := nat_of_ascii c in
  ((9 <=? n) && (n <=? 13) || (28 <=? n) && (n <=? 32)
   || (n =? 133) || (n =? 160))%nat.

Definition is_empty (s : string) : bool :=
  match s with EmptyString => true | String _ _ => false end.

(** [snoc s c] is [s + c]. *)
Definition snoc (s : string) (c : ascii) : string := s ++ String c "".

(** [s.split()]: the maximal runs of non-blank characters. [cur] is the
    word being read. *)
Fixpoint split_from (s cur : string) : list string :=
  match s with
  | EmptyString => if is_empty cur then [] else [cur]
  | String c s' =>
      if is_space c
      then (if is_empty cur then split_from s' "" else cur :: split_from s' "")
      else split_from s' (snoc cur c)
  end.

Definition split (s : string) : list string := split_from s "".

(** [sep.join(parts)] *)
Fixpoint join (sep : string) (parts : list string) : string :=
  match parts with
  | [] => ""
  | [p] => p
  | p :: rest => p ++ sep ++ join sep rest
  end.

(** [s.lstrip()], [s.rstrip()], [s.strip()] *)
Fixpoint lstrip (s : string) : string :=
  match s with
  | EmptyString => ""
  | String c s' => if is_space c then lstrip s' else s
  end.

Fixpoint rstrip (s : string) : string :=
  match s with
  | EmptyString => ""
  | String c s' =>
      let r := rstrip s' in
      if is_empty r && is_space c then "" else String c r
  end.

Definition strip (s : string) : string := rstrip (lstrip s).

(** [s[:n]] for [n >= 0] *)
Fixpoint slice_to (n : nat) (s : string) : string :=
  match n, s with
  | S k, String c s' => String c (slice_to k s')
  | _, _ => ""
  end.

(** [c in s] for a one-character [c] *)
Fixpoint contains_char (c : ascii) (s : string) : bool :=
  match s with
  | EmptyString => false
  | String d s' => Ascii.eqb c d || contains_char c s'
  end.

(** [s.split(c)[0]]: what precedes the first [c]. *)
Fixpoint before_char (c : ascii) (s : string) : string :=
  match s with
  | EmptyString => ""
  | String d s' => if Ascii.eqb c d then "" else String d (before_char c s')
  end.

(** [template.format(subreddit=value)] for a template whose only
    replacement field is [{subreddit}] and which has no other brace.
    [skip] counts the characters of a field still to drop. *)
Fixpoint format_from (value s : string) (skip : nat) : string :=
  match s with
  | EmptyString => ""
  | String c s' =>
      match skip with
      | S k => format_from value s' k
      | O =>
          if String.prefix "{subreddit}" s
          then value ++ format_from value s' 10
          else String c (format_from value s' 0)
      end
  end.

Definition format_subreddit (template value : string) : string :=
  format_from value template 0.

(** [str(z)] and [f"{z}"] for an int *)
Definition of_int (z : Z) : string := NilZero.string_of_int (Z.to_int z).

(** [n * c]: a character repeated *)
Fixpoint repeat_char (c : ascii) (n : nat) : string :=
  match n with O => "" | S k => String c (repeat_char c k) end.

(** [f"{z:0wd}"]: sign first, then zeros up to [width] characters. *)
Definition zero_pad (width : nat) (z : Z) : string :=
  let digits := of_int (Z.abs z) in
  let sign := if (z <? 0)%Z then "-" else "" in
  sign ++ repeat_char "0" (width - String.length sign - String.length digits)
       ++ digits.

(** Digits grouped by three from the right, as [f"{z:,}"] prints them.
    [lead] is the number of digits before the first comma. *)
Fixpoint group3 (digits : string) (lead : nat) : string :=
  match digits with
  | EmptyString => ""
  | String c rest =>
      match lead with
      | O => String "," (String c (group3 rest 2))
      | S k => String c (group3 rest k)
      end
  end.

Definition of_int_grouped (z : Z) : string :=
  let digits := of_int (Z.abs z) in
  let n := String.length digits in
  let lead := match (n mod 3)%nat with O => 3%nat | r => r end in
  (if (z <? 0)%Z then "-" else "") ++ group3 digits lead.

(** [re.split(r"[.!?]+", s)]: the pieces between maximal runs of
    terminators, the empty first and last pieces included. [in_run] holds
    while the previous character was a terminator. *)
Definition is_terminator (c : ascii) : bool :=
  Ascii.eqb c "." || Ascii.eqb c "!" || Ascii.eqb c "?".

Fixpoint re_split_from (s cur : string) (in_run : bool) : list string :=
  match s with
  | EmptyString => [cur]
  | String c s' =>
      if is_terminator c
      then (if in_run then re_split_from s' "" true
            else cur :: re_split_from s' "" true)
      else re_split_from s' (snoc cur c) false
  end.

Definition re_split_terminators (s : string) : list string :=
  re_split_from s "" false.

End PyStr.

(** ** Numbers, exceptions and effects *)

(** [max(a, b)] of Python: the first argument unless the second is
    strictly greater. *)
Definition py_max (a b : Q) : Q :=
  match Qcompare b a with Gt => b | _ => a end.

(** [int(q)]: truncation towards zero. *)
Definition py_int (q : Q) : Z := Z.quot (Qnum q) (Zpos (Qden q)).

(** [a // b] and [a % b] for a positive [b]. *)
Definition py_floordiv (a b : Q) : Z := Qfloor (a / b).
Definition py_mod (a b : Q) : Q := a - inject_Z (py_floordiv a b) * b.

(** The exception classes of [script_generator.py] and the built-in ones
    the code can raise. *)
Inductive exception : Type :=
| ScriptGeneratorError (msg : string)
| InvalidFormatError (msg : string)
| InvalidPostDataError (msg : string)
| ValueError (msg : string)
| KeyError (key : string)
| IndexError (msg : string)
| ZeroDivisionError (msg : string).

Definition class_name (e : exception) : string :=
  match e with
  | ScriptGeneratorError _ => "ScriptGeneratorError"
  | InvalidFormatError _ => "InvalidFormatError"
  | InvalidPostDataError _ => "InvalidPostDataError"
  | ValueError _ => "ValueError"
  | KeyError _ => "KeyError"
  | IndexError _ => "IndexError"
  | ZeroDivisionError _ => "ZeroDivisionError"
  end.

(** [isinstance(e, ScriptGeneratorError)]: the base class and its two
    subclasses. *)
Definition is_script_generator_error (e : exception) : bool :=
  match e with
  | ScriptGeneratorError _ | InvalidFormatError _ | InvalidPostDataError _ =>
      true
  | _ => false
  end.

Inductive result (A : Type) : Type :=
| Ok (a : A)
| Raise (e : exception).
Arguments Ok {A} a.
Arguments Raise {A} e.

(** The random source: [draws] is the sequence of raw numbers the
    generator will produce and [drawn] how many were consumed. Seeding the
    generator fixes [draws] and resets [drawn]. *)
Record Rng : Type := { draws : nat -> nat; drawn : nat }.

Definition seed (tape : nat -> nat) : Rng := {| draws := tape; drawn := 0 |}.

(** What a call can observe and change beside its arguments: the random
    source, and the text [datetime.now().isoformat()] returns. *)
Record World : Type := { rng : Rng; clock_iso : string }.

Definition M (A : Type) : Type := World -> result A * World.

Definition ret {A} (a : A) : M A := fun w => (Ok a, w).

Definition raise {A} (e : exception) : M A := fun w => (Raise e, w).

Definition bind {A B} (m : M A) (k : A -> M B) : M B :=
  fun w =>
    match m w with
    | (Ok a, w') => k a w'
    | (Raise e, w') => (Raise e, w')
    end.

Definition lift {A} (r : result A) : M A := fun w => (r, w).

Notation "x <- m ;; k" := (bind m (fun x => k))
  (at level 61, m at next level, right associativity).
Notation "m ;;; k" := (bind m (fun _ => k))
  (at level 61, right associativity).

(** [random._randbelow(n)] for [n > 0] *)
Definition randbelow (n : nat) : M nat :=
  fun w =>
    let g := rng w in
    (Ok (draws g (drawn g) mod n)%nat,
     {| rng := {| draws := draws g; drawn := S (drawn g) |};
        clock_iso := clock_iso w |}).

(** [random.choice(seq)] *)
Definition choice {A} (seq : list A) : M A :=
  match seq with
  | [] => raise (IndexError "Cannot choose from an empty sequence")
  | _ =>
      i <- randbelow (List.length seq) ;;
      match nth_error seq i with
      | Some x => ret x
      | None => raise (IndexError "list index out of range")
      end
  end.

(** [datetime.now().isoformat()] *)
Definition now_isoformat : M string := fun w => (Ok (clock_iso w), w).

(** The line feed character as a string. *)
Definition nl : string := String (ascii_of_nat 10) "".

(** [l.append(x)] *)
Definition append {A} (l : list A) (x : A) : list A := (l ++ [x])%list.

(** [d.get(key)] on a dictionary with string keys, kept in the order of
    its keys. *)
Fixpoint lookup {A} (key : string) (d : list (string * A)) : option A :=
  match d with
  | [] => None
  | (k, v) :: rest => if String.eqb key k then Some v else lookup key rest
  end.

(** ** script_templates.py *)

Module Templates.

(** One entry of a template's [segments] list. [repeatable] is the only
    key that some entries lack. *)
Record SegmentTemplate : Type := {
  t_name : string;
  t_duration : Z;
  t_required : bool;
  t_content_type : string;
  t_narration : string;
  t_visual : string;
  t_repeatable : option bool
}.

Definition seg (name : string) (duration : Z) (required : bool)
    (content_type narration visual : string) : SegmentTemplate :=
  {| t_name := name; t_duration := duration; t_required := required;
     t_content_type := content_type; t_narration := narration;
     t_visual := visual; t_repeatable := None |}.

Record ScriptTemplate : Type := {
  format_type : string;
  segments : list SegmentTemplate
}.

Definition ShortFormTemplate : ScriptTemplate :=
  {| format_type := "short";
     segments :=
       [ seg "hook" 3 true "title" "attention_grabbing" "title_screen";
         seg "body" 15 true "post_body" "main_content" "text_overlay";
         seg "top_comment" 8 false "comments" "comment_reaction"
             "comment_highlight";
         seg "outro" 3 true "call_to_action" "engagement" "cta_screen" ] |}.

Definition MediumFormTemplate : ScriptTemplate :=
  {| format_type := "medium";
     segments :=
       [ seg "intro" 5 true "intro" "greeting" "animated_intro";
         seg "title" 6 true "title" "title_read" "title_screen";
         seg "context" 3 false "metadata" "background" "stats_display";
         seg "body" 30 true "post_body" "main_content" "text_overlay";
         seg "comments" 15 true "comments" "comment_reactions"
             "comment_section";
         seg "engagement" 3 false "engagement" "question"
             "engagement_prompt";
         seg "outro" 5 true "call_to_action" "subscribe_reminder"
             "outro_screen" ] |}.

Definition LongFormTemplate : ScriptTemplate :=
  {| format_type := "long";
     segments :=
       [ seg "cold_open" 8 false "teaser" "hook" "dramatic_opener";
         seg "intro" 8 true "intro" "channel_intro" "branded_intro";
         seg "title" 8 true "title" "title_with_context" "title_animation";
         seg "context" 10 true "metadata" "detailed_background"
             "context_graphics";
         seg "body_part_1" 45 true "post_body" "main_content"
             "scrolling_text";
         seg "mid_engagement" 8 true "engagement" "like_reminder"
             "like_button_animation";
         seg "body_part_2" 45 false "post_continuation" "continued_content"
             "scrolling_text";
         seg "comments" 40 true "comments" "comment_analysis"
             "comment_thread";
         seg "engagement" 8 true "engagement" "discussion_prompt"
             "poll_or_question";
         seg "outro" 10 true "outro" "thanks_and_subscribe" "end_screen" ] |}.

Definition StoryTimeTemplate : ScriptTemplate :=
  {| format_type := "story";
     segments :=
       [ seg "hook" 5 true "title" "story_hook" "dramatic_text";
         seg "setup" 15 true "context" "story_setup" "background_visuals";
         seg "story" 60 true "post_body" "story_telling" "story_visuals";
         seg "reactions" 30 true "comments" "reaction_summary"
             "comment_reactions";
         seg "conclusion" 10 true "outro" "story_wrap" "conclusion_screen" ] |}.

Definition CompilationTemplate : ScriptTemplate :=
  {| format_type := "compilation";
     segments :=
       [ seg "intro" 10 true "intro" "compilation_intro" "montage";
         {| t_name := "post_segment"; t_duration := 30; t_required := true;
            t_content_type := "post_block"; t_narration := "post_summary";
            t_visual := "post_display"; t_repeatable := Some true |};
         seg "outro" 10 true "outro" "compilation_outro" "end_montage" ] |}.

(** The template factory, in the order of its keys. *)
Definition TEMPLATES : list (string * ScriptTemplate) :=
  [ ("short", ShortFormTemplate);
    ("medium", MediumFormTemplate);
    ("long", LongFormTemplate);
    ("story", StoryTimeTemplate);
    ("compilation", CompilationTemplate) ].

Definition list_templates : list string := map fst TEMPLATES.

Definition get_template (template_name : string) : result ScriptTemplate :=
  match lookup template_name TEMPLATES with
  | None =>
      Raise (ValueError
               ("Invalid template: " ++ template_name ++ ". "
                ++ "Available templates: "
                ++ PyStr.join ", " list_templates))
  | Some t => Ok t
  end.

End Templates.

(** ** script_config.py *)

Module Config.

(** The entries of [SCRIPT_OPTIONS] that the generator reads. *)
Record Options : Type := {
  words_per_minute : Q;
  pause_duration : Q;
  show_usernames : bool;
  show_scores : bool
}.

Definition SCRIPT_OPTIONS : Options :=
  {| words_per_minute := 150; pause_duration := 1 # 2;
     show_usernames := true; show_scores := true |}.

(** The entries of a [COMMENT_SELECTION] value that the generator reads. *)
Record Criteria : Type := { max_comments : nat; min_score : Z }.

Definition COMMENT_SELECTION : list (string * Criteria) :=
  [ ("short", {| max_comments := 1; min_score := 100 |});
    ("medium", {| max_comments := 3; min_score := 50 |});
    ("long", {| max_comments := 10; min_score := 10 |}) ].

(** [NARRATION_TEMPLATES["intro"]] *)
Definition NARRATION_TEMPLATES_intro : list (string * list string) :=
  [ ("casual",
     [ "Check out this post from Reddit";
       "Here's an interesting story from r/{subreddit}";
       "You won't believe what happened on Reddit";
       "This Reddit post is wild";
       "Let me tell you about this Reddit story" ]);
    ("formal",
     [ "Today we're looking at a post from r/{subreddit}";
       "This is a story that was shared on Reddit";
       "A user on Reddit shared this interesting post" ]);
    ("dramatic",
     [ "This is the story that shocked Reddit";
       "What you're about to hear will blow your mind";
       "The internet went crazy over this post" ]);
    ("comedic",
     [ "Reddit never disappoints, and this post proves it";
       "Hold onto your hats for this one folks";
       "The internet is a weird place, and here's proof" ]) ].

(** [NARRATION_TEMPLATES["transition"]["to_comments"]] *)
Definition NARRATION_TEMPLATES_to_comments : list string :=
  [ "Let's see what people had to say";
    "The comments section did not disappoint";
    "Here's what Redditors thought";
    "The best part is in the comments" ].

(** [NARRATION_TEMPLATES["engagement"]] *)
Definition NARRATION_TEMPLATES_engagement : list string :=
  [ "What do you think about this?";
    "Let me know in the comments";
    "Would you do the same thing?";
    "This is crazy, right?";
    "Drop your thoughts below" ].

(** [NARRATION_TEMPLATES["outro"]] *)
Definition NARRATION_TEMPLATES_outro : list string :=
  [ "Thanks for watching! Hit that subscribe button for more Reddit content";
    "Don't forget to like and subscribe";
    "Follow for more stories from Reddit";
    "See you in the next one";
    "That's it for today, catch you later" ].

(** [EXPORT_FORMATS["srt"]["max_chars_per_line"]], also the default of
    [_generate_subtitles]. *)
Definition max_chars_per_line : nat := 42.

End Config.

(** ** The post record and the script *)

Record Comment : Type := {
  c_id : option string;
  c_author : option string;
  c_body : option string;
  c_score : option Z;
  c_is_submitter : option bool
}.

Record Award : Type := { a_name : string; a_count : Z }.

(** The mapping the fetcher produces. Every key may be missing. *)
Record PostData : Type := {
  p_id : option string;
  p_title : option string;
  p_author : option string;
  p_subreddit : option string;
  p_url : option string;
  p_score : option Z;
  p_num_comments : option Z;
  p_body : option string;
  p_comments : option (list Comment);
  p_awards : option (list Award)
}.

(** [d.get(key, default)] and [d[key]] on an optional field *)
Definition get {A} (v : option A) (default : A) : A :=
  match v with Some x => x | None => default end.

Definition getitem {A} (key : string) (v : option A) : result A :=
  match v with Some x => Ok x | None => Raise (KeyError key) end.

Definition is_some {A} (v : option A) : bool :=
  match v with Some _ => true | None => false end.

(** [field in post_data] *)
Definition has_key (field : string) (post_data : PostData) : bool :=
  if String.eqb field "id" then is_some (p_id post_data)
  else if String.eqb field "title" then is_some (p_title post_data)
  else if String.eqb field "author" then is_some (p_author post_data)
  else if String.eqb field "subreddit" then is_some (p_subreddit post_data)
  else if String.eqb field "url" then is_some (p_url post_data)
  else if String.eqb field "score" then is_some (p_score post_data)
  else if String.eqb field "num_comments"
       then is_some (p_num_comments post_data)
  else if String.eqb field "body" then is_some (p_body post_data)
  else if String.eqb field "comments" then is_some (p_comments post_data)
  else if String.eqb field "awards" then is_some (p_awards post_data)
  else false.

(** The dictionaries [_generate_visual_cues] puts in ["elements"]. *)
Inductive VisualElement : Type :=
| TextAt (content position : string)
| LabelAt (content position : string)
| TextScroll (content : string) (scroll : bool)
| CommentBox (author content : string) (score : Z)
| Stat (label : string) (value : Z).

Record Visual : Type := {
  v_type : string;
  v_elements : list VisualElement
}.

Record Segment : Type := {
  name : string;
  type : string;
  start_time : Q;
  end_time : Q;
  duration : Q;
  narration : string;
  visual : Visual;
  required : bool
}.

Record Metadata : Type := {
  post_id : string;
  title : string;
  subreddit : string;
  author : string;
  post_url : string;
  format_type : string;
  template : string;
  generated_at : string;
  post_score : Z;
  num_comments : Z
}.

Record Script : Type := {
  metadata : Metadata;
  segments : list Segment;
  total_duration : Q;
  word_count : nat;
  narration_style : string
}.

Record Subtitle : Type := {
  sub_start : Q;
  sub_end : Q;
  sub_text : string
}.

(** ** script_generator.py *)

Module ScriptGenerator.
Import Config.

(** [_count_words] *)
Definition _count_words (text : string) : nat :=
  if PyStr.is_empty text then 0%nat else List.length (PyStr.split text).

(** The selection loop of [_generate_comments_narration]: [selected]
    grows at its end, and the loop is left once it holds
    [max_comments] entries. *)
Fixpoint select_comments (criteria : Criteria) (comments selected : list Comment)
  : list Comment :=
  match comments with
  | [] => selected
  | comment :: rest =>
      if (max_comments criteria <=? List.length selected)%nat
      then selected
      else if (min_score criteria <=? get (c_score comment) 0)%Z
           then select_comments criteria rest (append selected comment)
           else select_comments criteria rest selected
  end.

(** [COMMENT_SELECTION.get(format_type, {"max_comments": 3,
    "min_score": 10})] *)
Definition comment_criteria (format_type : string) : Criteria :=
  get (lookup format_type COMMENT_SELECTION)
      {| max_comments := 3; min_score := 10 |}.

(** [_generate_title_narration] *)
Definition _generate_title_narration (post_data : PostData) (style : string)
  : result string :=
  match getitem "title" (p_title post_data) with
  | Raise e => Raise e
  | Ok title =>
      if String.eqb style "dramatic" then Ok ("Listen to this: " ++ title)
      else if String.eqb style "comedic" then Ok ("Get this: " ++ title)
      else Ok title
  end.

(** [_generate_body_narration] *)
Definition _generate_body_narration (post_data : PostData)
    (format_type : string) : string :=
  let body := get (p_body post_data) "" in
  if PyStr.is_empty body then ""
  else
    let max_words :=
      if String.eqb format_type "short" then 50%nat
      else if String.eqb format_type "medium" then 150%nat
      else 500%nat in
    let words := PyStr.split body in
    if (max_words <? List.length words)%nat
    then PyStr.join " " (firstn max_words words) ++ "..."
    else body.

(** [_generate_teaser_narration] *)
Definition _generate_teaser_narration (post_data : PostData) (style : string)
  : result string :=
  match getitem "title" (p_title post_data) with
  | Raise e => Raise e
  | Ok title =>
      let teaser :=
        if PyStr.contains_char ":" title
        then PyStr.before_char ":" title
        else
          let words := PyStr.split title in
          PyStr.join " " (firstn (Nat.min 10 (List.length words)) words) in
      if String.eqb style "dramatic"
      then Ok ("You need to hear this story about " ++ teaser)
      else Ok teaser
  end.

(** [_generate_engagement_narration] *)
Definition _generate_engagement_narration (style : string) : M string :=
  let prompts := NARRATION_TEMPLATES_engagement in
  let prompts :=
    match prompts with
    | [] => ["What do you think?"; "Let me know in the comments"]
    | _ => prompts
    end in
  choice prompts.

(** [_generate_outro_narration] *)
Definition _generate_outro_narration (style : string) : M string :=
  let outros := NARRATION_TEMPLATES_outro in
  let outros :=
    match outros with
    | [] => ["Thanks for watching!"]
    | _ => outros
    end in
  choice outros.

(** [_generate_intro_narration] *)
Definition _generate_intro_narration (post_data : PostData) (style : string)
  : M string :=
  let templates := get (lookup style NARRATION_TEMPLATES_intro) [] in
  let templates :=
    match templates with
    | [] => ["Here's an interesting post from r/{subreddit}"]
    | _ => templates
    end in
  template <- choice templates ;;
  subreddit <- lift (getitem "subreddit" (p_subreddit post_data)) ;;
  ret (PyStr.format_subreddit template subreddit).

(** [_generate_visual_cues] *)
Definition _generate_visual_cues (visual_type content_type : string)
    (post_data : PostData) : result Visual :=
  if String.eqb visual_type "title_screen" then
    match getitem "title" (p_title post_data) with
    | Raise e => Raise e
    | Ok title =>
        match getitem "subreddit" (p_subreddit post_data) with
        | Raise e => Raise e
        | Ok subreddit =>
            Ok {| v_type := visual_type;
                  v_elements := [ TextAt title "center";
                                  LabelAt ("r/" ++ subreddit) "top" ] |}
        end
    end
  else if String.eqb visual_type "text_overlay" then
    Ok {| v_type := visual_type;
          v_elements := [ TextScroll (get (p_body post_data) "") true ] |}
  else if String.eqb visual_type "comment_section" then
    Ok {| v_type := visual_type;
          v_elements :=
            map (fun comment =>
                   CommentBox (get (c_author comment) "")
                              (get (c_body comment) "")
                              (get (c_score comment) 0%Z))
                (firstn 3 (get (p_comments post_data) [])) |}
  else if String.eqb visual_type "stats_display" then
    Ok {| v_type := visual_type;
          v_elements :=
            [ Stat "Upvotes" (get (p_score post_data) 0%Z);
              Stat "Comments" (get (p_num_comments post_data) 0%Z) ] |}
  else Ok {| v_type := visual_type; v_elements := [] |}.

(** [_validate_post_data] *)
Definition required_fields : list string :=
  ["title"; "body"; "subreddit"; "author"].

Definition missing_fields (post_data : PostData) : list string :=
  filter (fun field => negb (has_key field post_data)) required_fields.

Definition _validate_post_data (post_data : PostData) : result unit :=
  match missing_fields post_data with
  | [] => Ok tt
  | missing =>
      Raise (InvalidPostDataError
               ("Post data missing required fields: "
                ++ PyStr.join ", " missing))
  end.

(** [_generate_metadata] *)
Definition _generate_metadata (post_data : PostData)
    (format_type template_name : string) : M Metadata :=
  title <- lift (getitem "title" (p_title post_data)) ;;
  subreddit <- lift (getitem "subreddit" (p_subreddit post_data)) ;;
  author <- lift (getitem "author" (p_author post_data)) ;;
  generated_at <- now_isoformat ;;
  ret {| post_id := get (p_id post_data) "unknown";
         title := title;
         subreddit := subreddit;
         author := author;
         post_url := get (p_url post_data) "";
         format_type := format_type;
         template := template_name;
         generated_at := generated_at;
         post_score := get (p_score post_data) 0%Z;
         num_comments := get (p_num_comments post_data) 0%Z |}.

Section Generator.

(** [self.options]; [self.words_per_minute] is its entry of that
    name. *)
Variable options : Options.

(** [_generate_context_narration] *)
Definition _generate_context_narration (post_data : PostData)
    (format_type : string) : result string :=
  match (if show_usernames options
         then match getitem "author" (p_author post_data) with
              | Raise e => Raise e
              | Ok author => Ok ["Posted by u/" ++ author]
              end
         else Ok []) with
  | Raise e => Raise e
  | Ok context_parts =>
      let context_parts :=
        if show_scores options
           && negb (get (p_score post_data) 0 =? 0)%Z
        then append context_parts
               ("with "
                ++ PyStr.of_int_grouped (get (p_score post_data) 0%Z)
                ++ " upvotes")
        else context_parts in
      let context_parts :=
        if String.eqb format_type "long"
           && negb (List.length (get (p_awards post_data) []) =? 0)%nat
        then
          let award_count := List.length (get (p_awards post_data) []) in
          if (0 <? award_count)%nat
          then append context_parts
                 ("and " ++ PyStr.of_int (Z.of_nat award_count)
                  ++ " awards")
          else context_parts
        else context_parts in
      match context_parts with
      | [] => Ok ""
      | _ => Ok (PyStr.join ". " context_parts ++ ".")
      end
  end.

(** The text of one selected comment in
    [_generate_comments_narration]. *)
Definition comment_text (format_type : string) (comment : Comment)
  : string :=
  let author := get (c_author comment) "someone" in
  let body := get (c_body comment) "" in
  let score := get (c_score comment) 0%Z in
  let max_length :=
    if String.eqb format_type "long" then 200%nat else 100%nat in
  let body :=
    if (max_length <? String.length body)%nat
    then PyStr.slice_to max_length body ++ "..."
    else body in
  let text :=
    if show_usernames options
    then "u/" ++ author ++ " said: " ++ body
    else "One person said: " ++ body in
  if show_scores options && (50 <? score)%Z
  then text ++ ". This got " ++ PyStr.of_int score ++ " upvotes"
  else text.

(** [_generate_comments_narration] *)
Definition _generate_comments_narration (post_data : PostData)
    (format_type : string) : M string :=
  let comments := get (p_comments post_data) [] in
  match comments with
  | [] => ret ""
  | _ =>
      let criteria := comment_criteria format_type in
      let selected := select_comments criteria comments [] in
      match selected with
      | [] => ret ""
      | _ =>
          let transitions := NARRATION_TEMPLATES_to_comments in
          narration_parts <-
            match transitions with
            | [] => ret []
            | _ => t <- choice transitions ;; ret [t]
            end ;;
          let narration_parts :=
            (narration_parts ++ map (comment_text format_type) selected)%list
          in
          ret (PyStr.join ". " narration_parts ++ ".")
      end
  end.

(** [_generate_narration] *)
Definition _generate_narration (content_type : string)
    (post_data : PostData) (format_type narration_style segment_name : string)
  : M string :=
  if String.eqb content_type "intro" then
    _generate_intro_narration post_data narration_style
  else if String.eqb content_type "title" then
    lift (_generate_title_narration post_data narration_style)
  else if String.eqb content_type "metadata"
          || String.eqb content_type "context" then
    lift (_generate_context_narration post_data format_type)
  else if String.eqb content_type "post_body" then
    ret (_generate_body_narration post_data format_type)
  else if String.eqb content_type "comments" then
    _generate_comments_narration post_data format_type
  else if String.eqb content_type "engagement" then
    _generate_engagement_narration narration_style
  else if String.eqb content_type "call_to_action"
          || String.eqb content_type "outro" then
    _generate_outro_narration narration_style
  else if String.eqb content_type "teaser" then
    lift (_generate_teaser_narration post_data narration_style)
  else ret "".

(** [_calculate_duration] *)
Definition _calculate_duration (text : string) (base_duration : Q)
  : result Q :=
  if PyStr.is_empty text then Ok base_duration
  else
    let word_count := _count_words text in
    if Qeq_bool (words_per_minute options) 0
    then Raise (ZeroDivisionError "division by zero")
    else
      let calculated_duration :=
        inject_Z (Z.of_nat word_count) / words_per_minute options * 60 in
      let pause_time := pause_duration options in
      let calculated_duration := calculated_duration + pause_time in
      Ok (py_max base_duration calculated_duration).

(** [_generate_segment]; [None] is Python's [None]. *)
Definition _generate_segment
    (segment_template : Templates.SegmentTemplate)
    (post_data : PostData) (start_time : Q)
    (format_type narration_style : string) : M (option Segment) :=
  let segment_name := Templates.t_name segment_template in
  let content_type := Templates.t_content_type segment_template in
  narration <-
    _generate_narration content_type post_data format_type
                        narration_style segment_name ;;
  if PyStr.is_empty narration && negb (Templates.t_required segment_template)
  then ret None
  else
    duration <-
      lift (_calculate_duration narration
              (inject_Z (Templates.t_duration segment_template))) ;;
    visual_cues <-
      lift (_generate_visual_cues (Templates.t_visual segment_template)
                                  content_type post_data) ;;
    ret (Some {| name := segment_name;
                 type := content_type;
                 start_time := start_time;
                 end_time := start_time + duration;
                 duration := duration;
                 narration := narration;
                 visual := visual_cues;
                 required := Templates.t_required segment_template |}).

(** The loop of [generate_script] over [template.segments]:
    [acc] is [script["segments"]] so far. *)
Fixpoint generate_segments (segment_templates : list Templates.SegmentTemplate)
    (post_data : PostData) (format_type narration_style : string)
    (acc : list Segment) (cumulative_time : Q)
  : M (list Segment * Q) :=
  match segment_templates with
  | [] => ret (acc, cumulative_time)
  | segment_template :: rest =>
      segment <-
        _generate_segment segment_template post_data cumulative_time
                          format_type narration_style ;;
      match segment with
      | Some s =>
          generate_segments rest post_data format_type narration_style
                            (append acc s) (end_time s)
      | None =>
          generate_segments rest post_data format_type narration_style
                            acc cumulative_time
      end
  end.

(** [generate_script]; [template_name] is [None] when the caller
    leaves it out. *)
Definition generate_script (post_data : PostData) (format_type : string)
    (template_name : option string) (narration_style : string)
  : M Script :=
  lift (_validate_post_data post_data) ;;;
  let template_name := get template_name format_type in
  template <- lift (Templates.get_template template_name) ;;
  metadata <- _generate_metadata post_data format_type template_name ;;
  r <- generate_segments (Templates.segments template) post_data
         format_type narration_style [] 0 ;;
  let '(segs, cumulative_time) := r in
  ret {| metadata := metadata;
         segments := segs;
         total_duration := cumulative_time;
         word_count :=
           fold_left Nat.add
             (map (fun seg => _count_words (narration seg)) segs) 0%nat;
         narration_style := narration_style |}.

(** The inner loop of [_generate_subtitles] over the words of a
    long sentence: [lines], [current_line] and [current_length] are
    the loop's variables, returned as they stand after the last
    word. *)
Fixpoint wrap_words (max_chars_per_line : nat) (words : list string)
    (lines current_line : list string) (current_length : nat)
  : list string * list string :=
  match words with
  | [] => (lines, current_line)
  | word :: rest =>
      if (max_chars_per_line <? current_length + String.length word + 1)%nat
      then wrap_words max_chars_per_line rest
             (append lines (PyStr.join " " current_line))
             [word] (String.length word)
      else wrap_words max_chars_per_line rest lines
             (append current_line word)
             (current_length + String.length word + 1)
  end.

(** The lines a long sentence is wrapped into. *)
Definition wrap_lines (max_chars_per_line : nat) (sentence : string)
  : list string :=
  let '(lines, current_line) :=
    wrap_words max_chars_per_line (PyStr.split sentence) [] [] 0 in
  match current_line with
  | [] => lines
  | _ => append lines (PyStr.join " " current_line)
  end.

(** The text of a subtitle entry: the sentence, wrapped when it is
    longer than the limit. *)
Definition subtitle_text (max_chars_per_line : nat) (sentence : string)
  : string :=
  if (max_chars_per_line <? String.length sentence)%nat
  then PyStr.join nl (wrap_lines max_chars_per_line sentence)
  else sentence.

(** [[s.strip() for s in re.split(r"[.!?]+", narration) if s.strip()]] *)
Definition split_sentences (narration : string) : list string :=
  map PyStr.strip
      (filter (fun s => negb (PyStr.is_empty (PyStr.strip s)))
              (PyStr.re_split_terminators narration)).

(** The loop of [_generate_subtitles] over the sentences of one
    segment. *)
Fixpoint sentence_subtitles (max_chars_per_line : nat)
    (sentences : list string) (time_per_sentence current_time : Q)
    (subtitles : list Subtitle) : list Subtitle :=
  match sentences with
  | [] => subtitles
  | sentence :: rest =>
      sentence_subtitles max_chars_per_line rest time_per_sentence
        (current_time + time_per_sentence)
        (append subtitles
           {| sub_start := current_time;
              sub_end := current_time + time_per_sentence;
              sub_text := subtitle_text max_chars_per_line sentence |})
  end.

(** The body of the loop of [_generate_subtitles] over the segments. *)
Definition segment_subtitles (max_chars_per_line : nat)
    (segment : Segment) (subtitles : list Subtitle) : list Subtitle :=
  let narration := narration segment in
  if PyStr.is_empty narration then subtitles
  else
    let sentences := split_sentences narration in
    let segment_duration := duration segment in
    let time_per_sentence :=
      match sentences with
      | [] => 0
      | _ => segment_duration / inject_Z (Z.of_nat (List.length sentences))
      end in
    sentence_subtitles max_chars_per_line sentences time_per_sentence
                       (start_time segment) subtitles.

(** [_generate_subtitles] *)
Definition _generate_subtitles_with (max_chars_per_line : nat)
    (script : Script) : list Subtitle :=
  fold_left (fun subtitles segment =>
               segment_subtitles max_chars_per_line segment subtitles)
            (segments script) [].

Definition _generate_subtitles (script : Script) : list Subtitle :=
  _generate_subtitles_with 42 script.

(** [timedelta(seconds=seconds).total_seconds()]: the value rounded
    to a whole number of microseconds, ties to even. *)
Definition timedelta_total_seconds (seconds : Q) : Q :=
  let us := seconds * 1000000 in
  let lo := Qfloor us in
  let rounded :=
    match Qcompare (us - inject_Z lo) (1 # 2) with
    | Lt => lo
    | Gt => (lo + 1)%Z
    | Eq => if Z.even lo then lo else (lo + 1)%Z
    end in
  inject_Z rounded / 1000000.

(** The four fields of [_format_srt_time] and [_format_vtt_time]. *)
Definition time_fields (seconds : Q) : Z * Z * Z * Z :=
  let td := timedelta_total_seconds seconds in
  let hours := py_floordiv td 3600 in
  let minutes := py_floordiv (py_mod td 3600) 60 in
  let secs := py_int (py_mod td 60) in
  let millis := py_int ((seconds - inject_Z (py_int seconds)) * 1000) in
  (hours, minutes, secs, millis).

(** [_format_srt_time] *)
Definition _format_srt_time (seconds : Q) : string :=
  let '(hours, minutes, secs, millis) := time_fields seconds in
  PyStr.zero_pad 2 hours ++ ":" ++ PyStr.zero_pad 2 minutes ++ ":"
    ++ PyStr.zero_pad 2 secs ++ "," ++ PyStr.zero_pad 3 millis.

(** [_format_vtt_time] *)
Definition _format_vtt_time (seconds : Q) : string :=
  let '(hours, minutes, secs, millis) := time_fields seconds in
  PyStr.zero_pad 2 hours ++ ":" ++ PyStr.zero_pad 2 minutes ++ ":"
    ++ PyStr.zero_pad 2 secs ++ "." ++ PyStr.zero_pad 3 millis.

(** What [_export_srt] writes for the entry numbered [i]. *)
Definition srt_block (i : nat) (subtitle : Subtitle) : string :=
  PyStr.of_int (Z.of_nat i) ++ nl
    ++ _format_srt_time (sub_start subtitle) ++ " --> "
    ++ _format_srt_time (sub_end subtitle) ++ nl
    ++ sub_text subtitle ++ nl ++ nl.

(** The loop of [_export_srt] over [enumerate(subtitles, i)]. *)
Fixpoint srt_blocks (i : nat) (subtitles : list Subtitle) : string :=
  match subtitles with
  | [] => ""
  | subtitle :: rest => srt_block i subtitle ++ srt_blocks (S i) rest
  end.

(** [_export_srt]: the text written to [output_path]. *)
Definition _export_srt (script : Script) : string :=
  srt_blocks 1 (_generate_subtitles script).

End Generator.

End ScriptGenerator.

(** ** Specification vocabulary *)

Import ScriptGenerator.

(** The post record has the four keys [_validate_post_data] asks for. *)
Definition valid_post (post_data : PostData) : Prop :=
  p_title post_data <> None /\ p_body post_data <> None
  /\ p_subreddit post_data <> None /\ p_author post_data <> None.

(** The post record lacks at least one of them. *)
Definition lacks_required_key (post_data : PostData) : Prop :=
  p_title post_data = None \/ p_body post_data = None
  \/ p_subreddit post_data = None \/ p_author post_data = None.

(** The names of the catalog. *)
Definition catalog_names : list string :=
  ["short"; "medium"; "long"; "story"; "compilation"].

(** [chain t segs t']: the segments follow one another from time [t] to
    time [t'], each starting where the previous one ends and lasting its
    own non-negative duration. *)
Fixpoint chain (t : Q) (segs : list Segment) (t' : Q) : Prop :=
  match segs with
  | [] => t = t'
  | s :: rest =>
      start_time s = t /\ end_time s = start_time s + duration s
      /\ 0 <= duration s /\ chain (end_time s) rest t'
  end.

(** The timeline of a script, by position. *)
Definition timeline_ok (script : Script) : Prop :=
  let segs := segments script in
  (forall s, nth_error segs 0 = Some s -> start_time s = 0)
  /\ (forall i s1 s2,
         nth_error segs i = Some s1 -> nth_error segs (S i) = Some s2 ->
         start_time s2 = end_time s1)
  /\ (forall s, In s segs ->
         end_time s = start_time s + duration s /\ 0 <= duration s
         /\ start_time s <= end_time s)
  /\ (forall d, segs <> [] -> total_duration script = end_time (last segs d)).

(** [assembled options post fmt style specs t segs t']: walking the segment
    specs from time [t] gives the segments [segs] and ends at time [t'].
    A spec is kept when its narration is not empty or it is required, and
    dropped otherwise; a kept segment copies the spec's name, content type
    and required flag, and lasts what [_calculate_duration] says. *)
Inductive assembled (options : Config.Options) (post_data : PostData)
    (format_type narration_style : string)
  : list Templates.SegmentTemplate -> Q -> list Segment -> Q -> Prop :=
| assembled_nil : forall t,
    assembled options post_data format_type narration_style [] t [] t
| assembled_keep : forall st rest t s segs t' w w',
    _generate_narration options (Templates.t_content_type st) post_data
      format_type narration_style (Templates.t_name st) w
      = (Ok (narration s), w') ->
    (narration s <> "" \/ Templates.t_required st = true) ->
    _calculate_duration options (narration s)
      (inject_Z (Templates.t_duration st)) = Ok (duration s) ->
    name s = Templates.t_name st ->
    type s = Templates.t_content_type st ->
    required s = Templates.t_required st ->
    start_time s = t ->
    end_time s = t + duration s ->
    assembled options post_data format_type narration_style
      rest (end_time s) segs t' ->
    assembled options post_data format_type narration_style
      (st :: rest) t (s :: segs) t'
| assembled_drop : forall st rest t segs t' w w',
    _generate_narration options (Templates.t_content_type st) post_data
      format_type narration_style (Templates.t_name st) w = (Ok "", w') ->
    Templates.t_required st = false ->
    assembled options post_data format_type narration_style rest t segs t' ->
    assembled options post_data format_type narration_style
      (st :: rest) t segs t'.

(** A comment qualifies for a format when its score reaches the format's
    minimum. *)
Definition qualifies (criteria : Config.Criteria) (comment : Comment) : bool :=
  (Config.min_score criteria <=? get (c_score comment) 0)%Z.

(** The world with another clock reading. *)
Definition with_clock (c : string) (w : World) : World :=
  {| rng := rng w; clock_iso := c |}.

(** A computation that does not read the clock. *)
Definition clock_free {A} (m : M A) : Prop :=
  forall w c, m (with_clock c w) = (fst (m w), with_clock c (snd (m w))).

(** The metadata with another generation time. *)
Definition with_generated_at (g : string) (m : Metadata) : Metadata :=
  {| post_id := post_id m; title := title m; subreddit := subreddit m;
     author := author m; post_url := post_url m;
     format_type := format_type m; template := template m;
     generated_at := g; post_score := post_score m;
     num_comments := num_comments m |}.

Fixpoint all_chars (p : ascii -> bool) (s : string) : bool :=
  match s with
  | EmptyString => true
  | String c s' => p c && all_chars p s'
  end.

(** No character of [s] is a sentence terminator. *)
Definition terminator_free (s : string) : Prop :=
  all_chars (fun c => negb (PyStr.is_terminator c)) s = true.

(** A string of blanks, a non-empty one, and a word: a non-empty string
    without a blank. *)
Definition blank (s : string) : Prop := all_chars PyStr.is_space s = true.

Definition blank_run (s : string) : Prop := s <> "" /\ blank s.

Definition blank_free (s : string) : Prop :=
  all_chars (fun c => negb (PyStr.is_space c)) s = true.

Definition is_word (s : string) : Prop := s <> "" /\ blank_free s.

(** A separator of sentences: a non-empty run of terminators. *)
Definition terminator_run (s : string) : Prop :=
  s <> "" /\ all_chars PyStr.is_terminator s = true.

(** The pieces with a separator between each two of them, in one string. *)
Fixpoint interleave (pieces seps : list string) : string :=
  match pieces, seps with
  | [], _ => ""
  | p :: _, [] => p
  | p :: ps, r :: rs => p ++ r ++ interleave ps rs
  end.

(** Each line but the last was closed because the first word of the next
    line did not fit after it. A line is the list of its words. *)
Fixpoint closed_when_full (m : nat) (groups : list (list string)) : Prop :=
  match groups with
  | [] => True
  | g :: rest =>
      match rest with
      | (w :: _) :: _ =>
          (m < String.length (PyStr.join " " g) + 1 + String.length w)%nat
          /\ closed_when_full m rest
      | _ => True
      end
  end.

(** The subtitle entries follow one another from time [t], each lasting
    [span]. *)
Fixpoint evenly_spaced (t span : Q) (entries : list Subtitle) : Prop :=
  match entries with
  | [] => True
  | e :: rest =>
      sub_start e = t /\ sub_end e = t + span
      /\ evenly_spaced (sub_end e) span rest
  end.

(** ** Further code: template information, the pipeline, WebVTT *)

(** What [get_template_info] returns. *)
Record TemplateInfo : Type := {
  info_name : string;
  info_format_type : string;
  total_segments : nat;
  required_segments : nat;
  estimated_duration : Z;
  segment_names : list string
}.

(** [get_template_info] of [script_templates.py] *)
Definition get_template_info (template_name : string) : result TemplateInfo :=
  match Templates.get_template template_name with
  | Raise e => Raise e
  | Ok template =>
      let total_duration :=
        fold_left Z.add
          (map Templates.t_duration (Templates.segments template)) 0%Z in
      let required_segments :=
        map Templates.t_name
            (filter Templates.t_required (Templates.segments template)) in
      Ok {| info_name := template_name;
            info_format_type := Templates.format_type template;
            total_segments := List.length (Templates.segments template);
            required_segments := List.length required_segments;
            estimated_duration := total_duration;
            segment_names :=
              map Templates.t_name (Templates.segments template) |}
  end.

(** [x in l] for a list of strings *)
Definition in_list (x : string) (l : list string) : bool :=
  existsb (String.eqb x) l.

Module RedditToVideo.

(** The format type [_generate_script] of [reddit_to_video.py] derives
    from [self.video_format]. *)
Definition format_type_of (video_format : string) : string :=
  if in_list video_format ["tiktok"; "youtube_shorts"] then "short"
  else if in_list video_format ["instagram"; "facebook"] then "medium"
  else "long".

(** [RedditToVideo._generate_script]: [self.script_generator] is a
    [ScriptGenerator()] with the default options. *)
Definition _generate_script (video_format narration_style : string)
    (post_data : PostData) : M Script :=
  let format_type := format_type_of video_format in
  generate_script Config.SCRIPT_OPTIONS post_data format_type None
    narration_style.

End RedditToVideo.

(** What [_export_vtt] writes for one entry. *)
Definition vtt_block (subtitle : Subtitle) : string :=
  _format_vtt_time (sub_start subtitle) ++ " --> "
    ++ _format_vtt_time (sub_end subtitle) ++ nl
    ++ sub_text subtitle ++ nl ++ nl.

(** [_export_vtt]: the text written to [output_path]. *)
Definition _export_vtt (script : Script) : string :=
  "WEBVTT" ++ nl ++ nl
    ++ String.concat "" (map vtt_block (_generate_subtitles script)).

(** [l1] is [l2] with some elements left out, the order kept. *)
Inductive subsequence {A : Type} : list A -> list A -> Prop :=
| subsequence_nil : subsequence [] []
| subsequence_keep : forall x l1 l2,
    subsequence l1 l2 -> subsequence (x :: l1) (x :: l2)
| subsequence_skip : forall x l1 l2,
    subsequence l1 l2 -> subsequence l1 (x :: l2).

(** The sum of rationals. *)
Definition Qsum (l : list Q) : Q := fold_right Qplus 0 l.

(** The number of words a template budget allows in the body narration. *)
Definition body_word_budget (format_type : string) : nat :=
  if String.eqb format_type "short" then 50%nat
  else if String.eqb format_type "medium" then 150%nat
  else 500%nat.

(** The prefix [_generate_title_narration] puts before the title. *)
Definition title_prefix (style : string) : string :=
  if String.eqb style "dramatic" then "Listen to this: "
  else if String.eqb style "comedic" then "Get this: "
  else "".

(** The time a subtitle time stamp reads as, from its four fields. *)
Definition fields_seconds (f : Z * Z * Z * Z) : Q :=
  let '(hours, minutes, secs, millis) := f in
  inject_Z (hours * 3600 + minutes * 60 + secs) + inject_Z millis / 1000.

(** The sum of integers and of naturals. *)
Definition Zsum (l : list Z) : Z := fold_right Z.add 0%Z l.




(** ** Sample inputs *)

Module Sample.

Definition comment (author body : string) (score : Z) : Comment :=
  {| c_id := None; c_author := Some author; c_body := Some body;
     c_score := Some score; c_is_submitter := Some false |}.

(** The post of the test suite, with a shorter body. *)
Definition post : PostData :=
  {| p_id := Some "test123";
     p_title := Some "TIL that octopuses have three hearts and blue blood";
     p_author := Some "test_user";
     p_subreddit := Some "todayilearned";
     p_url := Some "https://reddit.com/r/todayilearned/comments/test123/";
     p_score := Some 15234%Z;
     p_num_comments := Some 456%Z;
     p_body := Some "Octopuses have three hearts. Their blood is blue.";
     p_comments :=
       Some [ comment "commenter1" "This is fascinating!" 2543;
              comment "commenter2" "I learned this in biology class!" 1234 ];
     p_awards := Some [ {| a_name := "Gold"; a_count := 5 |} ] |}.

(** The same post without comments. *)
Definition quiet_post : PostData :=
  {| p_id := p_id post; p_title := p_title post; p_author := p_author post;
     p_subreddit := p_subreddit post; p_url := p_url post;
     p_score := p_score post; p_num_comments := Some 0%Z;
     p_body := p_body post; p_comments := Some [];
     p_awards := p_awards post |}.

(** The post of the error-handling test: only an id. *)
Definition invalid_post : PostData :=
  {| p_id := Some "123"; p_title := None; p_author := None;
     p_subreddit := None; p_url := None; p_score := None;
     p_num_comments := None; p_body := None; p_comments := None;
     p_awards := None |}.

Definition world (clock : string) : World :=
  {| rng := seed (fun n => n); clock_iso := clock |}.

(** The script of the SRT scenario: one segment of four seconds. *)
Definition hello_segment : Segment :=
  {| name := "body"; type := "post_body"; start_time := 0; end_time := 4;
     duration := 4; narration := "Hello there. Goodbye now.";
     visual := {| v_type := "text_overlay"; v_elements := [] |};
     required := true |}.

Definition hello_script : Script :=
  {| metadata :=
       {| post_id := "test123"; title := "Hello"; subreddit := "test";
          author := "test_user"; post_url := ""; format_type := "short";
          template := "short"; generated_at := "2024-01-01T00:00:00";
          post_score := 0; num_comments := 0 |};
     segments := [hello_segment];
     total_duration := 4;
     word_count := 4;
     narration_style := "casual" |}.

(** A sentence of one word longer than a subtitle line. *)
Definition long_word : string := PyStr.repeat_char "a" 43.

(** Four comments that all reach the medium threshold of 50, the best
    one last. *)
Definition four_comments : list Comment :=
  [ comment "first" "One." 100; comment "second" "Two." 60;
    comment "third" "Three." 70; comment "fourth" "Four." 5000 ].

Definition busy_post : PostData :=
  {| p_id := p_id post; p_title := p_title post; p_author := p_author post;
     p_subreddit := p_subreddit post; p_url := p_url post;
     p_score := p_score post; p_num_comments := Some 4%Z;
     p_body := p_body post; p_comments := Some four_comments;
     p_awards := p_awards post |}.

Definition w0 : World := world "2024-01-01T00:00:00".

End Sample.

(** ** The monad *)

Lemma bind_inv {A B} (m : M A) (k : A -> M B) w r w' :
  bind m k w = (r, w') ->
  (exists a w1, m w = (Ok a, w1) /\ k a w1 = (r, w'))
  \/ (exists e, m w = (Raise e, w') /\ r = Raise e).
Proof.
  unfold bind. destruct (m w) as [[a | e] w1]; intros H.
  - left. exists a, w1. split; [reflexivity | exact H].
  - right. exists e. inversion H; subst. split; reflexivity.
Qed.

Lemma bind_ok_inv {A B} (m : M A) (k : A -> M B) w b w' :
  bind m k w = (Ok b, w') ->
  exists a w1, m w = (Ok a, w1) /\ k a w1 = (Ok b, w').
Proof.
  intros H. destruct (bind_inv _ _ _ _ _ H) as [Hok | [e [_ He]]].
  - exact Hok.
  - discriminate He.
Qed.

Lemma bind_ok {A B} (m : M A) (k : A -> M B) w a w1 :
  m w = (Ok a, w1) -> bind m k w = k a w1.
Proof. unfold bind. intros ->. reflexivity. Qed.

Lemma bind_raise {A B} (m : M A) (k : A -> M B) w e w1 :
  m w = (Raise e, w1) -> bind m k w = (Raise e, w1).
Proof. unfold bind. intros ->. reflexivity. Qed.

Lemma lift_inv {A} (r : result A) w r' w' :
  lift r w = (r', w') -> r' = r /\ w' = w.
Proof. unfold lift. intros H. inversion H. split; reflexivity. Qed.

Lemma ret_inv {A} (a : A) w r w' :
  ret a w = (r, w') -> r = Ok a /\ w' = w.
Proof. unfold ret. intros H. inversion H. split; reflexivity. Qed.

(** [random.choice] on a non-empty list returns one of its elements. *)
Lemma choice_nonempty {A} (seq : list A) w :
  seq <> [] -> exists x w', choice seq w = (Ok x, w') /\ In x seq.
Proof.
  intros Hne. destruct seq as [| a seq]; [congruence |].
  unfold choice, bind, randbelow.
  set (i := (draws (rng w) (drawn (rng w)) mod List.length (a :: seq))%nat).
  assert (Hi : (i < List.length (a :: seq))%nat).
  { apply Nat.mod_upper_bound. simpl. lia. }
  destruct (nth_error (a :: seq) i) as [x |] eqn:Hx.
  - eexists x, _. split; [reflexivity |]. eapply nth_error_In; eassumption.
  - apply nth_error_None in Hx. lia.
Qed.

Lemma choice_inv {A} (seq : list A) w x w' :
  choice seq w = (Ok x, w') -> In x seq.
Proof.
  destruct seq as [| a seq]; [discriminate |].
  intros H. destruct (choice_nonempty (a :: seq) w) as [y [w1 [Hy Hin]]];
    [congruence |].
  rewrite Hy in H. inversion H; subst. exact Hin.
Qed.

(** ** Strings and words *)

Lemma all_chars_snoc p s c :
  all_chars p (PyStr.snoc s c) = all_chars p s && p c.
Proof.
  unfold PyStr.snoc. induction s as [| d s IH]; simpl.
  - rewrite andb_true_r. reflexivity.
  - rewrite IH. apply andb_assoc.
Qed.

Lemma snoc_append s c rest : PyStr.snoc s c ++ rest = s ++ String c rest.
Proof.
  unfold PyStr.snoc. induction s as [| d s IH]; simpl.
  - reflexivity.
  - rewrite IH. reflexivity.
Qed.

Lemma append_empty_r s : s ++ "" = s.
Proof. induction s as [| c s IH]; simpl; [| rewrite IH]; reflexivity. Qed.

Lemma append_assoc (a b c : string) : (a ++ b) ++ c = a ++ b ++ c.
Proof. induction a as [| x a IH]; simpl; [| rewrite IH]; reflexivity. Qed.

Lemma length_append (a b : string) :
  String.length (a ++ b) = (String.length a + String.length b)%nat.
Proof. induction a as [| x a IH]; simpl; [| rewrite IH]; reflexivity. Qed.

Lemma snoc_nonempty s c : PyStr.snoc s c <> "".
Proof. destruct s; discriminate. Qed.

(** [str.split()]: the string is its words with a non-empty run of blanks
    between each two of them, after leading and before trailing blanks;
    no word is empty or holds a blank. [cur] is the word being read. *)
Lemma split_from_spec s :
  forall cur, blank_free cur ->
    Forall is_word (PyStr.split_from s cur)
    /\ (cur <> "" \/ PyStr.split_from s cur <> [] ->
        exists lead seps trail,
          (cur <> "" -> lead = "")
          /\ blank lead /\ blank trail /\ Forall blank_run seps
          /\ List.length (PyStr.split_from s cur) = S (List.length seps)
          /\ lead ++ interleave (PyStr.split_from s cur) seps ++ trail
             = cur ++ s)
    /\ (cur = "" -> PyStr.split_from s cur = [] -> blank s).
Proof.
  induction s as [| c s IH]; intros cur Hcur.
  - simpl. destruct cur as [| d cur]; simpl.
    + split; [constructor |]. split; [| reflexivity].
      intros [H | H]; congruence.
    + split; [constructor; [split; [discriminate | exact Hcur] | constructor] |].
      split; [| discriminate].
      intros _. exists "", [], "". simpl. rewrite !append_empty_r.
      repeat split; auto.
  - simpl. destruct (PyStr.is_space c) eqn:Hc.
    + destruct (IH "" eq_refl) as [Hwords [Hdec Hnone]].
      destruct cur as [| d cur]; simpl.
      * split; [exact Hwords |]. split.
        -- intros [H | H]; [congruence |].
           destruct (Hdec (or_intror H))
             as [lead [seps [trail [_ [Hl [Ht [Hs [Hlen Heq]]]]]]]].
           exists (String c lead), seps, trail. simpl in Heq.
           repeat split; auto.
           ++ intros Hf. congruence.
           ++ unfold blank. simpl. rewrite Hc. exact Hl.
           ++ simpl. rewrite Heq. reflexivity.
        -- intros _ H. unfold blank. simpl. rewrite Hc. apply Hnone; auto.
      * split; [constructor; [split; [discriminate | exact Hcur] | exact Hwords] |].
        split; [| discriminate].
        intros _. destruct (PyStr.split_from s "") as [| w ws] eqn:Hws.
        -- exists "", [], (String c s). simpl.
           repeat split; auto.
           unfold blank. simpl. rewrite Hc. apply Hnone; auto.
        -- destruct Hdec
             as [lead [seps [trail [_ [Hl [Ht [Hs [Hlen Heq]]]]]]]];
             [right; discriminate |].
           exists "", (String c lead :: seps), trail.
           simpl in Heq.
           split; [reflexivity |]. split; [reflexivity |].
           split; [exact Ht |]. split; [| split].
           ++ constructor; [| exact Hs]. split; [discriminate |].
              unfold blank. simpl. rewrite Hc. exact Hl.
           ++ simpl in Hlen |- *. lia.
           ++ simpl. f_equal. rewrite <- Heq.
              rewrite !append_assoc. simpl. rewrite !append_assoc.
              reflexivity.
    + assert (Hcur' : blank_free (PyStr.snoc cur c)).
      { unfold blank_free. rewrite all_chars_snoc.
        unfold blank_free in Hcur. rewrite Hcur, Hc. reflexivity. }
      destruct (IH (PyStr.snoc cur c) Hcur') as [Hwords [Hdec Hnone]].
      destruct Hdec as [lead [seps [trail [Hlead [Hl [Ht [Hs [Hlen Heq]]]]]]]];
        [left; apply snoc_nonempty |].
      split; [exact Hwords |]. split.
      * intros _. exists lead, seps, trail.
        rewrite snoc_append in Heq. repeat split; auto.
        intros _. apply Hlead. apply snoc_nonempty.
      * intros _ Hnil. rewrite Hnil in Hlen. discriminate Hlen.
Qed.

(** The words of a string. *)
Lemma split_spec s :
  Forall is_word (PyStr.split s)
  /\ ((PyStr.split s = [] /\ blank s)
      \/ exists lead seps trail,
           blank lead /\ blank trail /\ Forall blank_run seps
           /\ List.length (PyStr.split s) = S (List.length seps)
           /\ lead ++ interleave (PyStr.split s) seps ++ trail = s).
Proof.
  unfold PyStr.split.
  destruct (split_from_spec s "" eq_refl) as [Hwords [Hdec Hnone]].
  split; [exact Hwords |].
  destruct (PyStr.split_from s "") as [| w ws] eqn:Hws.
  - left. split; [reflexivity | apply Hnone; reflexivity].
  - right. destruct Hdec as [lead [seps [trail [_ H]]]];
      [right; discriminate |].
    exists lead, seps, trail. exact H.
Qed.

(** ** Comment selection *)

Lemma select_comments_acc criteria comments selected :
  select_comments criteria comments selected
  = firstn (Config.max_comments criteria)
           (selected ++ filter (qualifies criteria) comments)%list
    \/ (Config.max_comments criteria < List.length selected)%nat.
Proof.
  revert selected.
  induction comments as [| c rest IH]; intros selected; simpl.
  - destruct (Nat.le_gt_cases (List.length selected)
                (Config.max_comments criteria)) as [Hle | Hgt].
    + left. rewrite app_nil_r. symmetry. apply firstn_all2. exact Hle.
    + right. exact Hgt.
  - destruct (Nat.leb_spec (Config.max_comments criteria)
                (List.length selected)) as [Hfull | Hroom].
    + destruct (Nat.eq_dec (Config.max_comments criteria)
                  (List.length selected)) as [Heq | Hne].
      * left. rewrite firstn_app, Heq, firstn_all, Nat.sub_diag.
        simpl. rewrite app_nil_r. reflexivity.
      * right. lia.
    + unfold qualifies at 1.
      destruct (Config.min_score criteria <=? get (c_score c) 0)%Z.
      * destruct (IH (append selected c)) as [Heq | Hlen].
        -- left. rewrite Heq. unfold append.
           rewrite <- app_assoc. reflexivity.
        -- unfold append in Hlen. rewrite length_app in Hlen. simpl in Hlen.
           lia.
      * exact (IH selected).
Qed.

(** C10. The comments narration scans the comments in list order and
    keeps the first ones whose score reaches the format's minimum, up to
    the format's maximum count: the selection is the filtered list cut at
    that count, and the narration reads the selected comments in that
    order. Nothing is ranked by score, so a comment that comes after the
    maximum count of qualifying comments is left out whatever its score:
    the selection is the one of the comments before it. *)
Theorem comment_selection_in_order options post_data format_type :
  let criteria := comment_criteria format_type in
  let comments := get (p_comments post_data) [] in
  let selected :=
    firstn (Config.max_comments criteria)
           (filter (qualifies criteria) comments) in
  select_comments criteria comments [] = selected
  /\ (forall w narration w',
        _generate_comments_narration options post_data format_type w
        = (Ok narration, w') ->
        (selected = [] /\ narration = "")
        \/ (exists transition,
              In transition Config.NARRATION_TEMPLATES_to_comments
              /\ narration
                 = PyStr.join ". "
                     (transition
                        :: map (comment_text options format_type) selected)
                   ++ "."))
  /\ (forall before c after,
        comments = (before ++ c :: after)%list ->
        (Config.max_comments criteria
         <= List.length (filter (qualifies criteria) before))%nat ->
        select_comments criteria comments []
        = select_comments criteria before []).
Proof.
  intros criteria comments selected.
  assert (Hsel : forall l,
             select_comments criteria l []
             = firstn (Config.max_comments criteria)
                      (filter (qualifies criteria) l)).
  { intros l. destruct (select_comments_acc criteria l []) as [H | H].
    - exact H.
    - simpl in H. lia. }
  split; [apply Hsel |]. split.
  - intros w narration w' Hrun.
    unfold _generate_comments_narration in Hrun.
    fold comments in Hrun. fold criteria in Hrun.
    rewrite Hsel in Hrun. fold selected in Hrun.
    destruct comments as [| c0 cs] eqn:Hcs.
    + left. apply ret_inv in Hrun. destruct Hrun as [Hr _].
      inversion Hr. split; [| reflexivity].
      unfold selected. simpl. apply firstn_nil.
    + destruct selected as [| s0 ss] eqn:Hs.
      * left. apply ret_inv in Hrun. destruct Hrun as [Hr _].
        inversion Hr. split; reflexivity.
      * right. simpl in Hrun.
        apply bind_ok_inv in Hrun. destruct Hrun as [parts [w1 [Hparts Hret]]].
        apply bind_ok_inv in Hparts. destruct Hparts as [t [w2 [Ht Hret2]]].
        apply ret_inv in Hret2. destruct Hret2 as [Hp _]. inversion Hp; subst.
        apply ret_inv in Hret. destruct Hret as [Hn _]. inversion Hn; subst.
        exists t. split; [| reflexivity].
        eapply (choice_inv Config.NARRATION_TEMPLATES_to_comments).
        exact Ht.
  - intros before c after Hsplit Hfull.
    rewrite !Hsel, Hsplit, filter_app, firstn_app.
    replace (Config.max_comments criteria
             - List.length (filter (qualifies criteria) before))%nat
      with 0%nat by lia.
    simpl. rewrite app_nil_r. reflexivity.
Qed.

(** ** The duration calculator *)

Lemma py_max_Qmax a b : py_max a b == Qmax a b.
Proof.
  unfold py_max. destruct (Qcompare b a) eqn:Hc.
  - apply Qeq_alt in Hc. symmetry. apply Q.max_l. rewrite Hc. apply Qle_refl.
  - apply Qlt_alt in Hc. symmetry. apply Q.max_l. apply Qlt_le_weak. exact Hc.
  - apply Qgt_alt in Hc. symmetry. apply Q.max_r. apply Qlt_le_weak. exact Hc.
Qed.

Lemma py_max_ge_l a b : a <= py_max a b.
Proof. rewrite py_max_Qmax. apply Q.le_max_l. Qed.


Lemma is_empty_true s : PyStr.is_empty s = true <-> s = "".
Proof. destruct s; simpl; split; congruence. Qed.

Lemma is_empty_false s : PyStr.is_empty s = false <-> s <> "".
Proof. destruct s; simpl; split; congruence. Qed.

Lemma count_words_split text :
  _count_words text = List.length (PyStr.split text).
Proof. destruct text; reflexivity. Qed.

Lemma calculate_duration_ge options text base d :
  _calculate_duration options text base = Ok d -> base <= d.
Proof.
  unfold _calculate_duration.
  destruct (PyStr.is_empty text).
  - intros H. inversion H. apply Qle_refl.
  - destruct (Qeq_bool (Config.words_per_minute options) 0); [discriminate |].
    intros H. inversion H. apply py_max_ge_l.
Qed.

Lemma calculate_duration_total options text base :
  ~ Config.words_per_minute options == 0 ->
  exists d, _calculate_duration options text base = Ok d.
Proof.
  intros Hwpm. unfold _calculate_duration.
  destruct (PyStr.is_empty text); [eexists; reflexivity |].
  destruct (Qeq_bool (Config.words_per_minute options) 0) eqn:Hz.
  - apply Qeq_bool_eq in Hz. contradiction.
  - eexists; reflexivity.
Qed.

(** C3. For a generator whose speaking rate is not zero, the duration
    calculator returns the nominal duration unchanged for the empty
    narration, with no pause added, and for every other narration the
    maximum of the nominal duration and
    [word_count / words_per_minute * 60 + pause_duration], where
    [word_count] is the number of whitespace-separated words; so the
    duration of a non-empty narration is at least the nominal one. The
    words are what lies between the runs of blanks of the text: the text
    is its words with a non-empty run of blanks between each two, after
    leading and before trailing blanks. *)
Theorem calculate_duration_spec options text base :
  ~ Config.words_per_minute options == 0 ->
  (text = "" -> _calculate_duration options text base = Ok base)
  /\ (text <> "" ->
      exists d,
        _calculate_duration options text base = Ok d
        /\ d == Qmax base
                  (inject_Z (Z.of_nat (List.length (PyStr.split text)))
                   / Config.words_per_minute options * 60
                   + Config.pause_duration options)
        /\ base <= d)
  /\ Forall is_word (PyStr.split text)
  /\ ((PyStr.split text = [] /\ blank text)
      \/ exists lead seps trail,
           blank lead /\ blank trail /\ Forall blank_run seps
           /\ List.length (PyStr.split text) = S (List.length seps)
           /\ lead ++ interleave (PyStr.split text) seps ++ trail = text).
Proof.
  intros Hwpm. split; [| split; [| apply split_spec]].
  - intros ->. reflexivity.
  - intros Hne. unfold _calculate_duration.
    apply is_empty_false in Hne. rewrite Hne.
    destruct (Qeq_bool (Config.words_per_minute options) 0) eqn:Hz.
    + apply Qeq_bool_eq in Hz. contradiction.
    + eexists. split; [reflexivity |]. split.
      * rewrite count_words_split. apply py_max_Qmax.
      * apply py_max_ge_l.
Qed.

(** The calculator at the default options: six words last 2.9 seconds,
    which a nominal duration of 2 does not cover and one of 3 does. *)
Lemma calculate_duration_spec_witness :
  (_calculate_duration Config.SCRIPT_OPTIONS "" 3 = Ok 3)
  /\ (exists d,
        _calculate_duration Config.SCRIPT_OPTIONS "one two three four five six" 2
        = Ok d
        /\ d == Qmax 2 (inject_Z 6 / 150 * 60 + (1 # 2)) /\ 2 <= d).
Proof.
  destruct (calculate_duration_spec Config.SCRIPT_OPTIONS "" 3) as [He _].
  { simpl. intros H. discriminate H. }
  destruct (calculate_duration_spec Config.SCRIPT_OPTIONS
              "one two three four five six" 2) as [_ [Hn _]].
  { simpl. intros H. discriminate H. }
  split.
  - apply He. reflexivity.
  - apply Hn. discriminate.
Defined.

(** ** The template catalog *)

Lemma lookup_none_iff {A} key (d : list (string * A)) :
  lookup key d = None <-> ~ In key (map fst d).
Proof.
  induction d as [| [k v] rest IH]; simpl.
  - tauto.
  - destruct (String.eqb_spec key k) as [-> | Hne].
    + split; [discriminate | intros H; exfalso; apply H; left; reflexivity].
    + rewrite IH. split.
      * intros Hn [Hk | Hin]; [congruence | contradiction].
      * intros Hn Hin. apply Hn. right. exact Hin.
Qed.

Lemma lookup_some_in {A} key (d : list (string * A)) v :
  lookup key d = Some v -> In (key, v) d.
Proof.
  induction d as [| [k v'] rest IH]; simpl; [discriminate |].
  destruct (String.eqb_spec key k) as [-> | Hne].
  - intros H. inversion H. left. reflexivity.
  - intros H. right. apply IH. exact H.
Qed.

Lemma get_template_known template_name t :
  Templates.get_template template_name = Ok t ->
  In (template_name, t) Templates.TEMPLATES.
Proof.
  unfold Templates.get_template.
  destruct (lookup template_name Templates.TEMPLATES) eqn:Hl; [| discriminate].
  intros H. inversion H; subst. apply lookup_some_in. exact Hl.
Qed.

(** The two outcomes of the lookup. *)
Lemma get_template_outcome template_name :
  (forall e, Templates.get_template template_name = Raise e ->
     ~ In template_name catalog_names /\ class_name e = "ValueError")
  /\ (forall t, Templates.get_template template_name = Ok t ->
        In template_name catalog_names).
Proof.
  assert (Hnames : map fst Templates.TEMPLATES = catalog_names)
    by reflexivity.
  split.
  - intros e H. unfold Templates.get_template in H.
    destruct (lookup template_name Templates.TEMPLATES) eqn:Hl;
      [discriminate |].
    inversion H. split; [| reflexivity].
    rewrite <- Hnames. apply lookup_none_iff. exact Hl.
  - intros t H. rewrite <- Hnames. apply get_template_known in H.
    apply (in_map fst) in H. exact H.
Qed.

(** The lookup of an unknown name raises the built-in [ValueError]: no
    exception class of the name [TemplateNotFoundError] exists. *)
Lemma get_template_error_class_counterexample :
  ~ (forall template_name,
        ~ In template_name catalog_names ->
        exists e,
          Templates.get_template template_name = Raise e
          /\ class_name e = "TemplateNotFoundError").
Proof.
  intros H. destruct (H "tutorial") as [e [He Hc]].
  - simpl. intros [Hn | [Hn | [Hn | [Hn | [Hn | []]]]]]; discriminate Hn.
  - vm_compute in He. inversion He; subst. discriminate Hc.
Qed.

(** C4, amended. The template lookup is a pure function of the name. For
    every name outside the catalog (short, medium, long, story,
    compilation) it raises [ValueError], which is not a
    [ScriptGeneratorError], with a message that lists the catalog; for
    every name of the catalog it returns that template, whose segment
    specs are the catalog's; and it leaves the world as it found it. *)
Theorem get_template_spec template_name :
  (In template_name catalog_names
   \/ Templates.get_template template_name
      = Raise (ValueError
                 ("Invalid template: " ++ template_name
                  ++ ". Available templates: "
                  ++ "short, medium, long, story, compilation")))
  /\ (forall e, Templates.get_template template_name = Raise e ->
        ~ In template_name catalog_names
        /\ class_name e = "ValueError"
        /\ is_script_generator_error e = false)
  /\ (forall t, Templates.get_template template_name = Ok t ->
        In template_name catalog_names
        /\ lookup template_name Templates.TEMPLATES = Some t)
  /\ Templates.get_template "short" = Ok Templates.ShortFormTemplate
  /\ Templates.get_template "medium" = Ok Templates.MediumFormTemplate
  /\ Templates.get_template "long" = Ok Templates.LongFormTemplate
  /\ Templates.get_template "story" = Ok Templates.StoryTimeTemplate
  /\ Templates.get_template "compilation" = Ok Templates.CompilationTemplate
  /\ (forall w, snd (lift (Templates.get_template template_name) w) = w).
Proof.
  assert (Hnames : map fst Templates.TEMPLATES = catalog_names)
    by reflexivity.
  repeat split; try reflexivity.
  - destruct (lookup template_name Templates.TEMPLATES) eqn:Hl.
    + left. rewrite <- Hnames. intros.
      destruct (in_dec string_dec template_name (map fst Templates.TEMPLATES))
        as [Hin | Hout]; [exact Hin |].
      apply lookup_none_iff in Hout. congruence.
    + right. unfold Templates.get_template. rewrite Hl. reflexivity.
  - unfold Templates.get_template in H.
    destruct (lookup template_name Templates.TEMPLATES) eqn:Hl;
      [discriminate |].
    rewrite <- Hnames. apply lookup_none_iff. exact Hl.
  - unfold Templates.get_template in H.
    destruct (lookup template_name Templates.TEMPLATES); [discriminate |].
    inversion H. reflexivity.
  - unfold Templates.get_template in H.
    destruct (lookup template_name Templates.TEMPLATES); [discriminate |].
    inversion H. reflexivity.
  - rewrite <- Hnames. apply get_template_known in H.
    apply (in_map fst) in H. exact H.
  - unfold Templates.get_template in H.
    destruct (lookup template_name Templates.TEMPLATES); [| discriminate].
    inversion H. reflexivity.
Qed.

(** ** Narration of a valid post *)

Lemma intro_templates_plain style :
  let templates := get (lookup style Config.NARRATION_TEMPLATES_intro) [] in
  let templates :=
    match templates with
    | [] => ["Here's an interesting post from r/{subreddit}"]
    | _ => templates
    end in
  templates <> []
  /\ Forall (fun t => forall v, PyStr.format_subreddit t v <> "") templates.
Proof.
  cbv zeta.
  destruct (lookup style Config.NARRATION_TEMPLATES_intro) as [l |] eqn:Hl.
  - apply lookup_some_in in Hl. simpl in Hl.
    destruct Hl as [H | [H | [H | [H | []]]]]; inversion H; subst; simpl;
      (split; [discriminate |]);
      repeat constructor; intros v; unfold PyStr.format_subreddit; cbn;
      intros Hv; discriminate Hv.
  - simpl. split; [discriminate |].
    repeat constructor; intros v; unfold PyStr.format_subreddit; cbn;
      intros Hv; discriminate Hv.
Qed.

Lemma intro_narration_total post_data style w subreddit :
  p_subreddit post_data = Some subreddit ->
  exists n w',
    _generate_intro_narration post_data style w = (Ok n, w') /\ n <> "".
Proof.
  intros Hsr. unfold _generate_intro_narration.
  destruct (intro_templates_plain style) as [Hne Hall].
  cbv zeta in Hne, Hall.
  destruct (choice_nonempty _ w Hne) as [t [w1 [Hc Hin]]].
  rewrite (bind_ok _ _ _ _ _ Hc). rewrite Hsr. simpl.
  eexists _, _. split; [reflexivity |].
  rewrite Forall_forall in Hall. apply Hall. exact Hin.
Qed.

Lemma choice_total_nonempty (seq : list string) w :
  seq <> [] -> Forall (fun s => s <> "") seq ->
  exists n w', choice seq w = (Ok n, w') /\ n <> "".
Proof.
  intros Hne Hall. destruct (choice_nonempty seq w Hne) as [x [w' [Hc Hin]]].
  exists x, w'. split; [exact Hc |].
  rewrite Forall_forall in Hall. apply Hall. exact Hin.
Qed.

Lemma engagement_narration_total style w :
  exists n w', _generate_engagement_narration style w = (Ok n, w') /\ n <> "".
Proof.
  apply choice_total_nonempty; [discriminate |].
  repeat constructor; discriminate.
Qed.

Lemma outro_narration_total style w :
  exists n w', _generate_outro_narration style w = (Ok n, w') /\ n <> "".
Proof.
  apply choice_total_nonempty; [discriminate |].
  repeat constructor; discriminate.
Qed.

Lemma append_dot_nonempty s : s ++ "." <> "".
Proof. destruct s; discriminate. Qed.

(** The comments narration never fails; it is empty exactly when no
    comment is selected, whatever the random source gives. *)
Lemma comments_narration_total options post_data format_type w :
  exists n w',
    _generate_comments_narration options post_data format_type w = (Ok n, w')
    /\ (n = "" <->
        select_comments (comment_criteria format_type)
          (get (p_comments post_data) []) [] = []).
Proof.
  unfold _generate_comments_narration.
  destruct (get (p_comments post_data) []) as [| c cs] eqn:Hcs.
  - eexists _, _. split; [reflexivity |]. simpl. tauto.
  - destruct (select_comments (comment_criteria format_type) (c :: cs) [])
      as [| s ss] eqn:Hsel.
    + eexists _, _. split; [reflexivity |]. tauto.
    + destruct (choice_nonempty Config.NARRATION_TEMPLATES_to_comments w)
        as [t [w1 [Hc _]]]; [discriminate |].
      simpl. unfold bind at 1. unfold bind at 1.
      simpl in Hc. rewrite Hc. simpl.
      eexists _, _. split; [reflexivity |].
      split; [intros H; exfalso; revert H; apply append_dot_nonempty
             | discriminate].
Qed.

Lemma context_narration_total options post_data format_type author :
  p_author post_data = Some author ->
  exists n,
    _generate_context_narration options post_data format_type = Ok n.
Proof.
  intros Ha. unfold _generate_context_narration. rewrite Ha. simpl.
  destruct (Config.show_usernames options).
  - match goal with
    | |- context [match ?l with [] => _ | _ :: _ => _ end] =>
        destruct l; eexists; reflexivity
    end.
  - match goal with
    | |- context [match ?l with [] => _ | _ :: _ => _ end] =>
        destruct l; eexists; reflexivity
    end.
Qed.

(** The narration builder never fails on a valid post. *)
Lemma narration_total options content_type post_data format_type style
    segment_name w :
  valid_post post_data ->
  exists n w',
    _generate_narration options content_type post_data format_type style
      segment_name w = (Ok n, w').
Proof.
  intros [Ht [Hb [Hs Ha]]].
  destruct (p_title post_data) as [title |] eqn:Etitle; [| congruence].
  destruct (p_subreddit post_data) as [sr |] eqn:Esr; [| congruence].
  destruct (p_author post_data) as [au |] eqn:Eau; [| congruence].
  unfold _generate_narration.
  destruct (String.eqb content_type "intro").
  { destruct (intro_narration_total post_data style w sr Esr)
      as [n [w' [H _]]]. eauto. }
  destruct (String.eqb content_type "title").
  { unfold _generate_title_narration. rewrite Etitle. simpl.
    destruct (String.eqb style "dramatic"); [eexists _, _; reflexivity |].
    destruct (String.eqb style "comedic"); eexists _, _; reflexivity. }
  destruct (String.eqb content_type "metadata"
            || String.eqb content_type "context").
  { destruct (context_narration_total options post_data format_type au Eau)
      as [n Hn]. rewrite Hn. eexists _, _; reflexivity. }
  destruct (String.eqb content_type "post_body");
    [eexists _, _; reflexivity |].
  destruct (String.eqb content_type "comments").
  { destruct (comments_narration_total options post_data format_type w)
      as [n [w' [H _]]]. eauto. }
  destruct (String.eqb content_type "engagement").
  { destruct (engagement_narration_total style w) as [n [w' [H _]]]. eauto. }
  destruct (String.eqb content_type "call_to_action"
            || String.eqb content_type "outro").
  { destruct (outro_narration_total style w) as [n [w' [H _]]]. eauto. }
  destruct (String.eqb content_type "teaser").
  { unfold _generate_teaser_narration. rewrite Etitle. simpl.
    destruct (String.eqb style "dramatic"); eexists _, _; reflexivity. }
  eexists _, _; reflexivity.
Qed.

Lemma visual_cues_total visual_type content_type post_data :
  valid_post post_data ->
  exists v, _generate_visual_cues visual_type content_type post_data = Ok v.
Proof.
  intros [Ht [Hb [Hs Ha]]].
  destruct (p_title post_data) as [title |] eqn:Etitle; [| congruence].
  destruct (p_subreddit post_data) as [sr |] eqn:Esr; [| congruence].
  unfold _generate_visual_cues. rewrite Etitle, Esr. simpl.
  repeat match goal with
         | |- context [if ?b then _ else _] => destruct b
         end; eexists; reflexivity.
Qed.

(** ** The segment assembler *)

(** What a successful [_generate_segment] did. *)
Lemma generate_segment_inv options st post_data t format_type style w r w' :
  _generate_segment options st post_data t format_type style w = (Ok r, w') ->
  exists n,
    _generate_narration options (Templates.t_content_type st) post_data
      format_type style (Templates.t_name st) w = (Ok n, w')
    /\ ((n = "" /\ Templates.t_required st = false /\ r = None)
        \/ (exists s,
              r = Some s
              /\ narration s = n
              /\ (n <> "" \/ Templates.t_required st = true)
              /\ _calculate_duration options n
                   (inject_Z (Templates.t_duration st)) = Ok (duration s)
              /\ name s = Templates.t_name st
              /\ type s = Templates.t_content_type st
              /\ required s = Templates.t_required st
              /\ start_time s = t
              /\ end_time s = t + duration s)).
Proof.
  unfold _generate_segment. intros H.
  apply bind_ok_inv in H. destruct H as [n [w1 [Hn H]]].
  exists n.
  destruct (PyStr.is_empty n) eqn:En;
    destruct (Templates.t_required st) eqn:Er; simpl in H.
  - apply bind_ok_inv in H. destruct H as [d [w2 [Hd H]]].
    apply lift_inv in Hd. destruct Hd as [Hd ->].
    apply bind_ok_inv in H. destruct H as [v [w3 [Hv H]]].
    apply lift_inv in Hv. destruct Hv as [Hv ->].
    apply ret_inv in H. destruct H as [Hr ->]. inversion Hr; subst r.
    split; [exact Hn |]. right. eexists. split; [reflexivity |]. simpl.
    repeat split; auto.
  - apply ret_inv in H. destruct H as [Hr ->]. inversion Hr; subst r.
    split; [exact Hn |]. left. apply is_empty_true in En. auto.
  - apply bind_ok_inv in H. destruct H as [d [w2 [Hd H]]].
    apply lift_inv in Hd. destruct Hd as [Hd ->].
    apply bind_ok_inv in H. destruct H as [v [w3 [Hv H]]].
    apply lift_inv in Hv. destruct Hv as [Hv ->].
    apply ret_inv in H. destruct H as [Hr ->]. inversion Hr; subst r.
    split; [exact Hn |]. right. eexists. split; [reflexivity |]. simpl.
    repeat split; auto.
  - apply bind_ok_inv in H. destruct H as [d [w2 [Hd H]]].
    apply lift_inv in Hd. destruct Hd as [Hd ->].
    apply bind_ok_inv in H. destruct H as [v [w3 [Hv H]]].
    apply lift_inv in Hv. destruct Hv as [Hv ->].
    apply ret_inv in H. destruct H as [Hr ->]. inversion Hr; subst r.
    split; [exact Hn |]. right. eexists. split; [reflexivity |]. simpl.
    apply is_empty_false in En.
    repeat split; auto.
Qed.

(** The loop adds to [acc] the segments assembled from the specs. *)
Lemma generate_segments_assembled options post_data format_type style :
  forall specs acc t w segs t' w',
    generate_segments options specs post_data format_type style acc t w
    = (Ok (segs, t'), w') ->
    exists new,
      segs = (acc ++ new)%list
      /\ assembled options post_data format_type style specs t new t'.
Proof.
  induction specs as [| st rest IH]; intros acc t w segs t' w' H; simpl in H.
  - apply ret_inv in H. destruct H as [Hr _]. inversion Hr; subst.
    exists []. rewrite app_nil_r. split; [reflexivity | constructor].
  - apply bind_ok_inv in H. destruct H as [r [w1 [Hseg H]]].
    apply generate_segment_inv in Hseg.
    destruct Hseg as [n [Hn [[-> [Hreq ->]] | [s [-> Hs]]]]].
    + apply IH in H. destruct H as [new [-> Hnew]].
      exists new. split; [reflexivity |].
      eapply assembled_drop; eassumption.
    + destruct Hs as [Hnarr [Hkeep [Hd [Hname [Htype [Hrq [Hst Hen]]]]]]].
      apply IH in H. destruct H as [new [-> Hnew]].
      exists (s :: new). split.
      * unfold append. rewrite <- app_assoc. reflexivity.
      * subst n. eapply assembled_keep; eassumption.
Qed.

Lemma bind_lift {A B} (r : result A) (k : A -> M B) w :
  bind (lift r) k w
  = match r with Ok a => k a w | Raise e => (Raise e, w) end.
Proof. unfold bind, lift. destruct r; reflexivity. Qed.

(** On a valid post a segment is generated unless the speaking rate is
    zero, which the division refuses. *)
Lemma generate_segment_outcome options st post_data t format_type style w :
  valid_post post_data ->
  exists r w',
    _generate_segment options st post_data t format_type style w = (r, w')
    /\ ((exists o, r = Ok o)
        \/ (Config.words_per_minute options == 0
            /\ r = Raise (ZeroDivisionError "division by zero"))).
Proof.
  intros Hv. unfold _generate_segment.
  destruct (narration_total options (Templates.t_content_type st) post_data
              format_type style (Templates.t_name st) w Hv) as [n [w1 Hn]].
  rewrite (bind_ok _ _ _ _ _ Hn).
  destruct (PyStr.is_empty n && negb (Templates.t_required st)).
  - eexists _, _. split; [reflexivity |]. left. eexists; reflexivity.
  - destruct (visual_cues_total (Templates.t_visual st)
                (Templates.t_content_type st) post_data Hv) as [v Hvis].
    rewrite bind_lift.
    destruct (_calculate_duration options n
                (inject_Z (Templates.t_duration st))) as [d | e] eqn:Hd.
    + rewrite bind_lift, Hvis.
      eexists _, _. split; [reflexivity |]. left. eexists; reflexivity.
    + eexists _, _. split; [reflexivity |]. right.
      unfold _calculate_duration in Hd.
      destruct (PyStr.is_empty n); [discriminate |].
      destruct (Qeq_bool (Config.words_per_minute options) 0) eqn:Hz;
        [| discriminate].
      apply Qeq_bool_eq in Hz. inversion Hd. split; [exact Hz | reflexivity].
Qed.

Lemma generate_segments_outcome options post_data format_type style :
  valid_post post_data ->
  forall specs acc t w,
  exists r w',
    generate_segments options specs post_data format_type style acc t w
    = (r, w')
    /\ ((exists o, r = Ok o)
        \/ (Config.words_per_minute options == 0
            /\ r = Raise (ZeroDivisionError "division by zero"))).
Proof.
  intros Hv. induction specs as [| st rest IH]; intros acc t w; simpl.
  - eexists _, _. split; [reflexivity |]. left. eexists; reflexivity.
  - destruct (generate_segment_outcome options st post_data t format_type
                style w Hv) as [r [w1 [Hr [[o ->] | [Hz ->]]]]].
    + rewrite (bind_ok _ _ _ _ _ Hr). destruct o as [s |]; apply IH.
    + rewrite (bind_raise _ _ _ _ _ Hr).
      eexists _, _. split; [reflexivity |]. right. split; trivial.
Qed.

(** ** The timeline *)

Lemma chain_app t a u b v :
  chain t a u -> chain u b v -> chain t (a ++ b) v.
Proof.
  revert t. induction a as [| s a IH]; intros t Ha Hb; simpl in *.
  - subst. exact Hb.
  - destruct Ha as [H1 [H2 [H3 H4]]]. repeat split; auto.
Qed.

Lemma assembled_chain options post_data format_type style specs t segs t' :
  Forall (fun st => (0 <= Templates.t_duration st)%Z) specs ->
  assembled options post_data format_type style specs t segs t' ->
  chain t segs t'.
Proof.
  intros Hpos H. induction H as
      [ t
      | st rest t s segs t' w w' Hn Hk Hd Hname Htype Hreq Hst Hen Hrest IH
      | st rest t segs t' w w' Hn Hreq Hrest IH ].
  - reflexivity.
  - inversion Hpos as [| ? ? Hst0 Hrest0]; subst. simpl.
    split; [reflexivity |]. split; [exact Hen |]. split.
    + apply calculate_duration_ge in Hd.
      eapply Qle_trans; [| exact Hd].
      change 0 with (inject_Z 0). rewrite <- Zle_Qle. exact Hst0.
    + apply IH. exact Hrest0.
  - inversion Hpos; subst. apply IH. assumption.
Qed.

Lemma chain_last t segs t' d :
  chain t segs t' -> segs <> [] -> t' = end_time (last segs d).
Proof.
  revert t. induction segs as [| s rest IH]; intros t H Hne; [congruence |].
  simpl in H. destruct H as [_ [_ [_ H]]].
  destruct rest as [| s' rest'].
  - simpl in *. symmetry. exact H.
  - change (last (s :: s' :: rest') d) with (last (s' :: rest') d).
    eapply IH; [exact H | discriminate].
Qed.

Lemma chain_adjacent t segs t' :
  chain t segs t' ->
  forall i s1 s2,
    nth_error segs i = Some s1 -> nth_error segs (S i) = Some s2 ->
    start_time s2 = end_time s1.
Proof.
  revert t. induction segs as [| s rest IH]; intros t H i s1 s2 H1 H2.
  - destruct i; discriminate.
  - simpl in H. destruct H as [_ [_ [_ H]]]. destruct i as [| i].
    + simpl in H1, H2. inversion H1; subst.
      destruct rest as [| s' rest']; [discriminate |].
      simpl in H2. inversion H2; subst. simpl in H. tauto.
    + simpl in H1. eapply IH; eauto.
Qed.

Lemma chain_each t segs t' :
  chain t segs t' ->
  forall s, In s segs ->
    end_time s = start_time s + duration s /\ 0 <= duration s
    /\ start_time s <= end_time s.
Proof.
  revert t. induction segs as [| s0 rest IH]; intros t H s Hin; [contradiction |].
  simpl in H. destruct H as [H1 [H2 [H3 H4]]]. destruct Hin as [-> | Hin].
  - split; [exact H2 |]. split; [exact H3 |].
    rewrite H2. rewrite <- (Qplus_0_r (start_time s)) at 1.
    apply Qplus_le_r. exact H3.
  - eapply IH; eauto.
Qed.

Lemma catalog_durations_nonneg template_name t :
  Templates.get_template template_name = Ok t ->
  Forall (fun st => (0 <= Templates.t_duration st)%Z) (Templates.segments t).
Proof.
  intros H. apply get_template_known in H. simpl in H.
  destruct H as [H | [H | [H | [H | [H | []]]]]]; inversion H; subst;
    repeat constructor; simpl; lia.
Qed.

Lemma assembled_origin options post_data format_type style specs t segs t' :
  assembled options post_data format_type style specs t segs t' ->
  forall s, In s segs ->
    exists st w w',
      In st specs
      /\ name s = Templates.t_name st
      /\ type s = Templates.t_content_type st
      /\ required s = Templates.t_required st
      /\ _generate_narration options (Templates.t_content_type st) post_data
           format_type style (Templates.t_name st) w = (Ok (narration s), w')
      /\ (narration s <> "" \/ Templates.t_required st = true)
      /\ _calculate_duration options (narration s)
           (inject_Z (Templates.t_duration st)) = Ok (duration s).
Proof.
  induction 1 as
      [ t
      | st rest t s0 segs t' w w' Hn Hk Hd Hname Htype Hreq Hst Hen Hrest IH
      | st rest t segs t' w w' Hn Hreq Hrest IH ]; intros s Hin.
  - contradiction.
  - destruct Hin as [<- | Hin].
    + exists st, w, w'. simpl. tauto.
    + destruct (IH s Hin) as [st' [w1 [w1' [Hin' Hrest']]]].
      exists st', w1, w1'. simpl. tauto.
  - destruct (IH s Hin) as [st' [w1 [w1' [Hin' Hrest']]]].
    exists st', w1, w1'. simpl. tauto.
Qed.

Lemma assembled_required options post_data format_type style specs t segs t' :
  assembled options post_data format_type style specs t segs t' ->
  forall st, In st specs -> Templates.t_required st = true ->
    exists s,
      In s segs /\ name s = Templates.t_name st
      /\ type s = Templates.t_content_type st /\ required s = true
      /\ _calculate_duration options (narration s)
           (inject_Z (Templates.t_duration st)) = Ok (duration s).
Proof.
  induction 1 as
      [ t
      | st0 rest t s0 segs t' w w' Hn Hk Hd Hname Htype Hreq Hst Hen Hrest IH
      | st0 rest t segs t' w w' Hn Hreq Hrest IH ]; intros st Hin Hrq.
  - contradiction.
  - destruct Hin as [<- | Hin].
    + exists s0. simpl. rewrite Hreq. tauto.
    + destruct (IH st Hin Hrq) as [s [Hs Hrest']]. exists s. simpl. tauto.
  - destruct Hin as [<- | Hin]; [congruence |].
    destruct (IH st Hin Hrq) as [s [Hs Hrest']]. exists s. tauto.
Qed.

(** Whether a narration is empty does not depend on the random source. *)
Lemma narration_empty_indep options content_type post_data format_type style
    segment_name w1 n1 w1' w2 n2 w2' :
  valid_post post_data ->
  _generate_narration options content_type post_data format_type style
    segment_name w1 = (Ok n1, w1') ->
  _generate_narration options content_type post_data format_type style
    segment_name w2 = (Ok n2, w2') ->
  n1 = "" -> n2 = "".
Proof.
  intros [Ht [Hb [Hs Ha]]].
  destruct (p_subreddit post_data) as [sr |] eqn:Esr; [| congruence].
  unfold _generate_narration.
  destruct (String.eqb content_type "intro").
  { intros H1 _ ->.
    destruct (intro_narration_total post_data style w1 sr Esr)
      as [n [w' [H Hne]]]. congruence. }
  destruct (String.eqb content_type "title").
  { intros H1 H2. apply lift_inv in H1, H2. intuition congruence. }
  destruct (String.eqb content_type "metadata"
            || String.eqb content_type "context").
  { intros H1 H2. apply lift_inv in H1, H2. intuition congruence. }
  destruct (String.eqb content_type "post_body").
  { intros H1 H2. apply ret_inv in H1, H2. intuition congruence. }
  destruct (String.eqb content_type "comments").
  { intros H1 H2 ->.
    destruct (comments_narration_total options post_data format_type w1)
      as [m1 [u1 [E1 I1]]].
    destruct (comments_narration_total options post_data format_type w2)
      as [m2 [u2 [E2 I2]]].
    rewrite E1 in H1. rewrite E2 in H2.
    inversion H1; inversion H2; subst. tauto. }
  destruct (String.eqb content_type "engagement").
  { intros H1 _ ->.
    destruct (engagement_narration_total style w1) as [n [w' [H Hne]]].
    congruence. }
  destruct (String.eqb content_type "call_to_action"
            || String.eqb content_type "outro").
  { intros H1 _ ->.
    destruct (outro_narration_total style w1) as [n [w' [H Hne]]].
    congruence. }
  destruct (String.eqb content_type "teaser").
  { intros H1 H2. apply lift_inv in H1, H2. intuition congruence. }
  intros H1 H2. apply ret_inv in H1, H2. intuition congruence.
Qed.

Lemma assembled_dropped options post_data format_type style specs t segs t' :
  valid_post post_data ->
  assembled options post_data format_type style specs t segs t' ->
  NoDup (map Templates.t_name specs) ->
  forall st w0 w0', In st specs ->
    Templates.t_required st = false ->
    _generate_narration options (Templates.t_content_type st) post_data
      format_type style (Templates.t_name st) w0 = (Ok "", w0') ->
    forall s, In s segs -> name s <> Templates.t_name st.
Proof.
  intros Hv H.
  assert (Hnames : forall specs t segs t',
             assembled options post_data format_type style specs t segs t' ->
             forall s, In s segs ->
               In (name s) (map Templates.t_name specs)).
  { intros specs0 t0 segs0 t0' H0 s Hs.
    destruct (assembled_origin _ _ _ _ _ _ _ _ H0 s Hs)
      as [st [_ [_ [Hin [Hname _]]]]].
    rewrite Hname. apply in_map. exact Hin. }
  induction H as
      [ t
      | st0 rest t s0 segs t' w w' Hn Hk Hd Hname Htype Hreq Hst Hen Hrest IH
      | st0 rest t segs t' w w' Hn Hreq Hrest IH ];
    intros Hnd st w0 w0' Hin Hrq Hempty s Hs.
  - contradiction.
  - simpl in Hnd. inversion Hnd as [| ? ? Hnotin Hnd']; subst.
    destruct Hin as [<- | Hin].
    + exfalso. destruct Hk as [Hk | Hk]; [| congruence].
      apply Hk.
      eapply (narration_empty_indep options _ post_data format_type style
                _ w0 "" w0' w (narration s0) w'); eauto.
    + destruct Hs as [<- | Hs].
      * rewrite Hname. intros Heq. apply Hnotin. rewrite Heq.
        apply in_map. exact Hin.
      * eapply IH; eauto.
  - simpl in Hnd. inversion Hnd as [| ? ? Hnotin Hnd']; subst.
    destruct Hin as [<- | Hin].
    + intros Heq. apply Hnotin. rewrite <- Heq.
      eapply Hnames; eauto.
    + eapply IH; eauto.
Qed.

Lemma catalog_names_nodup template_name t :
  Templates.get_template template_name = Ok t ->
  NoDup (map Templates.t_name (Templates.segments t)).
Proof.
  intros H. apply get_template_known in H. simpl in H.
  destruct H as [H | [H | [H | [H | [H | []]]]]]; inversion H; subst; simpl;
    repeat (constructor; [simpl; intuition discriminate |]); constructor.
Qed.

(** ** The whole generation *)

Lemma valid_post_missing post_data :
  valid_post post_data <-> missing_fields post_data = [].
Proof.
  unfold valid_post, missing_fields. simpl. unfold has_key. simpl.
  destruct (p_title post_data), (p_body post_data), (p_subreddit post_data),
    (p_author post_data); simpl; split; intros H;
    try reflexivity; try discriminate H;
    try (repeat split; discriminate);
    try (destruct H as [H1 [H2 [H3 H4]]]; congruence).
Qed.

Lemma lacks_not_valid post_data :
  lacks_required_key post_data <-> ~ valid_post post_data.
Proof.
  unfold lacks_required_key, valid_post.
  destruct (p_title post_data), (p_body post_data), (p_subreddit post_data),
    (p_author post_data); split; intros H;
    try (intros [H1 [H2 [H3 H4]]]; congruence);
    try tauto;
    try (exfalso; apply H; repeat split; discriminate);
    try (destruct H as [H | [H | [H | H]]]; discriminate H).
Qed.

Lemma validate_ok post_data :
  valid_post post_data -> _validate_post_data post_data = Ok tt.
Proof.
  intros H. apply valid_post_missing in H.
  unfold _validate_post_data. rewrite H. reflexivity.
Qed.

Lemma validate_raise post_data :
  ~ valid_post post_data ->
  _validate_post_data post_data
  = Raise (InvalidPostDataError
             ("Post data missing required fields: "
              ++ PyStr.join ", " (missing_fields post_data))).
Proof.
  intros H. unfold _validate_post_data.
  destruct (missing_fields post_data) eqn:Hm.
  - exfalso. apply H. apply valid_post_missing. exact Hm.
  - reflexivity.
Qed.

Lemma metadata_total post_data format_type template_name w :
  valid_post post_data ->
  exists m,
    _generate_metadata post_data format_type template_name w = (Ok m, w)
    /\ generated_at m = clock_iso w.
Proof.
  intros [Ht [Hb [Hs Ha]]].
  destruct (p_title post_data) as [title |] eqn:Etitle; [| congruence].
  destruct (p_subreddit post_data) as [sr |] eqn:Esr; [| congruence].
  destruct (p_author post_data) as [au |] eqn:Eau; [| congruence].
  unfold _generate_metadata. rewrite Etitle, Esr, Eau.
  eexists. split; reflexivity.
Qed.

(** What a successful [generate_script] did. *)
Lemma generate_script_inv options post_data format_type template_name style
    w script w' :
  generate_script options post_data format_type template_name style w
  = (Ok script, w') ->
  valid_post post_data
  /\ exists t,
       Templates.get_template (get template_name format_type) = Ok t
       /\ assembled options post_data format_type style
            (Templates.segments t) 0 (segments script)
            (total_duration script).
Proof.
  unfold generate_script. intros H.
  rewrite bind_lift in H.
  destruct (_validate_post_data post_data) as [[] | e] eqn:Hval;
    [| discriminate].
  assert (Hv : valid_post post_data).
  { apply valid_post_missing. unfold _validate_post_data in Hval.
    destruct (missing_fields post_data); [reflexivity | discriminate]. }
  split; [exact Hv |].
  rewrite bind_lift in H.
  destruct (Templates.get_template (get template_name format_type))
    as [t | e] eqn:Ht; [| discriminate].
  exists t. split; [reflexivity |].
  apply bind_ok_inv in H. destruct H as [m [w1 [Hm H]]].
  apply bind_ok_inv in H. destruct H as [[segs t'] [w2 [Hsegs H]]].
  apply ret_inv in H. destruct H as [Hr _]. inversion Hr; subst script.
  simpl. apply generate_segments_assembled in Hsegs.
  destruct Hsegs as [new [-> Hnew]]. exact Hnew.
Qed.

(** What [generate_script] gives on a valid post: a script, or the
    lookup's [ValueError], or the division's error when the speaking rate
    is zero. *)
Lemma generate_script_outcome options post_data format_type template_name
    style w :
  valid_post post_data ->
  exists r w',
    generate_script options post_data format_type template_name style w
    = (r, w')
    /\ ((exists script, r = Ok script
         /\ In (get template_name format_type) catalog_names)
        \/ (exists msg, r = Raise (ValueError msg) /\ w' = w
            /\ ~ In (get template_name format_type) catalog_names)
        \/ (Config.words_per_minute options == 0
            /\ r = Raise (ZeroDivisionError "division by zero"))).
Proof.
  intros Hv. unfold generate_script.
  rewrite bind_lift, (validate_ok _ Hv), bind_lift.
  destruct (get_template_outcome (get template_name format_type))
    as [Hraise Hok].
  destruct (Templates.get_template (get template_name format_type))
    as [t | e] eqn:Ht.
  - pose proof (Hok t eq_refl) as Hin.
    destruct (metadata_total post_data format_type
                (get template_name format_type) w Hv) as [m [Hm _]].
    rewrite (bind_ok _ _ _ _ _ Hm).
    destruct (generate_segments_outcome options post_data format_type style
                Hv (Templates.segments t) [] 0 w)
      as [r [w1 [Hr [[[segs t'] ->] | [Hz ->]]]]].
    + rewrite (bind_ok _ _ _ _ _ Hr).
      eexists _, _. split; [reflexivity |]. left.
      eexists. split; [reflexivity | exact Hin].
    + rewrite (bind_raise _ _ _ _ _ Hr).
      eexists _, _. split; [reflexivity |]. right. right. split; trivial.
  - destruct (Hraise e eq_refl) as [Hout Hclass].
    eexists _, _. split; [reflexivity |]. right. left.
    destruct e; try discriminate Hclass.
    eexists. repeat split. exact Hout.
Qed.

(** C1. On a valid post and a template of the catalog [generate_script]
    returns a script unless the speaking rate is zero. In every script it
    returns the first segment starts at 0, each later segment starts at
    the end time of the one before it, every end time is the start time
    plus the duration, no duration is negative, so that times never
    decrease, and when there is a segment the total duration is the end
    time of the last one. *)
Theorem generate_script_timeline options post_data format_type template_name
    style w :
  (valid_post post_data
   /\ In (get template_name format_type) catalog_names
   /\ ~ Config.words_per_minute options == 0 ->
   exists script w',
     generate_script options post_data format_type template_name style w
     = (Ok script, w'))
  /\ (forall script w',
        generate_script options post_data format_type template_name style w
        = (Ok script, w') ->
        timeline_ok script).
Proof.
  split.
  - intros [Hv [Hin Hwpm]].
    destruct (generate_script_outcome options post_data format_type
                template_name style w Hv)
      as [r [w' [Hr [[script [-> _]] | [[msg [_ [_ Hout]]] | [Hz _]]]]]].
    + exists script, w'. exact Hr.
    + contradiction.
    + contradiction.
  - intros script w' H. apply generate_script_inv in H.
    destruct H as [_ [t [Ht Hasm]]].
    apply assembled_chain in Hasm;
      [| eapply catalog_durations_nonneg; exact Ht].
    unfold timeline_ok. cbv zeta. repeat split.
    + intros s Hs. destruct (segments script) as [| s0 rest];
        [discriminate |].
      simpl in Hs. inversion Hs; subst. simpl in Hasm. tauto.
    + eapply chain_adjacent. exact Hasm.
    + eapply chain_each; eassumption.
    + eapply chain_each; eassumption.
    + eapply chain_each; eassumption.
    + intros d Hne. eapply chain_last; eassumption.
Qed.

(** C2. [generate_script] raises [InvalidPostDataError] exactly when the
    post record lacks one of the keys title, body, subreddit, author.
    It then raises it whatever the template name is, known or not, with
    the world unchanged: the template was not looked up and no random
    number was drawn for a segment. On a valid post an unknown template
    name raises the lookup's error instead. *)
Theorem generate_script_rejects_incomplete_post options post_data
    format_type template_name style w :
  ((exists msg w',
       generate_script options post_data format_type template_name style w
       = (Raise (InvalidPostDataError msg), w'))
   <-> lacks_required_key post_data)
  /\ (lacks_required_key post_data ->
      generate_script options post_data format_type template_name style w
      = (Raise (InvalidPostDataError
                  ("Post data missing required fields: "
                   ++ PyStr.join ", " (missing_fields post_data))), w))
  /\ (valid_post post_data ->
      ~ In (get template_name format_type) catalog_names ->
      exists msg,
        generate_script options post_data format_type template_name style w
        = (Raise (ValueError msg), w)).
Proof.
  assert (Hraise : lacks_required_key post_data ->
            generate_script options post_data format_type template_name
              style w
            = (Raise (InvalidPostDataError
                        ("Post data missing required fields: "
                         ++ PyStr.join ", " (missing_fields post_data))), w)).
  { intros Hl. apply lacks_not_valid in Hl.
    unfold generate_script. rewrite bind_lift, (validate_raise _ Hl).
    reflexivity. }
  split; [| split].
  - split.
    + intros [msg [w' H]].
      apply lacks_not_valid. intros Hv.
      destruct (generate_script_outcome options post_data format_type
                  template_name style w Hv)
        as [r [w1 [Hr [[script [-> _]] | [[m [-> _]] | [_ ->]]]]]];
        rewrite Hr in H; discriminate H.
    + intros Hl. eexists _, _. apply Hraise. exact Hl.
  - exact Hraise.
  - intros Hv Hout.
    destruct (generate_script_outcome options post_data format_type
                template_name style w Hv)
      as [r [w1 [Hr [[script [_ Hin]] | [[m [-> [-> _]]] | [Hz ->]]]]]].
    + contradiction.
    + exists m. exact Hr.
    + exfalso. unfold generate_script in Hr.
      rewrite bind_lift, (validate_ok _ Hv), bind_lift in Hr.
      destruct (get_template_outcome (get template_name format_type))
        as [Herr Hok].
      destruct (Templates.get_template (get template_name format_type))
        as [t | e] eqn:Ht.
      * pose proof (Hok t eq_refl) as Hin. contradiction.
      * destruct (Herr e eq_refl) as [_ Hclass].
        inversion Hr; subst. discriminate Hclass.
Qed.

(** C5. In a generated script every segment spec of the template that is
    marked required has its segment, with the spec's name and content
    type, whatever its narration, the empty one included; and a spec
    that is not required and whose narration comes out empty has no
    segment. *)
Theorem required_kept_optional_empty_dropped options post_data format_type
    template_name style w script w' :
  generate_script options post_data format_type template_name style w
  = (Ok script, w') ->
  exists t,
    Templates.get_template (get template_name format_type) = Ok t
    /\ (forall st,
          In st (Templates.segments t) -> Templates.t_required st = true ->
          exists s,
            In s (segments script)
            /\ name s = Templates.t_name st
            /\ type s = Templates.t_content_type st
            /\ required s = true)
    /\ (forall st w0 w0',
          In st (Templates.segments t) -> Templates.t_required st = false ->
          _generate_narration options (Templates.t_content_type st)
            post_data format_type style (Templates.t_name st) w0
          = (Ok "", w0') ->
          forall s, In s (segments script) -> name s <> Templates.t_name st).
Proof.
  intros H. apply generate_script_inv in H.
  destruct H as [Hv [t [Ht Hasm]]].
  exists t. split; [exact Ht |]. split.
  - intros st Hin Hreq.
    destruct (assembled_required _ _ _ _ _ _ _ _ Hasm st Hin Hreq)
      as [s [Hs [Hn [Hty [Hr _]]]]].
    exists s. tauto.
  - intros st w0 w0' Hin Hreq Hempty.
    eapply assembled_dropped; eauto.
    eapply catalog_names_nodup. exact Ht.
Qed.

(** The short script of the sample post keeps its three required
    segments. *)
Lemma required_kept_optional_empty_dropped_witness :
  exists script w',
    generate_script Config.SCRIPT_OPTIONS Sample.quiet_post "short" None
      "casual" Sample.w0 = (Ok script, w')
    /\ exists t,
         Templates.get_template (get None "short") = Ok t
         /\ (forall st,
               In st (Templates.segments t) ->
               Templates.t_required st = true ->
               exists s,
                 In s (segments script)
                 /\ name s = Templates.t_name st
                 /\ type s = Templates.t_content_type st
                 /\ required s = true)
         /\ (forall st w0 w0',
               In st (Templates.segments t) ->
               Templates.t_required st = false ->
               _generate_narration Config.SCRIPT_OPTIONS
                 (Templates.t_content_type st) Sample.quiet_post "short"
                 "casual" (Templates.t_name st) w0 = (Ok "", w0') ->
               forall s, In s (segments script) ->
                 name s <> Templates.t_name st).
Proof.
  assert (H : exists script w',
             generate_script Config.SCRIPT_OPTIONS Sample.quiet_post "short"
               None "casual" Sample.w0 = (Ok script, w')).
  { vm_compute. eexists _, _. reflexivity. }
  destruct H as [script [w' H]]. exists script, w'.
  split; [exact H |].
  exact (required_kept_optional_empty_dropped _ _ _ _ _ _ _ _ H).
Defined.

(** ** A post without comments *)

Lemma comments_narration_no_comments options post_data format_type w :
  get (p_comments post_data) [] = [] ->
  _generate_comments_narration options post_data format_type w = (Ok "", w).
Proof.
  intros H. unfold _generate_comments_narration. rewrite H. reflexivity.
Qed.

Lemma narration_of_comments options post_data format_type style
    segment_name w :
  _generate_narration options "comments" post_data format_type style
    segment_name w
  = _generate_comments_narration options post_data format_type w.
Proof. reflexivity. Qed.

(** The medium script of a valid post whose comments list is empty has a
    segment of content type comments. *)
Lemma comments_segment_counterexample :
  ~ (forall post_data format_type script w',
        valid_post post_data ->
        p_comments post_data = Some [] ->
        In format_type ["short"; "medium"; "long"] ->
        generate_script Config.SCRIPT_OPTIONS post_data format_type None
          "casual" Sample.w0 = (Ok script, w') ->
        forall s, In s (segments script) -> type s <> "comments").
Proof.
  intros H.
  assert (Hrun : exists script w',
             generate_script Config.SCRIPT_OPTIONS Sample.quiet_post "medium"
               None "casual" Sample.w0 = (Ok script, w')
             /\ exists s, In s (segments script) /\ type s = "comments").
  { vm_compute. eexists _, _. split; [reflexivity |].
    eexists. split; [do 4 right; left; reflexivity | reflexivity]. }
  destruct Hrun as [script [w' [Hrun [s [Hin Hty]]]]].
  apply (H Sample.quiet_post "medium" script w') with (s := s); auto.
  - repeat split; discriminate.
  - simpl. tauto.
Qed.

(** C6, amended. For a valid post whose comments list is empty or
    missing: the short script has no segment of content type comments,
    because the short template marks it optional; the medium and the long
    script have the comments segment their templates mark required, with
    empty narration and the template's nominal duration, 15 and 40
    seconds. *)
Theorem comments_segment_without_comments options post_data format_type
    style w script w' :
  get (p_comments post_data) [] = [] ->
  generate_script options post_data format_type None style w
  = (Ok script, w') ->
  (format_type = "short" ->
   forall s, In s (segments script) -> type s <> "comments")
  /\ (format_type = "medium" ->
      exists s,
        In s (segments script) /\ name s = "comments"
        /\ type s = "comments" /\ required s = true
        /\ narration s = "" /\ duration s = 15)
  /\ (format_type = "long" ->
      exists s,
        In s (segments script) /\ name s = "comments"
        /\ type s = "comments" /\ required s = true
        /\ narration s = "" /\ duration s = 40).
Proof.
  intros Hnone H. apply generate_script_inv in H.
  destruct H as [Hv [t [Ht Hasm]]].
  assert (Hkept : forall st,
             In st (Templates.segments t) ->
             Templates.t_required st = true ->
             Templates.t_content_type st = "comments" ->
             exists s,
               In s (segments script) /\ name s = Templates.t_name st
               /\ type s = "comments" /\ required s = true
               /\ narration s = ""
               /\ duration s = inject_Z (Templates.t_duration st)).
  { intros st Hin Hreq Hct.
    destruct (assembled_required _ _ _ _ _ _ _ _ Hasm st Hin Hreq)
      as [s [Hs [Hn [Hty [Hr Hd]]]]].
    destruct (assembled_origin _ _ _ _ _ _ _ _ Hasm s Hs)
      as [st' [w1 [w1' [Hin' [Hn' [Hty' [_ [Hnarr _]]]]]]]].
    assert (Hempty : narration s = "").
    { rewrite <- Hty', Hty, Hct, narration_of_comments in Hnarr.
      rewrite (comments_narration_no_comments _ _ _ _ Hnone) in Hnarr.
      inversion Hnarr. reflexivity. }
    exists s. rewrite Hempty in Hd. simpl in Hd. inversion Hd.
    rewrite <- Hct. tauto. }
  split; [| split]; intros ->; simpl in Ht; inversion Ht; subst t.
  - intros s Hs Hty.
    destruct (assembled_origin _ _ _ _ _ _ _ _ Hasm s Hs)
      as [st [w1 [w1' [Hin [Hn [Hty' [_ [Hnarr [Hk _]]]]]]]]].
    rewrite Hty in Hty'.
    simpl in Hin.
    destruct Hin as [<- | [<- | [<- | [<- | []]]]]; try discriminate Hty'.
    rewrite narration_of_comments in Hnarr.
    rewrite (comments_narration_no_comments _ _ _ _ Hnone) in Hnarr.
    inversion Hnarr as [Hnr]. destruct Hk as [Hk | Hk];
      [congruence | discriminate Hk].
  - destruct (Hkept (Templates.seg "comments" 15 true "comments"
                       "comment_reactions" "comment_section"))
      as [s Hs]; try reflexivity.
    + simpl. tauto.
    + exists s. exact Hs.
  - destruct (Hkept (Templates.seg "comments" 40 true "comments"
                       "comment_analysis" "comment_thread"))
      as [s Hs]; try reflexivity.
    + simpl. tauto.
    + exists s. exact Hs.
Qed.

(** The three formats on the sample post without comments. *)
Lemma comments_segment_without_comments_witness :
  exists script w',
    generate_script Config.SCRIPT_OPTIONS Sample.quiet_post "medium" None
      "casual" Sample.w0 = (Ok script, w')
    /\ ("medium" = "short" ->
        forall s, In s (segments script) -> type s <> "comments")
    /\ ("medium" = "medium" ->
        exists s,
          In s (segments script) /\ name s = "comments"
          /\ type s = "comments" /\ required s = true
          /\ narration s = "" /\ duration s = 15)
    /\ ("medium" = "long" ->
        exists s,
          In s (segments script) /\ name s = "comments"
          /\ type s = "comments" /\ required s = true
          /\ narration s = "" /\ duration s = 40).
Proof.
  assert (H : exists script w',
             generate_script Config.SCRIPT_OPTIONS Sample.quiet_post "medium"
               None "casual" Sample.w0 = (Ok script, w')).
  { vm_compute. eexists _, _. reflexivity. }
  destruct H as [script [w' H]]. exists script, w'.
  split; [exact H |].
  exact (comments_segment_without_comments _ Sample.quiet_post _ _ _ _ _
           eq_refl H).
Defined.

(** ** The clock and the random source *)

Lemma clock_free_ret {A} (a : A) : clock_free (ret a).
Proof. intros w c. reflexivity. Qed.

Lemma clock_free_raise {A} e : clock_free (@raise A e).
Proof. intros w c. reflexivity. Qed.

Lemma clock_free_lift {A} (r : result A) : clock_free (lift r).
Proof. intros w c. reflexivity. Qed.

Lemma clock_free_bind {A B} (m : M A) (k : A -> M B) :
  clock_free m -> (forall a, clock_free (k a)) -> clock_free (bind m k).
Proof.
  intros Hm Hk w c. unfold bind. rewrite Hm.
  destruct (m w) as [[a | e] w1]; simpl.
  - apply Hk.
  - reflexivity.
Qed.

Lemma clock_free_randbelow n : clock_free (randbelow n).
Proof. intros w c. reflexivity. Qed.

Lemma clock_free_choice {A} (seq : list A) : clock_free (choice seq).
Proof.
  destruct seq as [| a seq]; [apply clock_free_raise |].
  unfold choice. apply clock_free_bind; [apply clock_free_randbelow |].
  intros i. destruct (nth_error (a :: seq) i);
    [apply clock_free_ret | apply clock_free_raise].
Qed.

Lemma clock_free_narration options content_type post_data format_type style
    segment_name :
  clock_free (_generate_narration options content_type post_data format_type
                style segment_name).
Proof.
  unfold _generate_narration.
  repeat match goal with
         | |- clock_free (if ?b then _ else _) => destruct b
         end;
    try apply clock_free_lift; try apply clock_free_ret.
  - unfold _generate_intro_narration.
    apply clock_free_bind; [apply clock_free_choice |]. intros t.
    apply clock_free_bind; [apply clock_free_lift |]. intros s.
    apply clock_free_ret.
  - unfold _generate_comments_narration.
    destruct (get (p_comments post_data) []); [apply clock_free_ret |].
    match goal with
    | |- clock_free (match ?l with [] => _ | _ :: _ => _ end) => destruct l
    end; [apply clock_free_ret |].
    apply clock_free_bind.
    + unfold Config.NARRATION_TEMPLATES_to_comments. cbv iota.
      apply clock_free_bind; [apply clock_free_choice |].
      intros t. apply clock_free_ret.
    + intros parts. apply clock_free_ret.
  - apply clock_free_choice.
  - apply clock_free_choice.
Qed.

Lemma clock_free_segment options st post_data t format_type style :
  clock_free (_generate_segment options st post_data t format_type style).
Proof.
  unfold _generate_segment.
  apply clock_free_bind; [apply clock_free_narration |]. intros n.
  destruct (PyStr.is_empty n && negb (Templates.t_required st));
    [apply clock_free_ret |].
  apply clock_free_bind; [apply clock_free_lift |]. intros d.
  apply clock_free_bind; [apply clock_free_lift |]. intros v.
  apply clock_free_ret.
Qed.

Lemma clock_free_segments options post_data format_type style :
  forall specs acc t,
    clock_free (generate_segments options specs post_data format_type style
                  acc t).
Proof.
  induction specs as [| st rest IH]; intros acc t; simpl.
  - apply clock_free_ret.
  - apply clock_free_bind; [apply clock_free_segment |].
    intros [s |]; apply IH.
Qed.

(** The metadata read the clock and nothing else of the world. *)
Lemma metadata_with_clock post_data format_type template_name w c :
  _generate_metadata post_data format_type template_name (with_clock c w)
  = match _generate_metadata post_data format_type template_name w with
    | (Ok m, w') => (Ok (with_generated_at c m), with_clock c w')
    | (Raise e, w') => (Raise e, with_clock c w')
    end.
Proof.
  unfold _generate_metadata.
  destruct (p_title post_data), (p_subreddit post_data), (p_author post_data);
    reflexivity.
Qed.

(** The script with another generation time. *)
Lemma generate_script_with_clock options post_data format_type template_name
    style w c :
  generate_script options post_data format_type template_name style
    (with_clock c w)
  = match generate_script options post_data format_type template_name style w
    with
    | (Ok s, w') =>
        (Ok {| metadata := with_generated_at c (metadata s);
               segments := segments s;
               total_duration := total_duration s;
               word_count := word_count s;
               narration_style := narration_style s |},
         with_clock c w')
    | (Raise e, w') => (Raise e, with_clock c w')
    end.
Proof.
  unfold generate_script. rewrite !bind_lift.
  destruct (_validate_post_data post_data) as [[] | e]; [| reflexivity].
  cbv beta iota zeta.
  destruct (Templates.get_template (get template_name format_type))
    as [t | e]; [| reflexivity].
  unfold bind at 1 3. rewrite metadata_with_clock.
  destruct (_generate_metadata post_data format_type
              (get template_name format_type) w) as [[m | e] w1];
    [| reflexivity].
  unfold bind.
  rewrite (clock_free_segments options post_data format_type style
             (Templates.segments t) [] 0 w1 c).
  destruct (generate_segments options (Templates.segments t) post_data
              format_type style [] 0 w1) as [[[segs t'] | e] w2];
    reflexivity.
Qed.

Lemma generated_at_is_clock options post_data format_type template_name style
    w script w' :
  generate_script options post_data format_type template_name style w
  = (Ok script, w') ->
  generated_at (metadata script) = clock_iso w
  /\ narration_style script = style.
Proof.
  unfold generate_script. rewrite bind_lift. intros H.
  destruct (_validate_post_data post_data) as [[] | e]; [| discriminate].
  rewrite bind_lift in H.
  destruct (Templates.get_template (get template_name format_type))
    as [t | e]; [| discriminate].
  apply bind_ok_inv in H. destruct H as [m [w1 [Hm H]]].
  apply bind_ok_inv in H. destruct H as [[segs t'] [w2 [Hsegs H]]].
  apply ret_inv in H. destruct H as [Hr _]. inversion Hr; subst script.
  simpl. split; [| reflexivity].
  unfold _generate_metadata in Hm.
  destruct (p_title post_data), (p_subreddit post_data), (p_author post_data);
    try discriminate Hm.
  inversion Hm. reflexivity.
Qed.

(** Two runs from one seed at different clock readings give scripts that
    differ in their generation time. *)
Lemma generate_script_repeat_counterexample :
  ~ (forall tape c1 c2,
        fst (generate_script Config.SCRIPT_OPTIONS Sample.post "short" None
               "casual" {| rng := seed tape; clock_iso := c1 |})
        = fst (generate_script Config.SCRIPT_OPTIONS Sample.post "short" None
                 "casual" {| rng := seed tape; clock_iso := c2 |})).
Proof.
  intros H.
  specialize (H (fun n => n) "2024-01-01T00:00:00" "2024-01-01T00:00:01").
  apply (f_equal (fun r => match r with
                           | Ok s => generated_at (metadata s)
                           | Raise _ => ""
                           end)) in H.
  vm_compute in H. discriminate H.
Qed.

(** C8, amended. Two calls of [generate_script] with the same random
    source and the same post data, format type, template name and
    narration style give the same outcome but for the generation time:
    both raise the same exception, or both return a script with the same
    segments, total duration, word count, narration style and metadata
    except [generated_at], which in each script is the clock reading of
    its call. The scripts are equal when the two readings are. *)
Theorem generate_script_repeatable options post_data format_type
    template_name style g c1 c2 :
  let run c :=
    fst (generate_script options post_data format_type template_name style
           {| rng := g; clock_iso := c |}) in
  match run c1, run c2 with
  | Ok s1, Ok s2 =>
      segments s1 = segments s2
      /\ total_duration s1 = total_duration s2
      /\ word_count s1 = word_count s2
      /\ narration_style s1 = narration_style s2
      /\ metadata s2 = with_generated_at c2 (metadata s1)
      /\ generated_at (metadata s1) = c1
      /\ generated_at (metadata s2) = c2
      /\ (c1 = c2 -> s1 = s2)
  | Raise e1, Raise e2 => e1 = e2
  | _, _ => False
  end.
Proof.
  intros run. unfold run.
  change {| rng := g; clock_iso := c2 |}
    with (with_clock c2 {| rng := g; clock_iso := c1 |}).
  rewrite generate_script_with_clock.
  destruct (generate_script options post_data format_type template_name
              style {| rng := g; clock_iso := c1 |})
    as [[s1 | e] w1] eqn:H1; simpl; [| reflexivity].
  destruct (generated_at_is_clock _ _ _ _ _ _ _ _ H1) as [Hg _].
  simpl in Hg. repeat split; try reflexivity.
  - exact Hg.
  - intros <-. destruct s1 as [m segs td wc ns]. simpl in *.
    f_equal. destruct m. simpl in *. subst. reflexivity.
Qed.

(** ** The SRT exporter *)

(** C9. The SRT export of a script with exactly one segment, whose
    narration is "Hello there. Goodbye now.", which lasts 4 seconds and
    starts at 0, has exactly two entries, numbered 1 and 2, each spanning
    2 seconds, with the timestamp lines 00:00:00,000 --> 00:00:02,000 and
    00:00:02,000 --> 00:00:04,000 and a blank line after each entry. *)
Theorem export_srt_two_sentences script seg :
  segments script = [seg] ->
  narration seg = "Hello there. Goodbye now." ->
  duration seg = 4 ->
  start_time seg = 0 ->
  _export_srt script
  = "1" ++ nl ++ "00:00:00,000 --> 00:00:02,000" ++ nl
    ++ "Hello there" ++ nl ++ nl
    ++ "2" ++ nl ++ "00:00:02,000 --> 00:00:04,000" ++ nl
    ++ "Goodbye now" ++ nl ++ nl
  /\ exists e1 e2,
       _generate_subtitles script = [e1; e2]
       /\ sub_text e1 = "Hello there" /\ sub_text e2 = "Goodbye now"
       /\ sub_start e1 == 0 /\ sub_end e1 == 2
       /\ sub_start e2 == 2 /\ sub_end e2 == 4
       /\ sub_end e1 - sub_start e1 == 2
       /\ sub_end e2 - sub_start e2 == 2.
Proof.
  intros Hsegs Hn Hd Hs.
  unfold _export_srt, _generate_subtitles, _generate_subtitles_with.
  rewrite Hsegs. simpl fold_left. unfold segment_subtitles.
  rewrite Hn, Hd, Hs. split.
  - vm_compute. reflexivity.
  - eexists _, _. split; [vm_compute; reflexivity |].
    repeat split; reflexivity.
Qed.

Lemma export_srt_two_sentences_witness :
  _export_srt Sample.hello_script
  = "1" ++ nl ++ "00:00:00,000 --> 00:00:02,000" ++ nl
    ++ "Hello there" ++ nl ++ nl
    ++ "2" ++ nl ++ "00:00:02,000 --> 00:00:04,000" ++ nl
    ++ "Goodbye now" ++ nl ++ nl
  /\ exists e1 e2,
       _generate_subtitles Sample.hello_script = [e1; e2]
       /\ sub_text e1 = "Hello there" /\ sub_text e2 = "Goodbye now"
       /\ sub_start e1 == 0 /\ sub_end e1 == 2
       /\ sub_start e2 == 2 /\ sub_end e2 == 4
       /\ sub_end e1 - sub_start e1 == 2
       /\ sub_end e2 - sub_start e2 == 2.
Proof.
  apply (export_srt_two_sentences Sample.hello_script Sample.hello_segment);
    reflexivity.
Defined.

(** ** The subtitle splitter *)

(** [re.split] on runs of terminators: the string is its pieces with a
    non-empty run of terminators between each two of them, and no piece
    holds a terminator. The second part is the state within a run, which
    [r] has begun. *)
Lemma re_split_from_spec s :
  (forall cur, terminator_free cur ->
     exists seps,
       Forall terminator_run seps
       /\ List.length (PyStr.re_split_from s cur false) = S (List.length seps)
       /\ interleave (PyStr.re_split_from s cur false) seps = cur ++ s
       /\ Forall terminator_free (PyStr.re_split_from s cur false))
  /\ (exists r seps,
        all_chars PyStr.is_terminator r = true
        /\ Forall terminator_run seps
        /\ List.length (PyStr.re_split_from s "" true) = S (List.length seps)
        /\ r ++ interleave (PyStr.re_split_from s "" true) seps = s
        /\ Forall terminator_free (PyStr.re_split_from s "" true)).
Proof.
  induction s as [| c s [IHf IHt]].
  - split.
    + intros cur Hcur. exists []. simpl. rewrite append_empty_r.
      repeat split; auto.
    + exists "", []. simpl. repeat split; auto. constructor; [| constructor].
      reflexivity.
  - split.
    + intros cur Hcur. simpl. destruct (PyStr.is_terminator c) eqn:Hc.
      * destruct IHt as [r [seps [Hr [Hseps [Hlen [Hcat Hfree]]]]]].
        exists (String c r :: seps). repeat split.
        -- constructor; [| exact Hseps]. split; [discriminate |].
           simpl. rewrite Hc, Hr. reflexivity.
        -- simpl. rewrite Hlen. reflexivity.
        -- simpl.
           destruct (PyStr.re_split_from s "" true) as [| p ps] eqn:Hp;
             [discriminate Hlen |].
           rewrite <- Hcat. simpl. reflexivity.
        -- constructor; assumption.
      * destruct (IHf (PyStr.snoc cur c)) as [seps [Hseps [Hlen [Hcat Hfree]]]].
        { unfold terminator_free. rewrite all_chars_snoc.
          unfold terminator_free in Hcur. rewrite Hcur, Hc. reflexivity. }
        exists seps. rewrite snoc_append in Hcat. repeat split; assumption.
    + simpl. destruct (PyStr.is_terminator c) eqn:Hc.
      * destruct IHt as [r [seps [Hr [Hseps [Hlen [Hcat Hfree]]]]]].
        exists (String c r), seps. repeat split; try assumption.
        -- simpl. rewrite Hc, Hr. reflexivity.
        -- simpl. rewrite Hcat. reflexivity.
      * destruct (IHf (PyStr.snoc "" c)) as [seps [Hseps [Hlen [Hcat Hfree]]]].
        { unfold terminator_free. simpl. rewrite Hc. reflexivity. }
        exists "", seps. repeat split; try assumption.
Qed.

Lemma split_sentences_nonempty narration :
  Forall (fun s => s <> "") (split_sentences narration).
Proof.
  unfold split_sentences.
  induction (PyStr.re_split_terminators narration) as [| p ps IH]; simpl.
  - constructor.
  - destruct (PyStr.is_empty (PyStr.strip p)) eqn:He; simpl.
    + exact IH.
    + constructor; [| exact IH]. apply is_empty_false. exact He.
Qed.

(** The loop over the sentences adds one entry per sentence, each
    starting where the previous one ends and lasting the same time. *)
Lemma sentence_subtitles_spec m span :
  forall sentences t subtitles,
  exists entries,
    sentence_subtitles m sentences span t subtitles
    = (subtitles ++ entries)%list
    /\ map sub_text entries = map (subtitle_text m) sentences
    /\ evenly_spaced t span entries.
Proof.
  induction sentences as [| s rest IH]; intros t subtitles; simpl.
  - exists []. rewrite app_nil_r. repeat split.
  - destruct (IH (t + span)
                (append subtitles
                   {| sub_start := t; sub_end := t + span;
                      sub_text := subtitle_text m s |}))
      as [entries [Heq [Htext Hsp]]].
    exists ({| sub_start := t; sub_end := t + span;
               sub_text := subtitle_text m s |} :: entries).
    split; [| split].
    + rewrite Heq. unfold append. rewrite <- app_assoc. reflexivity.
    + simpl. rewrite Htext. reflexivity.
    + simpl. repeat split. exact Hsp.
Qed.

Lemma length_join_snoc l w :
  String.length (PyStr.join " " (append l w))
  = match l with
    | [] => String.length w
    | _ => (String.length (PyStr.join " " l) + 1 + String.length w)%nat
    end.
Proof.
  unfold append. induction l as [| a l IH]; [reflexivity |].
  destruct l as [| b l].
  - simpl. rewrite length_append. simpl. lia.
  - change (PyStr.join " " ((a :: b :: l) ++ [w]))
      with (a ++ " " ++ PyStr.join " " ((b :: l) ++ [w])).
    change (PyStr.join " " (a :: b :: l))
      with (a ++ " " ++ PyStr.join " " (b :: l)).
    rewrite !length_append, IH. simpl. rewrite ?length_append. simpl. lia.
Qed.

(** The wrapping loop closes only lines that fit, when every word
    fits. *)
Lemma wrap_words_fit m :
  forall words lines current_line current_length lines' current_line',
    Forall (fun w => (String.length w <= m)%nat) words ->
    Forall (fun l => (String.length l <= m)%nat) lines ->
    (String.length (PyStr.join " " current_line) <= current_length)%nat ->
    (current_length <= m)%nat ->
    wrap_words m words lines current_line current_length
    = (lines', current_line') ->
    Forall (fun l => (String.length l <= m)%nat) lines'
    /\ (String.length (PyStr.join " " current_line') <= m)%nat.
Proof.
  induction words as [| w rest IH];
    intros lines cur len lines' cur' Hwords Hlines Hcur Hlen H; simpl in H.
  - inversion H; subst. split; [exact Hlines | lia].
  - inversion Hwords as [| ? ? Hw Hrest]; subst.
    destruct (Nat.ltb_spec m (len + String.length w + 1)) as [Hover | Hfit].
    + eapply IH; [exact Hrest | | | | exact H].
      * unfold append. apply Forall_app. split; [exact Hlines |].
        constructor; [lia | constructor].
      * simpl. lia.
      * exact Hw.
    + eapply IH; [exact Hrest | exact Hlines | | | exact H].
      * rewrite length_join_snoc. destruct cur; lia.
      * lia.
Qed.

(** From a line that has a word and whose running length is its true
    length, the loop closes a line only when the next word does not
    fit. *)
Lemma wrap_words_greedy m :
  forall words lines cur len lines' cur',
    cur <> [] ->
    len = String.length (PyStr.join " " cur) ->
    wrap_words m words lines cur len = (lines', cur') ->
    exists groups,
      lines' = (lines ++ map (PyStr.join " ") groups)%list
      /\ (concat groups ++ cur' = cur ++ words)%list
      /\ closed_when_full m (groups ++ [cur'])
      /\ (exists tl, hd cur' groups = cur ++ tl)%list
      /\ cur' <> [].
Proof.
  induction words as [| w rest IH];
    intros lines cur len lines' cur' Hcur Hlen H; simpl in H.
  - inversion H; subst. exists []. simpl. rewrite !app_nil_r.
    repeat split; auto. exists []. rewrite app_nil_r. reflexivity.
  - destruct (Nat.ltb_spec m (len + String.length w + 1)) as [Hover | Hfit].
    + apply IH in H; [| discriminate | reflexivity].
      destruct H as [groups [Hl [Hc [Hg [[tl Hhd] Hne]]]]].
      exists (cur :: groups). split; [| split; [| split; [| split]]].
      * rewrite Hl. unfold append. rewrite <- app_assoc. reflexivity.
      * simpl. rewrite <- app_assoc, Hc. reflexivity.
      * simpl. destruct groups as [| g groups]; simpl in *.
        -- rewrite Hhd. simpl. split; [lia | exact I].
        -- rewrite Hhd. simpl. rewrite Hhd in Hg. simpl in Hg.
           split; [lia | exact Hg].
      * exists []. simpl. rewrite app_nil_r. reflexivity.
      * exact Hne.
    + apply IH in H.
      * destruct H as [groups [Hl [Hc [Hg [[tl Hhd] Hne]]]]].
        exists groups. split; [exact Hl |]. split.
        -- rewrite Hc. unfold append. rewrite <- app_assoc. reflexivity.
        -- split; [exact Hg |]. split; [| exact Hne].
           exists (w :: tl). rewrite Hhd. unfold append.
           rewrite <- app_assoc. reflexivity.
      * unfold append. destruct cur; discriminate.
      * rewrite length_join_snoc. destruct cur; [congruence | lia].
Qed.

(** From the start of a sentence: the same for every line after the
    first. *)
Lemma wrap_words_greedy_tail m :
  forall words lines cur len lines' cur',
    wrap_words m words lines cur len = (lines', cur') ->
    exists groups,
      lines' = (lines ++ map (PyStr.join " ") groups)%list
      /\ (concat groups ++ cur' = cur ++ words)%list
      /\ closed_when_full m (tl (groups ++ [cur']))
      /\ (cur' = [] -> groups = []).
Proof.
  induction words as [| w rest IH];
    intros lines cur len lines' cur' H; simpl in H.
  - inversion H; subst. exists []. simpl. rewrite !app_nil_r.
    repeat split; auto.
  - destruct (m <? len + String.length w + 1)%nat.
    + apply wrap_words_greedy in H; [| discriminate | reflexivity].
      destruct H as [groups [Hl [Hc [Hg [_ Hne]]]]].
      exists (cur :: groups). split; [| split; [| split]].
      * rewrite Hl. unfold append. rewrite <- app_assoc. reflexivity.
      * simpl. rewrite <- app_assoc, Hc. reflexivity.
      * simpl. exact Hg.
      * intros He. contradiction.
    + apply IH in H. destruct H as [groups [Hl [Hc [Hg He]]]].
      exists groups. split; [exact Hl |]. split; [| split; assumption].
      rewrite Hc. unfold append. rewrite <- app_assoc. reflexivity.
Qed.

Lemma wrap_lines_spec m sentence :
  exists groups,
    wrap_lines m sentence = map (PyStr.join " ") groups
    /\ concat groups = PyStr.split sentence
    /\ closed_when_full m (tl groups)
    /\ (Forall (fun w => (String.length w <= m)%nat) (PyStr.split sentence) ->
        Forall (fun l => (String.length l <= m)%nat) (wrap_lines m sentence)).
Proof.
  unfold wrap_lines.
  destruct (wrap_words m (PyStr.split sentence) [] [] 0)
    as [lines cur] eqn:H.
  destruct (wrap_words_greedy_tail _ _ _ _ _ _ _ H)
    as [groups [Hl [Hc [Hg He]]]].
  simpl in Hl, Hc.
  assert (Hfit : Forall (fun w => (String.length w <= m)%nat)
                   (PyStr.split sentence) ->
                 Forall (fun l => (String.length l <= m)%nat) lines
                 /\ (String.length (PyStr.join " " cur) <= m)%nat).
  { intros Hw. eapply wrap_words_fit; [exact Hw | constructor | | | exact H];
      simpl; lia. }
  destruct cur as [| c cs].
  - exists groups. rewrite app_nil_r in Hc.
    split; [exact Hl |]. split; [exact Hc |]. split.
    + rewrite (He eq_refl). exact I.
    + intros Hw. apply Hfit. exact Hw.
  - exists (groups ++ [c :: cs])%list. split; [| split; [| split]].
    + unfold append. rewrite Hl, map_app. reflexivity.
    + rewrite concat_app. simpl. rewrite app_nil_r. exact Hc.
    + exact Hg.
    + intros Hw. destruct (Hfit Hw) as [H1 H2].
      unfold append. apply Forall_app. split; [exact H1 |].
      constructor; [exact H2 | constructor].
Qed.

(** A sentence of one word of 43 characters keeps that word on a line of
    its own, longer than the limit of 42. *)
Lemma wrap_long_word_counterexample :
  ~ (forall sentence,
        (42 < String.length sentence)%nat ->
        Forall (fun l => (String.length l <= 42)%nat)
               (wrap_lines 42 sentence)).
Proof.
  intros H. specialize (H Sample.long_word).
  assert (Hlen : (42 < String.length Sample.long_word)%nat)
    by (vm_compute; lia).
  specialize (H Hlen).
  assert (Hl : wrap_lines 42 Sample.long_word = [""; Sample.long_word])
    by (vm_compute; reflexivity).
  rewrite Hl in H. inversion H as [| ? ? _ H2]; subst.
  inversion H2 as [| ? ? H3 _]; subst.
  vm_compute in H3. lia.
Qed.

(** C7, amended. For a segment with non-empty narration the splitter
    cuts the narration at every run of '.', '!', '?': the narration is
    the pieces with a non-empty run of terminators between each two, and
    no piece holds a terminator; the sentences are the pieces stripped of
    blanks, the empty ones left out. It adds one entry per sentence, each
    lasting [duration / sentence_count], the first starting at the
    segment's start and each next one where the previous ends. A sentence
    longer than the limit is wrapped into lines made of whole words in
    their order; every line after the first is closed only when the next
    word would not fit on it; and every line is within the limit provided
    that no single word of the sentence is longer than the limit. *)
Theorem subtitle_splitter_spec m seg subtitles :
  narration seg <> "" ->
  let pieces := PyStr.re_split_terminators (narration seg) in
  let sentences := split_sentences (narration seg) in
  let span := duration seg / inject_Z (Z.of_nat (List.length sentences)) in
  (exists seps,
      Forall terminator_run seps
      /\ List.length pieces = S (List.length seps)
      /\ interleave pieces seps = narration seg
      /\ Forall terminator_free pieces)
  /\ sentences
     = map PyStr.strip
         (filter (fun s => negb (PyStr.is_empty (PyStr.strip s))) pieces)
  /\ Forall (fun s => s <> "") sentences
  /\ (exists entries,
        segment_subtitles m seg subtitles = (subtitles ++ entries)%list
        /\ map sub_text entries = map (subtitle_text m) sentences
        /\ evenly_spaced (start_time seg) span entries)
  /\ (forall sentence,
        In sentence sentences ->
        (m < String.length sentence)%nat ->
        exists groups,
          subtitle_text m sentence
          = PyStr.join nl (map (PyStr.join " ") groups)
          /\ concat groups = PyStr.split sentence
          /\ closed_when_full m (tl groups)
          /\ (Forall (fun w => (String.length w <= m)%nat)
                     (PyStr.split sentence) ->
              Forall (fun l => (String.length l <= m)%nat)
                     (map (PyStr.join " ") groups))).
Proof.
  intros Hne pieces sentences span.
  split; [| split; [| split; [| split]]].
  - destruct (re_split_from_spec (narration seg)) as [Hf _].
    destruct (Hf "" eq_refl) as [seps H]. exists seps. exact H.
  - reflexivity.
  - apply split_sentences_nonempty.
  - unfold segment_subtitles. apply is_empty_false in Hne. rewrite Hne.
    fold sentences.
    destruct (sentence_subtitles_spec m
                match sentences with
                | [] => 0
                | _ :: _ =>
                    duration seg
                    / inject_Z (Z.of_nat (List.length sentences))
                end sentences (start_time seg) subtitles)
      as [entries [Heq [Htext Hsp]]].
    exists entries. split; [exact Heq |]. split; [exact Htext |].
    destruct sentences; [| exact Hsp].
    simpl in Htext. destruct entries; [exact I | discriminate Htext].
  - intros sentence _ Hlong.
    destruct (wrap_lines_spec m sentence) as [groups [Hl [Hc [Hg Hfit]]]].
    exists groups. unfold subtitle_text.
    apply Nat.ltb_lt in Hlong. rewrite Hlong, Hl.
    split; [reflexivity |]. split; [exact Hc |]. split; [exact Hg |].
    rewrite <- Hl. exact Hfit.
Qed.

(** The splitter on the segment of the SRT scenario. *)
Lemma subtitle_splitter_spec_witness :
  exists entries,
    segment_subtitles 42 Sample.hello_segment [] = entries
    /\ map sub_text entries = ["Hello there"; "Goodbye now"]
    /\ evenly_spaced 0 (4 / inject_Z 2) entries.
Proof.
  destruct (subtitle_splitter_spec 42 Sample.hello_segment [])
    as [_ [_ [_ [[entries [Heq [Htext Hsp]]] _]]]].
  { discriminate. }
  exists entries. split; [exact Heq |]. split; [exact Htext | exact Hsp].
Defined.

(** ** The theorems on the sample inputs *)

(** The medium script of the sample post has a sound timeline. *)
Lemma generate_script_timeline_witness :
  exists script w',
    generate_script Config.SCRIPT_OPTIONS Sample.post "medium" None "casual"
      Sample.w0 = (Ok script, w')
    /\ timeline_ok script.
Proof.
  destruct (generate_script_timeline Config.SCRIPT_OPTIONS Sample.post
              "medium" None "casual" Sample.w0) as [Hrun Htime].
  destruct Hrun as [script [w' H]].
  - split; [repeat split; discriminate |]. split.
    + simpl. tauto.
    + simpl. intros Hz. discriminate Hz.
  - exists script, w'. split; [exact H | exact (Htime script w' H)].
Defined.

(** The post of the error-handling test is refused before its unknown
    template is looked up. *)
Lemma generate_script_rejects_incomplete_post_witness :
  generate_script Config.SCRIPT_OPTIONS Sample.invalid_post "medium"
    (Some "no_such_template") "casual" Sample.w0
  = (Raise (InvalidPostDataError
              "Post data missing required fields: title, body, subreddit, author"),
     Sample.w0).
Proof.
  destruct (generate_script_rejects_incomplete_post Config.SCRIPT_OPTIONS
              Sample.invalid_post "medium" (Some "no_such_template") "casual"
              Sample.w0) as [_ [Hraise _]].
  apply Hraise. left. reflexivity.
Defined.

(** An unknown template name. *)
Lemma get_template_spec_witness :
  Templates.get_template "tutorial"
  = Raise (ValueError
             "Invalid template: tutorial. Available templates: short, medium, long, story, compilation").
Proof.
  destruct (get_template_spec "tutorial") as [[Hin | Hraise] _].
  - simpl in Hin.
    destruct Hin as [H | [H | [H | [H | [H | []]]]]]; discriminate H.
  - exact Hraise.
Defined.

(** The medium format keeps the first three of the four comments; the
    fourth, with the highest score, is left out. *)
Lemma comment_selection_in_order_witness :
  select_comments (comment_criteria "medium") Sample.four_comments []
  = firstn 3 Sample.four_comments
  /\ select_comments (comment_criteria "medium") Sample.four_comments []
     = select_comments (comment_criteria "medium")
         (firstn 3 Sample.four_comments) [].
Proof.
  destruct (comment_selection_in_order Config.SCRIPT_OPTIONS Sample.busy_post
              "medium") as [Hsel [_ Hcut]].
  split.
  - exact Hsel.
  - apply (Hcut (firstn 3 Sample.four_comments)
                (Sample.comment "fourth" "Four." 5000) []).
    + reflexivity.
    + simpl. lia.
Defined.

(** Two runs of the sample post one second apart. *)
Lemma generate_script_repeatable_witness :
  match
    fst (generate_script Config.SCRIPT_OPTIONS Sample.post "short" None
           "casual" (Sample.world "2024-01-01T00:00:00")),
    fst (generate_script Config.SCRIPT_OPTIONS Sample.post "short" None
           "casual" (Sample.world "2024-01-01T00:00:01"))
  with
  | Ok s1, Ok s2 =>
      segments s1 = segments s2
      /\ total_duration s1 = total_duration s2
      /\ word_count s1 = word_count s2
      /\ narration_style s1 = narration_style s2
      /\ metadata s2 = with_generated_at "2024-01-01T00:00:01" (metadata s1)
      /\ generated_at (metadata s1) = "2024-01-01T00:00:00"
      /\ generated_at (metadata s2) = "2024-01-01T00:00:01"
      /\ ("2024-01-01T00:00:00" = "2024-01-01T00:00:01" -> s1 = s2)
  | Raise e1, Raise e2 => e1 = e2
  | _, _ => False
  end.
Proof.
  exact (generate_script_repeatable Config.SCRIPT_OPTIONS Sample.post "short"
           None "casual" (seed (fun n => n)) "2024-01-01T00:00:00"
           "2024-01-01T00:00:01").
Defined.

(** ** Scripts follow their template *)

Lemma subsequence_length {A} (l1 l2 : list A) :
  subsequence l1 l2 -> (List.length l1 <= List.length l2)%nat.
Proof. induction 1; simpl; lia. Qed.

Lemma subsequence_in {A} (l1 l2 : list A) x :
  subsequence l1 l2 -> In x l1 -> In x l2.
Proof.
  induction 1 as [| y l1 l2 H IH | y l1 l2 H IH]; simpl; intros Hin.
  - contradiction.
  - destruct Hin as [-> | Hin]; [left; reflexivity | right; auto].
  - right. auto.
Qed.

Lemma subsequence_nodup {A} (l1 l2 : list A) :
  subsequence l1 l2 -> NoDup l2 -> NoDup l1.
Proof.
  induction 1 as [| y l1 l2 H IH | y l1 l2 H IH]; intros Hnd.
  - constructor.
  - inversion Hnd as [| ? ? Hnotin Hnd']; subst. constructor.
    + intros Hin. apply Hnotin. eapply subsequence_in; eassumption.
    + apply IH. exact Hnd'.
  - inversion Hnd; subst. apply IH. assumption.
Qed.

Lemma assembled_names options post_data format_type style specs t segs t' :
  assembled options post_data format_type style specs t segs t' ->
  subsequence (map name segs) (map Templates.t_name specs).
Proof.
  induction 1 as
      [ t
      | st rest t s segs t' w w' Hn Hk Hd Hname Htype Hreq Hst Hen Hrest IH
      | st rest t segs t' w w' Hn Hreq Hrest IH ]; simpl.
  - constructor.
  - rewrite Hname. constructor. exact IH.
  - constructor. exact IH.
Qed.

Lemma assembled_required_count options post_data format_type style specs t
    segs t' :
  assembled options post_data format_type style specs t segs t' ->
  (List.length (filter Templates.t_required specs) <= List.length segs)%nat.
Proof.
  induction 1 as
      [ t
      | st rest t s segs t' w w' Hn Hk Hd Hname Htype Hreq Hst Hen Hrest IH
      | st rest t segs t' w w' Hn Hreq Hrest IH ]; simpl.
  - lia.
  - destruct (Templates.t_required st); simpl; lia.
  - rewrite Hreq. exact IH.
Qed.

(** X1. The segments of a generated script follow the template: their
    names are names of the template's segment specs, in the template's
    order and without repetition, and their number lies between the
    number of required specs and the number of all specs, as
    [get_template_info] counts them. *)
Theorem script_segments_follow_template options post_data format_type
    template_name style w script w' :
  generate_script options post_data format_type template_name style w
  = (Ok script, w') ->
  exists info,
    get_template_info (get template_name format_type) = Ok info
    /\ subsequence (map name (segments script)) (segment_names info)
    /\ NoDup (map name (segments script))
    /\ (required_segments info <= List.length (segments script)
        <= total_segments info)%nat.
Proof.
  intros H. apply generate_script_inv in H.
  destruct H as [_ [t [Ht Hasm]]].
  unfold get_template_info. rewrite Ht. eexists. split; [reflexivity |].
  simpl. pose proof (assembled_names _ _ _ _ _ _ _ _ Hasm) as Hsub.
  split; [exact Hsub |]. split.
  - eapply subsequence_nodup; [exact Hsub |].
    eapply catalog_names_nodup. exact Ht.
  - split.
    + rewrite length_map.
      eapply assembled_required_count. exact Hasm.
    + apply subsequence_length in Hsub. rewrite !length_map in Hsub.
      exact Hsub.
Qed.

Lemma script_segments_follow_template_witness :
  exists script w' info,
    generate_script Config.SCRIPT_OPTIONS Sample.quiet_post "short" None
      "casual" Sample.w0 = (Ok script, w')
    /\ get_template_info "short" = Ok info
    /\ subsequence (map name (segments script)) (segment_names info)
    /\ NoDup (map name (segments script))
    /\ (required_segments info <= List.length (segments script)
        <= total_segments info)%nat.
Proof.
  assert (H : exists script w',
             generate_script Config.SCRIPT_OPTIONS Sample.quiet_post "short"
               None "casual" Sample.w0 = (Ok script, w')).
  { vm_compute. eexists _, _. reflexivity. }
  destruct H as [script [w' H]].
  destruct (script_segments_follow_template _ _ _ _ _ _ _ _ H)
    as [info Hinfo].
  exists script, w', info. split; [exact H | exact Hinfo].
Defined.

(** ** Content types without a narration builder *)

Lemma assembled_required_run options post_data format_type style specs t segs
    t' :
  assembled options post_data format_type style specs t segs t' ->
  forall st, In st specs -> Templates.t_required st = true ->
    exists s w w',
      In s segs /\ name s = Templates.t_name st
      /\ type s = Templates.t_content_type st
      /\ _generate_narration options (Templates.t_content_type st) post_data
           format_type style (Templates.t_name st) w = (Ok (narration s), w')
      /\ _calculate_duration options (narration s)
           (inject_Z (Templates.t_duration st)) = Ok (duration s).
Proof.
  induction 1 as
      [ t
      | st0 rest t s0 segs t' w w' Hn Hk Hd Hname Htype Hreq Hst Hen Hrest IH
      | st0 rest t segs t' w w' Hn Hreq Hrest IH ]; intros st Hin Hrq.
  - contradiction.
  - destruct Hin as [<- | Hin].
    + exists s0, w, w'. simpl. tauto.
    + destruct (IH st Hin Hrq) as [s [w1 [w1' [Hs Hrest']]]].
      exists s, w1, w1'. simpl. tauto.
  - destruct Hin as [<- | Hin]; [congruence |].
    destruct (IH st Hin Hrq) as [s [w1 [w1' [Hs Hrest']]]].
    exists s, w1, w1'. tauto.
Qed.

(** X2. The content types [post_continuation] and [post_block] have no
    narration builder, so their narration is empty: no long script has
    the optional segment [body_part_2], and every compilation script has
    the required segment [post_segment] with empty narration and its
    nominal 30 seconds. *)
Theorem unhandled_content_types options post_data format_type template_name
    style w script w' :
  generate_script options post_data format_type template_name style w
  = (Ok script, w') ->
  (get template_name format_type = "long" ->
   forall s, In s (segments script) -> name s <> "body_part_2")
  /\ (get template_name format_type = "compilation" ->
      exists s,
        In s (segments script) /\ name s = "post_segment"
        /\ type s = "post_block" /\ narration s = "" /\ duration s = 30).
Proof.
  intros H. apply generate_script_inv in H.
  destruct H as [Hv [t [Ht Hasm]]].
  split; intros Hname; rewrite Hname in Ht; simpl in Ht; inversion Ht; subst t.
  - eapply (assembled_dropped _ _ _ _ _ _ _ _ Hv Hasm)
      with (st := Templates.seg "body_part_2" 45 false "post_continuation"
                    "continued_content" "scrolling_text")
           (w0 := w) (w0' := w).
    + apply (catalog_names_nodup "long"). reflexivity.
    + simpl. tauto.
    + reflexivity.
    + reflexivity.
  - destruct (assembled_required_run _ _ _ _ _ _ _ _ Hasm
                {| Templates.t_name := "post_segment";
                   Templates.t_duration := 30;
                   Templates.t_required := true;
                   Templates.t_content_type := "post_block";
                   Templates.t_narration := "post_summary";
                   Templates.t_visual := "post_display";
                   Templates.t_repeatable := Some true |})
      as [s [w1 [w1' [Hs [Hn [Hty [Hrun Hd]]]]]]].
    + simpl. tauto.
    + reflexivity.
    + simpl in Hrun, Hd, Hn, Hty.
      change (ret "" w1 = (Ok (narration s), w1')) in Hrun.
      apply ret_inv in Hrun. destruct Hrun as [Hnarr _].
      assert (Hempty : narration s = "") by congruence.
      rewrite Hempty in Hd. simpl in Hd.
      assert (Hdur : duration s = 30).
      { injection Hd as Hd. symmetry. exact Hd. }
      exists s. repeat split; assumption.
Qed.

Lemma unhandled_content_types_witness :
  exists script w',
    generate_script Config.SCRIPT_OPTIONS Sample.post "medium"
      (Some "compilation") "casual" Sample.w0 = (Ok script, w')
    /\ exists s,
         In s (segments script) /\ name s = "post_segment"
         /\ type s = "post_block" /\ narration s = "" /\ duration s = 30.
Proof.
  assert (H : exists script w',
             generate_script Config.SCRIPT_OPTIONS Sample.post "medium"
               (Some "compilation") "casual" Sample.w0 = (Ok script, w')).
  { vm_compute. eexists _, _. reflexivity. }
  destruct H as [script [w' H]]. exists script, w'. split; [exact H |].
  destruct (unhandled_content_types _ _ _ _ _ _ _ _ H) as [_ Hc].
  apply Hc. reflexivity.
Defined.

(** ** A speaking rate of zero *)

Lemma spoken_narration_nonempty options content_type post_data format_type
    style segment_name w n w' :
  valid_post post_data ->
  content_type = "intro" \/ content_type = "call_to_action"
  \/ content_type = "outro" \/ content_type = "engagement" ->
  _generate_narration options content_type post_data format_type style
    segment_name w = (Ok n, w') ->
  n <> "".
Proof.
  intros [_ [_ [Hs _]]] Hct H.
  destruct (p_subreddit post_data) as [sr |] eqn:Esr; [| congruence].
  destruct Hct as [-> | [-> | [-> | ->]]];
    unfold _generate_narration in H; simpl in H.
  - destruct (intro_narration_total post_data style w sr Esr)
      as [m [u [Hm Hne]]]. congruence.
  - destruct (outro_narration_total style w) as [m [u [Hm Hne]]]. congruence.
  - destruct (outro_narration_total style w) as [m [u [Hm Hne]]]. congruence.
  - destruct (engagement_narration_total style w) as [m [u [Hm Hne]]].
    congruence.
Qed.

Lemma catalog_has_spoken_segment template_name t :
  Templates.get_template template_name = Ok t ->
  exists st,
    In st (Templates.segments t) /\ Templates.t_required st = true
    /\ (Templates.t_content_type st = "intro"
        \/ Templates.t_content_type st = "call_to_action"
        \/ Templates.t_content_type st = "outro"
        \/ Templates.t_content_type st = "engagement").
Proof.
  intros H. apply get_template_known in H. simpl in H.
  destruct H as [H | [H | [H | [H | [H | []]]]]]; inversion H; subst.
  - exists (Templates.seg "outro" 3 true "call_to_action" "engagement"
              "cta_screen"). simpl. tauto.
  - exists (Templates.seg "intro" 5 true "intro" "greeting" "animated_intro").
    simpl. tauto.
  - exists (Templates.seg "intro" 8 true "intro" "channel_intro"
              "branded_intro"). simpl. tauto.
  - exists (Templates.seg "conclusion" 10 true "outro" "story_wrap"
              "conclusion_screen"). simpl. tauto.
  - exists (Templates.seg "intro" 10 true "intro" "compilation_intro"
              "montage"). simpl. tauto.
Qed.

(** X3. A generator whose [words_per_minute] is zero never returns a
    script: for every valid post and every template of the catalog
    [generate_script] raises [ZeroDivisionError], because every template
    has a required segment whose narration is never empty. *)
Theorem zero_rate_never_generates options post_data format_type template_name
    style w :
  valid_post post_data ->
  In (get template_name format_type) catalog_names ->
  Config.words_per_minute options == 0 ->
  exists w',
    generate_script options post_data format_type template_name style w
    = (Raise (ZeroDivisionError "division by zero"), w').
Proof.
  intros Hv Hin Hz.
  destruct (generate_script_outcome options post_data format_type
              template_name style w Hv)
    as [r [w' [Hr [[script [-> _]] | [[msg [_ [_ Hout]]] | [_ ->]]]]]].
  - exfalso. apply generate_script_inv in Hr.
    destruct Hr as [_ [t [Ht Hasm]]].
    destruct (catalog_has_spoken_segment _ _ Ht) as [st [Hst [Hreq Hct]]].
    destruct (assembled_required_run _ _ _ _ _ _ _ _ Hasm st Hst Hreq)
      as [s [w1 [w1' [_ [_ [_ [Hrun Hd]]]]]]].
    pose proof (spoken_narration_nonempty _ _ _ _ _ _ _ _ _ Hv Hct Hrun)
      as Hne.
    unfold _calculate_duration in Hd.
    apply is_empty_false in Hne. rewrite Hne in Hd.
    apply Qeq_bool_iff in Hz. rewrite Hz in Hd. discriminate Hd.
  - contradiction.
  - exists w'. exact Hr.
Qed.

Lemma zero_rate_never_generates_witness :
  exists w',
    generate_script
      {| Config.words_per_minute := 0; Config.pause_duration := 1 # 2;
         Config.show_usernames := true; Config.show_scores := true |}
      Sample.post "short" None "casual" Sample.w0
    = (Raise (ZeroDivisionError "division by zero"), w').
Proof.
  apply zero_rate_never_generates.
  - repeat split; discriminate.
  - simpl. tauto.
  - reflexivity.
Defined.

(** ** The metadata *)

Lemma generate_script_metadata options post_data fmt template_name
    style w script w' :
  generate_script options post_data fmt template_name style w
  = (Ok script, w') ->
  p_title post_data = Some (title (metadata script))
  /\ p_subreddit post_data = Some (subreddit (metadata script))
  /\ p_author post_data = Some (author (metadata script))
  /\ post_id (metadata script) = get (p_id post_data) "unknown"
  /\ post_url (metadata script) = get (p_url post_data) ""
  /\ post_score (metadata script) = get (p_score post_data) 0%Z
  /\ num_comments (metadata script) = get (p_num_comments post_data) 0%Z
  /\ format_type (metadata script) = fmt
  /\ template (metadata script) = get template_name fmt.
Proof.
  unfold generate_script. rewrite bind_lift. intros H.
  destruct (_validate_post_data post_data) as [[] | e]; [| discriminate].
  rewrite bind_lift in H.
  destruct (Templates.get_template (get template_name fmt))
    as [t | e]; [| discriminate].
  apply bind_ok_inv in H. destruct H as [m [w1 [Hm H]]].
  apply bind_ok_inv in H. destruct H as [[segs t'] [w2 [Hsegs H]]].
  apply ret_inv in H. destruct H as [Hr _].
  injection Hr as Hr. subst script. simpl.
  unfold _generate_metadata in Hm.
  destruct (p_title post_data), (p_subreddit post_data), (p_author post_data);
    try discriminate Hm.
  injection Hm as Hm _. subst m. simpl. repeat split; reflexivity.
Qed.

(** X4. The metadata of a generated script repeats the post's title,
    subreddit and author and the call's format type; the template name is
    the one given, or the format type when none is given; and the
    optional keys of the post that are missing are replaced by
    "unknown" for the id, the empty string for the URL, and 0 for the
    score and the number of comments. *)
Theorem script_metadata_echoes_post options post_data fmt
    template_name style w script w' :
  generate_script options post_data fmt template_name style w
  = (Ok script, w') ->
  let m := metadata script in
  p_title post_data = Some (title m)
  /\ p_subreddit post_data = Some (subreddit m)
  /\ p_author post_data = Some (author m)
  /\ format_type m = fmt
  /\ (template_name = None -> template m = fmt)
  /\ (forall t, template_name = Some t -> template m = t)
  /\ (p_id post_data = None -> post_id m = "unknown")
  /\ (p_url post_data = None -> post_url m = "")
  /\ (p_score post_data = None -> post_score m = 0%Z)
  /\ (p_num_comments post_data = None -> num_comments m = 0%Z)
  /\ (forall i, p_id post_data = Some i -> post_id m = i)
  /\ (forall u, p_url post_data = Some u -> post_url m = u)
  /\ (forall z, p_score post_data = Some z -> post_score m = z)
  /\ (forall z, p_num_comments post_data = Some z -> num_comments m = z).
Proof.
  intros H m. apply generate_script_metadata in H. fold m in H.
  destruct H as [Ht [Hs [Ha [Hid [Hurl [Hsc [Hnc [Hf Htpl]]]]]]]].
  repeat split; try assumption.
  - intros ->. exact Htpl.
  - intros t ->. exact Htpl.
  - intros E. rewrite Hid, E. reflexivity.
  - intros E. rewrite Hurl, E. reflexivity.
  - intros E. rewrite Hsc, E. reflexivity.
  - intros E. rewrite Hnc, E. reflexivity.
  - intros i E. rewrite Hid, E. reflexivity.
  - intros u E. rewrite Hurl, E. reflexivity.
  - intros z E. rewrite Hsc, E. reflexivity.
  - intros z E. rewrite Hnc, E. reflexivity.
Qed.

Lemma script_metadata_echoes_post_witness :
  exists script w',
    generate_script Config.SCRIPT_OPTIONS Sample.quiet_post "short" None
      "casual" Sample.w0 = (Ok script, w')
    /\ title (metadata script)
       = "TIL that octopuses have three hearts and blue blood"
    /\ template (metadata script) = "short"
    /\ post_id (metadata script) = "test123".
Proof.
  assert (H : exists script w',
             generate_script Config.SCRIPT_OPTIONS Sample.quiet_post "short"
               None "casual" Sample.w0 = (Ok script, w')).
  { vm_compute. eexists _, _. reflexivity. }
  destruct H as [script [w' H]]. exists script, w'. split; [exact H |].
  destruct (script_metadata_echoes_post _ _ _ _ _ _ _ _ H)
    as [Ht [_ [_ [_ [Htpl [_ [_ [_ [_ [_ [Hid _]]]]]]]]]]].
  split; [| split].
  - simpl in Ht. injection Ht as Ht. symmetry. exact Ht.
  - apply Htpl. reflexivity.
  - apply Hid. reflexivity.
Defined.

(** ** The pipeline's script *)

Lemma format_type_of_cases video_format :
  RedditToVideo.format_type_of video_format = "short"
  \/ RedditToVideo.format_type_of video_format = "medium"
  \/ RedditToVideo.format_type_of video_format = "long".
Proof.
  unfold RedditToVideo.format_type_of.
  destruct (in_list video_format ["tiktok"; "youtube_shorts"]); [tauto |].
  destruct (in_list video_format ["instagram"; "facebook"]); tauto.
Qed.

(** X5. The pipeline's [_generate_script] never asks for an unknown
    template: whatever the video format, it uses the short, medium or
    long template (short for tiktok and youtube_shorts, medium for
    instagram and facebook, long for anything else), and on a valid post
    it returns a script made with that template. *)
Theorem pipeline_generates_script video_format narration_style post_data w :
  valid_post post_data ->
  exists script w',
    RedditToVideo._generate_script video_format narration_style post_data w
    = (Ok script, w')
    /\ template (metadata script)
       = RedditToVideo.format_type_of video_format
    /\ In (template (metadata script)) ["short"; "medium"; "long"]
    /\ (video_format = "tiktok" \/ video_format = "youtube_shorts" ->
        template (metadata script) = "short")
    /\ (video_format = "instagram" \/ video_format = "facebook" ->
        template (metadata script) = "medium")
    /\ (video_format = "youtube" -> template (metadata script) = "long").
Proof.
  intros Hv. unfold RedditToVideo._generate_script. cbv zeta.
  destruct (generate_script_outcome Config.SCRIPT_OPTIONS post_data
              (RedditToVideo.format_type_of video_format) None
              narration_style w Hv)
    as [r [w' [Hr [[script [-> _]] | [[msg [_ [_ Hout]]] | [Hz _]]]]]].
  - exists script, w'. split; [exact Hr |].
    apply generate_script_metadata in Hr.
    destruct Hr as [_ [_ [_ [_ [_ [_ [_ [_ Htpl]]]]]]]].
    simpl in Htpl. rewrite Htpl.
    split; [reflexivity |]. split.
    + simpl. destruct (format_type_of_cases video_format)
        as [-> | [-> | ->]]; tauto.
    + repeat split.
      * intros [-> | ->]; reflexivity.
      * intros [-> | ->]; reflexivity.
      * intros ->. reflexivity.
  - exfalso. apply Hout. simpl.
    destruct (format_type_of_cases video_format) as [-> | [-> | ->]]; tauto.
  - discriminate Hz.
Qed.

Lemma pipeline_generates_script_witness :
  exists script w',
    RedditToVideo._generate_script "tiktok" "casual" Sample.post Sample.w0
    = (Ok script, w')
    /\ template (metadata script) = "short".
Proof.
  destruct (pipeline_generates_script "tiktok" "casual" Sample.post Sample.w0)
    as [script [w' [H [_ [_ [Hs _]]]]]].
  { repeat split; discriminate. }
  exists script, w'. split; [exact H |]. apply Hs. left. reflexivity.
Defined.

(** ** The title segment *)

Lemma title_narration_prefix post_data style n :
  _generate_title_narration post_data style = Ok n ->
  exists t, p_title post_data = Some t /\ n = title_prefix style ++ t.
Proof.
  unfold _generate_title_narration, title_prefix.
  destruct (p_title post_data) as [t |]; simpl; [| discriminate].
  intros H. exists t. split; [reflexivity |].
  destruct (String.eqb style "dramatic");
    [injection H as H; symmetry; exact H |].
  destruct (String.eqb style "comedic");
    injection H as H; symmetry; exact H.
Qed.

(** X6. In a generated script every segment of content type title reads
    the post's title after the style's prefix: "Listen to this: " for the
    dramatic style, "Get this: " for the comedic one, and nothing for any
    other style. *)
Theorem title_segment_reads_title options post_data fmt template_name style w
    script w' :
  generate_script options post_data fmt template_name style w
  = (Ok script, w') ->
  forall s, In s (segments script) -> type s = "title" ->
    narration s = title_prefix style ++ title (metadata script)
    /\ (style = "dramatic" ->
        narration s = "Listen to this: " ++ title (metadata script))
    /\ (style = "comedic" ->
        narration s = "Get this: " ++ title (metadata script))
    /\ (style <> "dramatic" -> style <> "comedic" ->
        narration s = title (metadata script)).
Proof.
  intros H s Hs Hty.
  pose proof (generate_script_metadata _ _ _ _ _ _ _ _ H) as [Htitle _].
  apply generate_script_inv in H. destruct H as [_ [t [_ Hasm]]].
  destruct (assembled_origin _ _ _ _ _ _ _ _ Hasm s Hs)
    as [st [w1 [w1' [_ [_ [Hty' [_ [Hrun _]]]]]]]].
  rewrite <- Hty', Hty in Hrun.
  change (lift (_generate_title_narration post_data style) w1
          = (Ok (narration s), w1')) in Hrun.
  apply lift_inv in Hrun. destruct Hrun as [Hn _].
  symmetry in Hn. apply title_narration_prefix in Hn.
  destruct Hn as [t0 [Ht0 Hn]]. rewrite Htitle in Ht0.
  injection Ht0 as Ht0. subst t0.
  split; [exact Hn |]. unfold title_prefix in Hn. repeat split.
  - intros ->. exact Hn.
  - intros ->. exact Hn.
  - intros Hd Hc.
    destruct (String.eqb_spec style "dramatic") as [E | _]; [contradiction |].
    destruct (String.eqb_spec style "comedic") as [E | _]; [contradiction |].
    exact Hn.
Qed.

Lemma title_segment_reads_title_witness :
  exists script w' s,
    generate_script Config.SCRIPT_OPTIONS Sample.quiet_post "short" None
      "dramatic" Sample.w0 = (Ok script, w')
    /\ In s (segments script)
    /\ narration s
       = "Listen to this: TIL that octopuses have three hearts and blue blood".
Proof.
  assert (H : exists script w' s,
             generate_script Config.SCRIPT_OPTIONS Sample.quiet_post "short"
               None "dramatic" Sample.w0 = (Ok script, w')
             /\ In s (segments script) /\ type s = "title"
             /\ title (metadata script)
                = "TIL that octopuses have three hearts and blue blood").
  { vm_compute. eexists _, _, _. split; [reflexivity |].
    split; [left; reflexivity |]. split; reflexivity. }
  destruct H as [script [w' [s [H [Hs [Hty Ht]]]]]].
  exists script, w', s. split; [exact H |]. split; [exact Hs |].
  destruct (title_segment_reads_title _ _ _ _ _ _ _ _ H s Hs Hty)
    as [_ [Hd _]].
  rewrite <- Ht. apply Hd. reflexivity.
Defined.

(** ** How long a script lasts *)

Lemma chain_sum t segs t' :
  chain t segs t' -> t' == t + Qsum (map duration segs).
Proof.
  revert t. induction segs as [| s rest IH]; intros t H; simpl in H.
  - subst. simpl. unfold Qsum. simpl. ring.
  - destruct H as [Hst [Hen [_ H]]]. apply IH in H.
    rewrite H, Hen, Hst. unfold Qsum. simpl. ring.
Qed.

Lemma assembled_required_durations options post_data format_type style specs
    t segs t' :
  Forall (fun st => (0 <= Templates.t_duration st)%Z) specs ->
  assembled options post_data format_type style specs t segs t' ->
  inject_Z (Zsum (map Templates.t_duration
                      (filter Templates.t_required specs)))
  <= Qsum (map duration segs).
Proof.
  intros Hpos H. induction H as
      [ t
      | st rest t s segs t' w w' Hn Hk Hd Hname Htype Hreq Hst Hen Hrest IH
      | st rest t segs t' w w' Hn Hreq Hrest IH ].
  - simpl. apply Qle_refl.
  - inversion Hpos as [| ? ? Hst0 Hrest0]; subst.
    apply calculate_duration_ge in Hd. specialize (IH Hrest0).
    assert (H0 : 0 <= inject_Z (Templates.t_duration st)).
    { change 0 with (inject_Z 0). rewrite <- Zle_Qle. exact Hst0. }
    simpl. destruct (Templates.t_required st); simpl.
    + unfold Zsum in *. simpl. rewrite inject_Z_plus.
      unfold Qsum. simpl. apply Qplus_le_compat; assumption.
    + unfold Qsum. simpl.
      rewrite <- (Qplus_0_l (inject_Z _)).
      apply Qplus_le_compat; [| exact IH].
      eapply Qle_trans; eassumption.
  - inversion Hpos; subst. simpl. rewrite Hreq. apply IH.
    assumption.
Qed.

Lemma script_duration_sum options post_data fmt template_name style w
    script w' :
  generate_script options post_data fmt template_name style w
  = (Ok script, w') ->
  total_duration script == Qsum (map duration (segments script)).
Proof.
  intros H. apply generate_script_inv in H.
  destruct H as [_ [t [Ht Hasm]]].
  pose proof (catalog_durations_nonneg _ _ Ht) as Hpos.
  pose proof (assembled_chain _ _ _ _ _ _ _ _ Hpos Hasm) as Hchain.
  apply chain_sum in Hchain. rewrite Hchain. ring.
Qed.

(** X7. The total duration of a generated script is the sum of its
    segments' durations, and it is at least the sum of the nominal
    durations of the template's required segments. *)
Theorem script_duration_bounds options post_data fmt template_name style w
    script w' :
  generate_script options post_data fmt template_name style w
  = (Ok script, w') ->
  exists t,
    Templates.get_template (get template_name fmt) = Ok t
    /\ total_duration script == Qsum (map duration (segments script))
    /\ inject_Z (Zsum (map Templates.t_duration
                          (filter Templates.t_required
                                  (Templates.segments t))))
       <= total_duration script.
Proof.
  intros H. pose proof (script_duration_sum _ _ _ _ _ _ _ _ H) as Hsum.
  apply generate_script_inv in H.
  destruct H as [_ [t [Ht Hasm]]]. exists t. split; [exact Ht |].
  pose proof (catalog_durations_nonneg _ _ Ht) as Hpos.
  split; [exact Hsum |]. rewrite Hsum.
  eapply assembled_required_durations; eassumption.
Qed.

Lemma script_duration_bounds_witness :
  exists script w',
    generate_script Config.SCRIPT_OPTIONS Sample.quiet_post "medium" None
      "casual" Sample.w0 = (Ok script, w')
    /\ total_duration script == Qsum (map duration (segments script))
    /\ 61 <= total_duration script.
Proof.
  assert (H : exists script w',
             generate_script Config.SCRIPT_OPTIONS Sample.quiet_post "medium"
               None "casual" Sample.w0 = (Ok script, w')).
  { vm_compute. eexists _, _. reflexivity. }
  destruct H as [script [w' H]]. exists script, w'. split; [exact H |].
  destruct (script_duration_bounds _ _ _ _ _ _ _ _ H) as [t [Ht [Hs Hb]]].
  simpl in Ht. injection Ht as Ht. subst t.
  split; [exact Hs | exact Hb].
Defined.







(** ** Joining words and splitting them again *)

Lemma split_from_word a b cur :
  blank_free a ->
  PyStr.split_from (a ++ b) cur = PyStr.split_from b (cur ++ a).
Proof.
  revert cur. induction a as [| c a IH]; intros cur Ha; simpl.
  - rewrite append_empty_r. reflexivity.
  - unfold blank_free in Ha. simpl in Ha.
    apply andb_true_iff in Ha. destruct Ha as [Hc Ha].
    apply negb_true_iff in Hc. rewrite Hc.
    rewrite IH by exact Ha. rewrite snoc_append. reflexivity.
Qed.

Lemma split_from_end cur :
  cur <> "" -> PyStr.split_from "" cur = [cur].
Proof. destruct cur; [congruence | reflexivity]. Qed.

Lemma blank_free_append a b :
  blank_free a -> blank_free b -> blank_free (a ++ b).
Proof.
  unfold blank_free. induction a as [| c a IH]; simpl; intros Ha Hb.
  - exact Hb.
  - apply andb_true_iff in Ha. destruct Ha as [Hc Ha].
    rewrite Hc. simpl. apply IH; assumption.
Qed.

(** Words joined by single spaces, with a suffix without blanks glued to
    the last one, split into the same words. *)
Lemma split_join_suffix suf :
  blank_free suf ->
  forall ws, Forall is_word ws -> ws <> [] ->
    PyStr.split (PyStr.join " " ws ++ suf)
    = append (removelast ws) (last ws "" ++ suf).
Proof.
  intros Hsuf. unfold PyStr.split.
  induction ws as [| w ws IH]; intros Hws Hne; [congruence |].
  inversion Hws as [| ? ? [Hw0 Hw] Hrest]; subst.
  destruct ws as [| w' rest].
  - simpl. rewrite split_from_word by exact Hw. simpl.
    rewrite <- (append_empty_r suf), split_from_word by exact Hsuf.
    rewrite append_empty_r. apply split_from_end.
    destruct w; [congruence | discriminate].
  - change (PyStr.join " " (w :: w' :: rest))
      with (w ++ " " ++ PyStr.join " " (w' :: rest)).
    rewrite append_assoc, split_from_word by exact Hw.
    simpl ("" ++ w). rewrite append_assoc.
    change (" " ++ PyStr.join " " (w' :: rest) ++ suf)
      with (String " " (PyStr.join " " (w' :: rest) ++ suf)).
    change (PyStr.split_from
              (String " " (PyStr.join " " (w' :: rest) ++ suf)) w)
      with (if PyStr.is_empty w
            then PyStr.split_from (PyStr.join " " (w' :: rest) ++ suf) ""
            else w :: PyStr.split_from
                        (PyStr.join " " (w' :: rest) ++ suf) "").
    destruct w; [congruence |]. simpl PyStr.is_empty. cbv iota.
    rewrite IH by (assumption || discriminate). reflexivity.
Qed.



Lemma Forall_firstn {A} (P : A -> Prop) n l :
  Forall P l -> Forall P (firstn n l).
Proof.
  revert n. induction l as [| x l IH]; intros n H.
  - rewrite firstn_nil. constructor.
  - destruct n; simpl; [constructor |].
    inversion H; subst. constructor; auto.
Qed.

(** ** The body narration *)

(** X9. The body narration keeps within the format's word budget of 50
    (short), 150 (medium) or 500 (any other format) words. A body within
    the budget is read whole; a longer one is cut to its first words, as
    many as the budget, joined by single spaces and followed by an
    ellipsis, which makes exactly the budget in words. *)
Theorem body_narration_within_budget post_data fmt :
  let body := get (p_body post_data) "" in
  let words := PyStr.split body in
  let budget := body_word_budget fmt in
  (List.length words <= budget ->
   _generate_body_narration post_data fmt = body)%nat
  /\ (budget < List.length words ->
      _generate_body_narration post_data fmt
      = PyStr.join " " (firstn budget words) ++ "..."
      /\ _count_words (_generate_body_narration post_data fmt) = budget)%nat
  /\ (_count_words (_generate_body_narration post_data fmt) <= budget)%nat
  /\ (p_body post_data = None -> _generate_body_narration post_data fmt = "").
Proof.
  intros body words budget.
  assert (Hpos : (0 < budget)%nat).
  { unfold budget, body_word_budget.
    destruct (String.eqb fmt "short"); [lia |].
    destruct (String.eqb fmt "medium"); lia. }
  assert (Hcut : (budget < List.length words)%nat ->
            _generate_body_narration post_data fmt
            = PyStr.join " " (firstn budget words) ++ "..."
            /\ _count_words (_generate_body_narration post_data fmt)
               = budget).
  { intros Hlong. unfold _generate_body_narration. fold body.
    destruct (PyStr.is_empty body) eqn:He.
    { apply is_empty_true in He. unfold words in Hlong.
      rewrite He in Hlong. simpl in Hlong. lia. }
    fold words. fold (body_word_budget fmt). fold budget.
    apply Nat.ltb_lt in Hlong. rewrite Hlong. apply Nat.ltb_lt in Hlong.
    split; [reflexivity |].
    rewrite count_words_split.
    rewrite split_join_suffix.
    - unfold append.
      rewrite length_app, removelast_firstn_len, !length_firstn. simpl.
      rewrite (Nat.min_l budget) by lia. lia.
    - reflexivity.
    - apply Forall_firstn. apply split_spec.
    - intros E. apply (f_equal (@List.length string)) in E.
      rewrite length_firstn in E. simpl in E.
      rewrite Nat.min_l in E by lia. lia. }
  assert (Hkeep : (List.length words <= budget)%nat ->
            _generate_body_narration post_data fmt = body).
  { intros Hshort. unfold _generate_body_narration. fold body.
    destruct (PyStr.is_empty body) eqn:He.
    { apply is_empty_true in He. symmetry. exact He. }
    fold words. fold (body_word_budget fmt). fold budget.
    apply Nat.ltb_ge in Hshort. rewrite Hshort. reflexivity. }
  split; [exact Hkeep |]. split; [exact Hcut |]. split.
  - destruct (Nat.le_gt_cases (List.length words) budget) as [Hs | Hl].
    + rewrite (Hkeep Hs), count_words_split. exact Hs.
    + destruct (Hcut Hl) as [_ Hc]. rewrite Hc. lia.
  - intros Hnone. unfold _generate_body_narration. rewrite Hnone.
    reflexivity.
Qed.

(** ** The teaser *)



(** ** The context segment *)

Lemma assembled_kept options post_data format_type style specs t segs t' :
  assembled options post_data format_type style specs t segs t' ->
  forall st, In st specs ->
    (forall w n w',
        _generate_narration options (Templates.t_content_type st) post_data
          format_type style (Templates.t_name st) w = (Ok n, w') ->
        n <> "") ->
    exists s w w',
      In s segs /\ name s = Templates.t_name st
      /\ _generate_narration options (Templates.t_content_type st) post_data
           format_type style (Templates.t_name st) w = (Ok (narration s), w').
Proof.
  induction 1 as
      [ t
      | st0 rest t s0 segs t' w w' Hn Hk Hd Hname Htype Hreq Hst Hen Hrest IH
      | st0 rest t segs t' w w' Hn Hreq Hrest IH ]; intros st Hin Hne.
  - contradiction.
  - destruct Hin as [<- | Hin].
    + exists s0, w, w'. simpl. tauto.
    + destruct (IH st Hin Hne) as [s [w1 [w1' [Hs Hrest']]]].
      exists s, w1, w1'. simpl. tauto.
  - destruct Hin as [<- | Hin].
    + exfalso. exact (Hne _ _ _ Hn eq_refl).
    + destruct (IH st Hin Hne) as [s [w1 [w1' [Hs Hrest']]]].
      exists s, w1, w1'. tauto.
Qed.

Lemma context_narration_names_author options post_data fmt a :
  Config.show_usernames options = true ->
  p_author post_data = Some a ->
  exists rest,
    _generate_context_narration options post_data fmt
    = Ok ("Posted by u/" ++ a ++ rest).
Proof.
  intros Hu Ha. unfold _generate_context_narration. rewrite Hu, Ha.
  destruct (Config.show_scores options
            && negb (get (p_score post_data) 0 =? 0)%Z);
    destruct (String.eqb fmt "long"
              && negb (List.length (get (p_awards post_data) []) =? 0)%nat);
    try destruct (0 <? List.length (get (p_awards post_data) []))%nat;
    unfold append; simpl; rewrite ?append_assoc;
    eexists; reflexivity.
Qed.

Lemma context_narration_silent options post_data :
  Config.show_usernames options = false ->
  Config.show_scores options = false
  \/ get (p_score post_data) 0%Z = 0%Z ->
  _generate_context_narration options post_data "medium" = Ok "".
Proof.
  intros Hu Hs. unfold _generate_context_narration. rewrite Hu.
  destruct Hs as [Hs | Hs]; rewrite Hs; simpl;
    rewrite ?andb_false_r; reflexivity.
Qed.

(** X11. Whether a medium script has its optional context segment is
    decided by the options. When user names are shown the segment is
    always there and its narration begins with "Posted by u/" and the
    post's author; when user names are hidden and the score is hidden,
    missing or zero, the narration is empty and the segment is left
    out. *)
Theorem medium_context_segment options post_data style w script w' :
  generate_script options post_data "medium" None style w
  = (Ok script, w') ->
  (Config.show_usernames options = true ->
   exists s rest,
     In s (segments script) /\ name s = "context"
     /\ narration s
        = "Posted by u/" ++ author (metadata script) ++ rest)
  /\ (Config.show_usernames options = false ->
      Config.show_scores options = false
      \/ get (p_score post_data) 0%Z = 0%Z ->
      forall s, In s (segments script) -> name s <> "context").
Proof.
  intros H.
  pose proof (generate_script_metadata _ _ _ _ _ _ _ _ H)
    as [_ [_ [Hauthor _]]].
  apply generate_script_inv in H. destruct H as [Hv [t [Ht Hasm]]].
  simpl in Ht. injection Ht as Ht. subst t.
  set (st := Templates.seg "context" 3 false "metadata" "background"
               "stats_display").
  assert (Hin : In st (Templates.segments Templates.MediumFormTemplate))
    by (simpl; tauto).
  split.
  - intros Hu.
    destruct (context_narration_names_author options post_data "medium" _
                Hu Hauthor) as [rest Hrest].
    destruct (assembled_kept _ _ _ _ _ _ _ _ Hasm st Hin)
      as [s [w1 [w1' [Hs [Hname Hrun]]]]].
    + intros w0 n w0' Hrun.
      change (lift (_generate_context_narration options post_data "medium")
                w0 = (Ok n, w0')) in Hrun.
      apply lift_inv in Hrun. destruct Hrun as [Hn _].
      rewrite Hrest in Hn. injection Hn as Hn. rewrite Hn. discriminate.
    + change (lift (_generate_context_narration options post_data "medium")
                w1 = (Ok (narration s), w1')) in Hrun.
      apply lift_inv in Hrun. destruct Hrun as [Hn _].
      rewrite Hrest in Hn. injection Hn as Hn.
      exists s, rest. repeat split; assumption.
  - intros Hu Hs.
    apply (assembled_dropped _ _ _ _ _ _ _ _ Hv Hasm
             (catalog_names_nodup "medium" _ eq_refl) st w w Hin eq_refl).
    change (lift (_generate_context_narration options post_data "medium") w
            = (Ok "", w)).
    rewrite (context_narration_silent _ _ Hu Hs). reflexivity.
Qed.

Lemma medium_context_segment_witness :
  exists script w' s rest,
    generate_script Config.SCRIPT_OPTIONS Sample.post "medium" None "casual"
      Sample.w0 = (Ok script, w')
    /\ In s (segments script) /\ name s = "context"
    /\ narration s = "Posted by u/" ++ author (metadata script) ++ rest.
Proof.
  assert (H : exists script w',
             generate_script Config.SCRIPT_OPTIONS Sample.post "medium"
               None "casual" Sample.w0 = (Ok script, w')).
  { vm_compute. eexists _, _. reflexivity. }
  destruct H as [script [w' H]].
  destruct (medium_context_segment _ _ _ _ _ _ H) as [Hshown _].
  destruct (Hshown eq_refl) as [s [rest Hs]].
  exists script, w', s, rest. split; [exact H | exact Hs].
Defined.

(** ** The intro phrase *)

(** X12. The intro narration is one of the phrases the configuration
    lists for the narration style, with the subreddit put in place of
    [{subreddit}]. For a style the configuration has no phrases for
    (educational, say, which [script_templates.py] lists) it is the
    fallback phrase "Here's an interesting post from r/" with the
    subreddit. A post without a subreddit raises [KeyError]. *)
Theorem intro_narration_from_pool post_data style w :
  (forall sr n w',
      p_subreddit post_data = Some sr ->
      _generate_intro_narration post_data style w = (Ok n, w') ->
      (exists pool phrase,
          lookup style Config.NARRATION_TEMPLATES_intro = Some pool
          /\ In phrase pool /\ n = PyStr.format_subreddit phrase sr)
      \/ (lookup style Config.NARRATION_TEMPLATES_intro = None
          /\ n = "Here's an interesting post from r/" ++ sr))
  /\ (p_subreddit post_data = None ->
      exists w',
        _generate_intro_narration post_data style w
        = (Raise (KeyError "subreddit"), w'))
  /\ lookup "educational" Config.NARRATION_TEMPLATES_intro = None.
Proof.
  split; [| split; [| reflexivity]].
  - intros sr n w' Hsr H. unfold _generate_intro_narration in H.
    apply bind_ok_inv in H. destruct H as [t [w1 [Hc H]]].
    rewrite Hsr in H. apply ret_inv in H. destruct H as [Hn _].
    injection Hn as Hn. apply choice_inv in Hc.
    destruct (lookup style Config.NARRATION_TEMPLATES_intro) as [pool |]
      eqn:Hl.
    + left. exists pool, t. split; [reflexivity |].
      simpl in Hc. destruct pool as [| p ps].
      * exfalso. apply lookup_some_in in Hl. simpl in Hl.
        destruct Hl as [E | [E | [E | [E | []]]]]; discriminate E.
      * split; [exact Hc | exact Hn].
    + right. split; [reflexivity |]. simpl in Hc.
      destruct Hc as [<- | []]. rewrite Hn.
      unfold PyStr.format_subreddit. cbn. rewrite append_empty_r.
      reflexivity.
  - intros Hnone. unfold _generate_intro_narration.
    destruct (intro_templates_plain style) as [Hne _]. cbv zeta in Hne.
    destruct (choice_nonempty _ w Hne) as [t [w1 [Hc _]]].
    rewrite (bind_ok _ _ _ _ _ Hc). rewrite Hnone.
    exists w1. reflexivity.
Qed.

(** ** Time stamps *)

Lemma py_int_floor q : 0 <= q -> py_int q = Qfloor q.
Proof.
  destruct q as [n d]. unfold py_int, Qfloor, Qle. simpl. intros H.
  apply Z.quot_div_nonneg; lia.
Qed.

Lemma Qfloor_unique x z :
  inject_Z z <= x -> x < inject_Z (z + 1) -> Qfloor x = z.
Proof.
  intros Hlo Hhi.
  pose proof (Qfloor_le x) as Hfl. pose proof (Qlt_floor x) as Hfh.
  assert (H1 : (z < Qfloor x + 1)%Z).
  { rewrite Zlt_Qlt. eapply Qle_lt_trans; eassumption. }
  assert (H2 : (Qfloor x < z + 1)%Z).
  { rewrite Zlt_Qlt. eapply Qle_lt_trans; eassumption. }
  lia.
Qed.

Lemma Qfloor_range x a b :
  inject_Z a <= x -> x < inject_Z b -> (a <= Qfloor x < b)%Z.
Proof.
  intros Hlo Hhi. split.
  - rewrite <- (Qfloor_Z a). apply Qfloor_resp_le. exact Hlo.
  - rewrite Zlt_Qlt. eapply Qle_lt_trans; [apply Qfloor_le | exact Hhi].
Qed.

Lemma Qfloor_div_pos x (n : positive) :
  Qfloor (x / inject_Z (Zpos n)) = (Qfloor x / Zpos n)%Z.
Proof.
  destruct x as [a d]. unfold Qfloor, Qdiv, Qmult, Qinv, inject_Z. simpl.
  rewrite Z.mul_1_r, Z.div_div by lia. rewrite Pos2Z.inj_mul. reflexivity.
Qed.

Lemma Qfloor_sub_Z x z : Qfloor (x - inject_Z z) = (Qfloor x - z)%Z.
Proof.
  apply Qfloor_unique.
  - unfold Z.sub. rewrite inject_Z_plus, inject_Z_opp.
    pose proof (Qfloor_le x). lra.
  - replace (Qfloor x - z + 1)%Z with ((Qfloor x + 1) + - z)%Z by lia.
    rewrite inject_Z_plus, inject_Z_opp.
    pose proof (Qlt_floor x). lra.
Qed.

Lemma timedelta_rounds seconds :
  exists r,
    timedelta_total_seconds seconds = inject_Z r / 1000000
    /\ (Qfloor (seconds * 1000000) <= r
        <= Qfloor (seconds * 1000000) + 1)%Z.
Proof.
  unfold timedelta_total_seconds.
  destruct (Qcompare (seconds * 1000000
                      - inject_Z (Qfloor (seconds * 1000000))) (1 # 2));
    [destruct (Z.even (Qfloor (seconds * 1000000))) | |];
    eexists; (split; [reflexivity | lia]).
Qed.

Lemma timedelta_nonneg seconds :
  0 <= seconds -> 0 <= timedelta_total_seconds seconds.
Proof.
  intros H. destruct (timedelta_rounds seconds) as [r [-> [Hr _]]].
  assert (H0 : (0 <= Qfloor (seconds * 1000000))%Z).
  { apply (Qfloor_range _ 0 (Qfloor (seconds * 1000000) + 1)).
    - change (inject_Z 0) with 0. lra.
    - apply Qlt_floor. }
  assert (Hr0 : 0 <= inject_Z r).
  { change 0 with (inject_Z 0). rewrite <- Zle_Qle. lia. }
  unfold Qdiv. change (/ 1000000) with (1 # 1000000). lra.
Qed.

(** The four fields, from the whole seconds of the rounded time and the
    fraction of the time given. *)
Lemma time_fields_nonneg seconds :
  0 <= seconds ->
  let whole := Qfloor (timedelta_total_seconds seconds) in
  time_fields seconds
  = ((whole / 3600)%Z, ((whole mod 3600) / 60)%Z, (whole mod 60)%Z,
     Qfloor ((seconds - inject_Z (Qfloor seconds)) * 1000)).
Proof.
  intros H whole. unfold time_fields. cbv zeta.
  unfold py_mod, py_floordiv.
  set (td := timedelta_total_seconds seconds) in *.
  pose proof (timedelta_nonneg seconds H) as Htd. fold td in Htd.
  assert (Hh : Qfloor (td / 3600) = (whole / 3600)%Z).
  { exact (Qfloor_div_pos td 3600). }
  assert (Hm60 : Qfloor (td / 60) = (whole / 60)%Z).
  { exact (Qfloor_div_pos td 60). }
  rewrite Hh, Hm60.
  assert (Hmin : Qfloor ((td - inject_Z (whole / 3600) * 3600) / 60)
                 = ((whole mod 3600) / 60)%Z).
  { rewrite (Qfloor_div_pos _ 60).
    rewrite (Qfloor_comp _ (td - inject_Z (whole / 3600 * 3600)))
      by (rewrite inject_Z_mult; reflexivity).
    rewrite Qfloor_sub_Z. fold whole.
    rewrite Z.mod_eq by lia. f_equal. lia. }
  assert (Hsec : py_int (td - inject_Z (whole / 60) * 60)
                 = (whole mod 60)%Z).
  { assert (E : td - inject_Z (whole / 60) * 60
                == td - inject_Z (whole / 60 * 60))
      by (rewrite inject_Z_mult; reflexivity).
    assert (Hfl : Qfloor (td - inject_Z (whole / 60) * 60)
                  = (whole mod 60)%Z).
    { rewrite (Qfloor_comp _ _ E), Qfloor_sub_Z. fold whole.
      rewrite Z.mod_eq by lia. lia. }
    rewrite py_int_floor; [exact Hfl |].
    assert (Hge : (0 <= whole mod 60)%Z) by (apply Z.mod_pos_bound; lia).
    rewrite <- Hfl in Hge.
    pose proof (Qfloor_le td) as Hf. fold whole in Hf.
    assert (Hq : inject_Z (whole / 60 * 60) <= inject_Z whole).
    { rewrite <- Zle_Qle. pose proof (Z.mul_div_le whole 60). lia. }
    rewrite E. lra. }
  assert (Hsf : py_int seconds = Qfloor seconds) by (apply py_int_floor, H).
  assert (Hms : py_int ((seconds - inject_Z (py_int seconds)) * 1000)
                = Qfloor ((seconds - inject_Z (Qfloor seconds)) * 1000)).
  { rewrite Hsf. apply py_int_floor.
    pose proof (Qfloor_le seconds). lra. }
  rewrite Hmin, Hsec, Hms. reflexivity.
Qed.

(** X13. For a time that is not negative the time stamp's fields stay in
    range: hours are not negative, minutes and seconds lie between 0 and
    59 and milliseconds between 0 and 999. *)
Theorem time_fields_in_range seconds :
  0 <= seconds ->
  let '(hours, minutes, secs, millis) := time_fields seconds in
  (0 <= hours /\ 0 <= minutes < 60 /\ 0 <= secs < 60
   /\ 0 <= millis < 1000)%Z.
Proof.
  intros H. rewrite (time_fields_nonneg seconds H). cbv zeta.
  pose proof (timedelta_nonneg seconds H) as Htd.
  assert (Hw : (0 <= Qfloor (timedelta_total_seconds seconds))%Z).
  { apply (Qfloor_range _ 0
             (Qfloor (timedelta_total_seconds seconds) + 1)).
    - exact Htd.
    - apply Qlt_floor. }
  split; [apply Z.div_pos; lia |]. split.
  - pose proof (Z.mod_pos_bound
                  (Qfloor (timedelta_total_seconds seconds)) 3600).
    split; [apply Z.div_pos; lia |].
    apply Z.div_lt_upper_bound; lia.
  - split; [apply Z.mod_pos_bound; lia |].
    apply Qfloor_range.
    + pose proof (Qfloor_le seconds). change (inject_Z 0) with 0. lra.
    + pose proof (Qlt_floor seconds) as Hf.
      rewrite inject_Z_plus in Hf. change (inject_Z 1) with 1 in Hf.
      change (inject_Z 1000) with 1000. lra.
Qed.

Lemma time_fields_in_range_witness :
  let '(hours, minutes, secs, millis) := time_fields (7384 + (1234 # 1000)) in
  (0 <= hours /\ 0 <= minutes < 60 /\ 0 <= secs < 60
   /\ 0 <= millis < 1000)%Z.
Proof.
  apply (time_fields_in_range (7384 + (1234 # 1000))). discriminate.
Defined.

Lemma timedelta_exact seconds r :
  seconds * 1000000 == inject_Z r ->
  timedelta_total_seconds seconds = inject_Z r / 1000000.
Proof.
  intros H. unfold timedelta_total_seconds.
  assert (Hlo : Qfloor (seconds * 1000000) = r).
  { rewrite (Qfloor_comp _ _ H). apply Qfloor_Z. }
  rewrite Hlo.
  assert (Hcmp : Qcompare (seconds * 1000000 - inject_Z r) (1 # 2) = Lt).
  { apply (proj1 (Qlt_alt _ _)). lra. }
  rewrite Hcmp. reflexivity.
Qed.

Lemma hms_recompose w :
  (w / 3600 * 3600 + w mod 3600 / 60 * 60 + w mod 60 = w)%Z.
Proof.
  pose proof (Z.div_mod w 3600 ltac:(lia)) as H1.
  pose proof (Z.div_mod (w mod 3600) 60 ltac:(lia)) as H2.
  pose proof (Z.div_mod w 60 ltac:(lia)) as H3.
  pose proof (Z.mod_pos_bound w 3600 ltac:(lia)) as B1.
  pose proof (Z.mod_pos_bound (w mod 3600) 60 ltac:(lia)) as B2.
  pose proof (Z.mod_pos_bound w 60 ltac:(lia)) as B3.
  lia.
Qed.

(** X14. A time whose exact value is a whole number of milliseconds is
    written exactly: hours, minutes, seconds and milliseconds of its time
    stamp add up to the time. *)
Theorem time_fields_exact_on_milliseconds seconds k :
  (0 <= k)%Z ->
  seconds == inject_Z k / 1000 ->
  fields_seconds (time_fields seconds) == seconds.
Proof.
  intros Hk Hs.
  assert (Hk0 : 0 <= inject_Z k).
  { change 0 with (inject_Z 0). rewrite <- Zle_Qle. exact Hk. }
  assert (H0 : 0 <= seconds).
  { rewrite Hs. unfold Qdiv. change (/ 1000) with (1 # 1000). lra. }
  rewrite (time_fields_nonneg seconds H0). cbv zeta. unfold fields_seconds.
  assert (Hus : seconds * 1000000 == inject_Z (k * 1000)).
  { rewrite Hs, inject_Z_mult. unfold Qdiv.
    change (/ 1000) with (1 # 1000). change (inject_Z 1000) with 1000.
    lra. }
  rewrite (timedelta_exact seconds _ Hus).
  assert (Hw : Qfloor (inject_Z (k * 1000) / 1000000) = (k / 1000)%Z).
  { rewrite (Qfloor_div_pos _ 1000000), Qfloor_Z.
    change 1000000%Z with (1000 * 1000)%Z.
    apply Z.div_mul_cancel_r; lia. }
  rewrite Hw.
  assert (Hfl : Qfloor seconds = (k / 1000)%Z).
  { rewrite (Qfloor_comp _ _ Hs), (Qfloor_div_pos _ 1000), Qfloor_Z.
    reflexivity. }
  rewrite Hfl.
  assert (Hdm : inject_Z k
                == inject_Z (k / 1000) * 1000 + inject_Z (k mod 1000)).
  { change 1000 with (inject_Z 1000).
    rewrite <- inject_Z_mult, <- inject_Z_plus.
    pose proof (Z.div_mod k 1000 ltac:(lia)) as E.
    rewrite Z.mul_comm in E. rewrite <- E. reflexivity. }
  assert (Hms : Qfloor ((seconds - inject_Z (k / 1000)) * 1000)
                = (k mod 1000)%Z).
  { rewrite <- (Qfloor_Z (k mod 1000)). apply Qfloor_comp.
    rewrite Hs. unfold Qdiv. change (/ 1000) with (1 # 1000). lra. }
  rewrite Hms, hms_recompose, Hs.
  unfold Qdiv. change (/ 1000) with (1 # 1000). lra.
Qed.

Lemma time_fields_exact_on_milliseconds_witness :
  fields_seconds (time_fields (3725 + (250 # 1000)))
  == 3725 + (250 # 1000).
Proof.
  apply (time_fields_exact_on_milliseconds _ 3725250).
  - lia.
  - reflexivity.
Defined.

(** X15. The time stamp takes its whole seconds from the time rounded to
    microseconds and its milliseconds from the time itself. For a time
    less than half a microsecond before a whole second, say before [n + 1]
    seconds, the rounding reaches [n + 1] while the milliseconds are still
    999: the stamp reads [n + 1] seconds and 999 milliseconds, almost a
    second later than the time. *)
Theorem time_stamp_late_before_whole_second seconds n :
  (0 <= n)%Z ->
  inject_Z (n + 1) - (1 # 2000000) <= seconds ->
  seconds < inject_Z (n + 1) ->
  time_fields seconds
  = (((n + 1) / 3600)%Z, (((n + 1) mod 3600) / 60)%Z, ((n + 1) mod 60)%Z,
     999%Z)
  /\ fields_seconds (time_fields seconds)
     == inject_Z (n + 1) + (999 # 1000)
  /\ seconds + (999 # 1000) < fields_seconds (time_fields seconds).
Proof.
  intros Hn Hlo Hhi.
  assert (Hn1 : inject_Z (n + 1) == inject_Z n + 1).
  { rewrite inject_Z_plus. reflexivity. }
  assert (Hn0 : 0 <= inject_Z n).
  { change 0 with (inject_Z 0). rewrite <- Zle_Qle. exact Hn. }
  assert (H0 : 0 <= seconds) by lra.
  assert (Hfl : Qfloor seconds = n).
  { apply Qfloor_unique; lra. }
  assert (Hus : Qfloor (seconds * 1000000) = ((n + 1) * 1000000 - 1)%Z).
  { apply Qfloor_unique.
    - unfold Z.sub. rewrite inject_Z_plus, inject_Z_mult, inject_Z_opp.
      change (inject_Z 1000000) with 1000000. change (inject_Z 1) with 1.
      lra.
    - replace ((n + 1) * 1000000 - 1 + 1)%Z with ((n + 1) * 1000000)%Z
        by lia.
      rewrite inject_Z_mult. change (inject_Z 1000000) with 1000000. lra. }
  assert (Htd : timedelta_total_seconds seconds
                = inject_Z ((n + 1) * 1000000) / 1000000).
  { unfold timedelta_total_seconds. rewrite Hus.
    assert (Hodd : Z.even ((n + 1) * 1000000 - 1) = false).
    { rewrite Z.even_sub, Z.even_mul. simpl. rewrite orb_true_r.
      reflexivity. }
    rewrite Hodd.
    replace ((n + 1) * 1000000 - 1 + 1)%Z with ((n + 1) * 1000000)%Z
      by lia.
    destruct (Qcompare (seconds * 1000000
                        - inject_Z ((n + 1) * 1000000 - 1)) (1 # 2)) eqn:Hc;
      try reflexivity.
    exfalso. apply (proj2 (Qlt_alt _ _)) in Hc.
    unfold Z.sub in Hc.
    rewrite inject_Z_plus, inject_Z_mult, inject_Z_opp in Hc.
    change (inject_Z 1000000) with 1000000 in Hc.
    change (inject_Z 1) with 1 in Hc. lra. }
  assert (Hw : Qfloor (timedelta_total_seconds seconds) = (n + 1)%Z).
  { rewrite Htd, (Qfloor_div_pos _ 1000000), Qfloor_Z.
    apply Z.div_mul. lia. }
  assert (Hms : Qfloor ((seconds - inject_Z n) * 1000) = 999%Z).
  { apply Qfloor_unique.
    - change (inject_Z 999) with 999. lra.
    - change (inject_Z (999 + 1)) with 1000. lra. }
  assert (Hfields : time_fields seconds
                    = (((n + 1) / 3600)%Z, (((n + 1) mod 3600) / 60)%Z,
                       ((n + 1) mod 60)%Z, 999%Z)).
  { rewrite (time_fields_nonneg seconds H0). cbv zeta.
    rewrite Hw, Hfl, Hms. reflexivity. }
  assert (Hread : fields_seconds (time_fields seconds)
                  == inject_Z (n + 1) + (999 # 1000)).
  { rewrite Hfields. unfold fields_seconds. rewrite hms_recompose.
    reflexivity. }
  split; [exact Hfields |]. split; [exact Hread |].
  rewrite Hread. lra.
Qed.

Lemma time_stamp_late_before_whole_second_witness :
  _format_srt_time (19999996 # 10000000) = "00:00:02,999"
  /\ (19999996 # 10000000) + (999 # 1000)
     < fields_seconds (time_fields (19999996 # 10000000)).
Proof.
  destruct (time_stamp_late_before_whole_second (19999996 # 10000000) 1)
    as [Hf [_ Hl]].
  - lia.
  - discriminate.
  - reflexivity.
  - split; [| exact Hl].
    unfold _format_srt_time. rewrite Hf. reflexivity.
Defined.

(** ** Subtitles of a segment *)




(** ** Segments without a sentence *)

Lemma lstrip_blank s : blank s -> PyStr.lstrip s = "".
Proof.
  unfold blank. induction s as [| c s IH]; simpl; [reflexivity |].
  intros H. apply andb_true_iff in H. destruct H as [Hc Hs].
  rewrite Hc. apply IH. exact Hs.
Qed.

Lemma strip_blank s : blank s -> PyStr.strip s = "".
Proof.
  intros H. unfold PyStr.strip. rewrite (lstrip_blank s H). reflexivity.
Qed.

Lemma blank_snoc s c :
  blank s -> PyStr.is_space c = true -> blank (PyStr.snoc s c).
Proof.
  unfold blank. intros Hs Hc. rewrite all_chars_snoc, Hs, Hc. reflexivity.
Qed.

Lemma no_sentence_pieces s :
  all_chars (fun c => PyStr.is_terminator c || PyStr.is_space c) s = true ->
  forall cur in_run, blank cur ->
    Forall blank (PyStr.re_split_from s cur in_run).
Proof.
  induction s as [| c s IH]; simpl; intros H cur in_run Hcur.
  - constructor; [exact Hcur | constructor].
  - apply andb_true_iff in H. destruct H as [Hc Hs].
    destruct (PyStr.is_terminator c) eqn:Ht.
    + destruct in_run.
      * apply IH; [exact Hs | reflexivity].
      * constructor; [exact Hcur |]. apply IH; [exact Hs | reflexivity].
    + simpl in Hc. apply IH; [exact Hs |]. apply blank_snoc; assumption.
Qed.

Lemma no_sentence narration :
  all_chars (fun c => PyStr.is_terminator c || PyStr.is_space c) narration
  = true ->
  split_sentences narration = [].
Proof.
  intros H. unfold split_sentences, PyStr.re_split_terminators.
  pose proof (no_sentence_pieces narration H "" false eq_refl) as Hp.
  induction Hp as [| p ps Hb _ IH]; simpl; [reflexivity |].
  rewrite (strip_blank p Hb). simpl. exact IH.
Qed.

Lemma segment_without_sentence m seg subtitles :
  all_chars (fun c => PyStr.is_terminator c || PyStr.is_space c)
            (narration seg) = true ->
  segment_subtitles m seg subtitles = subtitles.
Proof.
  intros H. unfold segment_subtitles.
  destruct (PyStr.is_empty (narration seg)); [reflexivity |].
  rewrite (no_sentence _ H). reflexivity.
Qed.

(** X17. A segment whose narration holds nothing but sentence
    terminators and blanks, the empty narration included, adds no
    subtitle entry. So a script made of such segments has no subtitles:
    its SRT export is the empty file and its WebVTT export is the header
    line and a blank line. *)
Theorem script_without_sentences script :
  Forall (fun seg =>
            all_chars (fun c => PyStr.is_terminator c || PyStr.is_space c)
                      (narration seg) = true)
         (segments script) ->
  _generate_subtitles script = []
  /\ _export_srt script = ""
  /\ _export_vtt script = "WEBVTT" ++ nl ++ nl.
Proof.
  intros H.
  assert (Hsub : _generate_subtitles script = []).
  { unfold _generate_subtitles, _generate_subtitles_with.
    generalize (@nil Subtitle).
    induction H as [| seg segs Hseg _ IH]; intros acc; simpl.
    - reflexivity.
    - rewrite (segment_without_sentence 42 seg acc Hseg). apply IH. }
  split; [exact Hsub |]. split.
  - unfold _export_srt. rewrite Hsub. reflexivity.
  - unfold _export_vtt. rewrite Hsub. reflexivity.
Qed.

Lemma script_without_sentences_witness :
  _export_vtt
    {| metadata := metadata Sample.hello_script;
       segments :=
         [ {| name := "outro"; type := "outro"; start_time := 0;
              end_time := 3; duration := 3; narration := "...";
              visual := {| v_type := "end_screen"; v_elements := [] |};
              required := true |} ];
       total_duration := 3; word_count := 1;
       narration_style := "casual" |}
  = "WEBVTT" ++ nl ++ nl.
Proof.
  apply script_without_sentences. repeat constructor.
Defined.

(** ** Visual cues of a script *)





